(** * Forensic bundle-detection engine: a shallow embedding

    The engine is TypeScript.  Its values are embedded as follows.

    - [number] is an IEEE-754 binary64, so it is Rocq's primitive [float];
      comparisons are [PrimFloat.ltb] and friends (false on NaN, as in JS).
    - Counts that the code obtains from [Set.size], [Array.length] or an
      integer literal, and the score with its impacts, only ever hold small
      integers, on which binary64 arithmetic is exact: they are [Z].
    - [Set<string>] keeps insertion order (the engine spreads sets into
      arrays and slices them), so it is a duplicate-free [list string];
      the constant look-up sets, only queried with [has], are [gset string].
    - [Map<string, number>] is an association list in insertion order.
    - [T | null], [T | undefined] and optional chaining are [option T].
    - A promise is a state transformer over an abstract world [W] that
      holds the remote providers; a rejected promise is [None] where the
      engine catches it. *)

From Stdlib Require Import PrimFloat ZArith String Ascii List Lia.
From stdpp Require Import base option list strings gmap pretty.

Open Scope string_scope.
Open Scope Z_scope.
Open Scope list_scope.

Set Warnings "-inexact-float".

(** ** JavaScript primitives *)

Module Js.

(** [a > b] and [a < b] on numbers. *)
Definition gt (a b : float) : bool := PrimFloat.ltb b a.
Definition lt (a b : float) : bool := PrimFloat.ltb a b.

(** Truthiness: a number is falsy when it is [0], [-0] or [NaN];
    a string when it is empty. *)
Definition truthyNum (x : float) : bool :=
  negb (PrimFloat.eqb x 0%float) && PrimFloat.eqb x x.
Definition truthyStr (s : string) : bool :=
  match s with EmptyString => false | _ => true end.

(** [x || d]. *)
Definition orNum (x d : float) : float := if truthyNum x then x else d.
Definition orStr (s d : string) : string := if truthyStr s then s else d.

(** [String.prototype.toUpperCase], [toLowerCase] and [trim], on the
    ASCII range. *)
Definition upperAscii (c : ascii) : ascii :=
  let n := nat_of_ascii c in
  if (97 <=? n)%nat && (n <=? 122)%nat then ascii_of_nat (n - 32) else c.
Definition lowerAscii (c : ascii) : ascii :=
  let n := nat_of_ascii c in
  if (65 <=? n)%nat && (n <=? 90)%nat then ascii_of_nat (n + 32) else c.
Fixpoint mapString (f : ascii → ascii) (s : string) : string :=
  match s with
  | EmptyString => EmptyString
  | String c s' => String (f c) (mapString f s')
  end.
Definition toUpperCase : string → string := mapString upperAscii.
Definition toLowerCase : string → string := mapString lowerAscii.

Definition isSpace (c : ascii) : bool :=
  let n := nat_of_ascii c in
  ((9 <=? n)%nat && (n <=? 13)%nat) || (n =? 32)%nat.
Fixpoint trimStart (s : string) : string :=
  match s with
  | String c s' => if isSpace c then trimStart s' else s
  | EmptyString => EmptyString
  end.
Fixpoint trimEnd (s : string) : string :=
  match s with
  | EmptyString => EmptyString
  | String c s' =>
      match trimEnd s' with
      | EmptyString => if isSpace c then EmptyString else String c EmptyString
      | r => String c r
      end
  end.
Definition trim (s : string) : string := trimEnd (trimStart s).

(** [arr.slice(0, e)]: a negative end counts from the end of the array. *)
Definition slice0 {A} (l : list A) (e : Z) : list A :=
  if e <? 0 then take (Z.to_nat (Z.of_nat (length l) + e)) l
  else take (Z.to_nat e) l.

(** [arr.find(p)]. *)
Definition find {A} (p : A → bool) (l : list A) : option A := List.find p l.

(** [arr.sort(cmp)]: the sort is stable; an element moves in front of
    another exactly when the comparator is negative on the pair taken in
    the opposite order.  Insertion from the right implements it. *)
Fixpoint sortInsert {A} (cmp : A → A → float) (x : A) (l : list A) : list A :=
  match l with
  | [] => [x]
  | y :: l' => if gt (cmp x y) 0%float then y :: sortInsert cmp x l' else x :: l
  end.
Definition sort {A} (cmp : A → A → float) (l : list A) : list A :=
  foldr (sortInsert cmp) [] l.

(** Built-ins whose result is a rendering of, or read from, decimal
    text: the engine's control flow never inspects the rendered text. *)
Class Builtins := {
  parseFloat : string → float;
  parseInt : string → Z → float;
  toLocaleString : float → string;
  toFixed : float → nat → string;
  numberToString : float → string;
}.

End Js.

(** [Set<string>] in insertion order. *)
Module JsSet.
Definition t := list string.
Definition empty : t := [].
Definition has (x : string) (s : t) : bool := bool_decide (x ∈ s).
Definition add (x : string) (s : t) : t := if has x s then s else s ++ [x].
Definition size (s : t) : Z := Z.of_nat (length s).
End JsSet.

(** [Map<string, V>] in insertion order: [set] overwrites in place. *)
Module JsMap.
Definition t (V : Type) := list (string * V).
Fixpoint set {V} (k : string) (v : V) (m : t V) : t V :=
  match m with
  | [] => [(k, v)]
  | (k', v') :: m' => if String.eqb k k' then (k, v) :: m' else (k', v') :: set k v m'
  end.
Fixpoint get {V} (k : string) (m : t V) : option V :=
  match m with
  | [] => None
  | (k', v') :: m' => if String.eqb k k' then Some v' else get k m'
  end.
End JsMap.

(** ** Promises over the provider world *)

Definition IO (W A : Type) : Type := W → A * W.

Definition ioRet {W A} (a : A) : IO W A := fun w => (a, w).
Definition ioBind {W A B} (m : IO W A) (k : A → IO W B) : IO W B :=
  fun w => let '(a, w') := m w in k a w'.

Notation "'await' x ':=' m 'in' k" := (ioBind m (fun x => k))
  (at level 10, x name, m at level 100, k at level 200, only parsing).
Notation "'await' ' p ':=' m 'in' k" :=
  (ioBind m (fun x => match x with p => k end))
  (at level 10, p pattern, m at level 100, k at level 200, only parsing).


(** ** Forensic provider types (moralisService) *)

Record NormalizedTransfer := {
  txHash : string;
  blockNumber : float;
  buyerAddress : string;
  sellerAddress : string;
  tokenAmount : float;
  usdValue : float;
  transactionType : string;
}.

Record NormalizedHolder := {
  holderAddress : string;
  balance : float;
  percentage : float;
  holderUsdValue : float;
}.

Record ForensicData := {
  holders : list NormalizedHolder;
  block0Transfers : list NormalizedTransfer;
  earlyTransfers : list NormalizedTransfer;
  creationBlock : float;
  chain : string;
}.

(** ** Forensic analysis (scanEngine) *)

Definition ZERO_ADDRESSES : gset string :=
  {[ "0x0000000000000000000000000000000000000000";
     "0x0000000000000000000000000000000000000001";
     "11111111111111111111111111111111";
     EmptyString ]}.

Definition isZeroAddress (addr : string) : bool :=
  bool_decide (addr ∈ ZERO_ADDRESSES).

Record AnalysisResult := {
  sniperCount : Z;
  block0Volume : float;
  earlyVolume : float;
  bundleVolumeUSD : float;
  totalBundlePercentage : float;
  holdingConcentration : float;
  uniqueFundingSources : Z;
  hasBundleCluster : bool;
  block0Buyers : JsSet.t;
}.

Definition emptyAnalysis : AnalysisResult := {|
  sniperCount := 0; block0Volume := 0; earlyVolume := 0; bundleVolumeUSD := 0;
  totalBundlePercentage := 0; holdingConcentration := 0; uniqueFundingSources := 0;
  hasBundleCluster := false; block0Buyers := JsSet.empty;
|}.

(** Body of the [forEach] over the launch-window transfers (step 1); the
    accumulator is the pair of the two variables the closure mutates. *)
Definition block0Step (isSolana : bool) (priceUsd : float)
    (acc : JsSet.t * float) (tx : NormalizedTransfer) : JsSet.t * float :=
  let '(buyers, volume) := acc in
  let buyer := buyerAddress tx in
  let seller := sellerAddress tx in
  if negb isSolana && isZeroAddress seller then acc
  else if negb (Js.truthyStr buyer) || isZeroAddress buyer then acc
  else
    (JsSet.add buyer buyers,
     if Js.gt (usdValue tx) 0 then (volume + usdValue tx)%float
     else (volume + tokenAmount tx * priceUsd)%float).

(** Body of the [forEach] over the early-window transfers (step 2):
    [earlyVolume], [earlyBuyers], [fundingSources]. *)
Definition earlyStep (isSolana : bool) (priceUsd : float)
    (acc : float * JsSet.t * JsSet.t) (tx : NormalizedTransfer)
    : float * JsSet.t * JsSet.t :=
  let '(volume, buyers, sources) := acc in
  let buyer := buyerAddress tx in
  let seller := sellerAddress tx in
  if negb isSolana && isZeroAddress seller then acc
  else if negb (Js.truthyStr buyer) || isZeroAddress buyer then acc
  else
    let buyers' := JsSet.add buyer buyers in
    let sources' :=
      if Js.truthyStr seller && negb (isZeroAddress seller)
      then JsSet.add seller sources else sources in
    (if Js.gt (usdValue tx) 0 then (volume + usdValue tx)%float
     else (volume + tokenAmount tx * priceUsd)%float,
     buyers', sources').

(** [sourceToRecipients] is a plain object literal.  Reading a key it
    does not own falls through to [Object.prototype]; for these keys the
    value read is truthy, no set is stored, and the following [.add] call
    raises a [TypeError]. *)
Definition OBJECT_PROTOTYPE_KEYS : list string :=
  [ "constructor"; "hasOwnProperty"; "isPrototypeOf"; "propertyIsEnumerable";
    "toLocaleString"; "toString"; "valueOf"; "__proto__";
    "__defineGetter__"; "__defineSetter__"; "__lookupGetter__"; "__lookupSetter__" ].

(** Step 3 on account-model chains: seller → set of recipients.  [None]
    is the raised [TypeError]. *)
Fixpoint sourceToRecipients (txs : list NormalizedTransfer)
    (tbl : JsMap.t JsSet.t) : option (JsMap.t JsSet.t) :=
  match txs with
  | [] => Some tbl
  | tx :: rest =>
      let seller := sellerAddress tx in
      let buyer := buyerAddress tx in
      if negb (isZeroAddress seller) && Js.truthyStr buyer && negb (isZeroAddress buyer)
      then
        match JsMap.get seller tbl with
        | Some recipients =>
            sourceToRecipients rest (JsMap.set seller (JsSet.add buyer recipients) tbl)
        | None =>
            if bool_decide (seller ∈ OBJECT_PROTOTYPE_KEYS) then None
            else sourceToRecipients rest (JsMap.set seller (JsSet.add buyer JsSet.empty) tbl)
        end
      else sourceToRecipients rest tbl
  end.

(** The loop over [Object.entries] only asks whether some recipient set
    has at least three members, so the enumeration order is immaterial. *)
Definition hasFanOut (tbl : JsMap.t JsSet.t) : bool :=
  existsb (fun e => 3 <=? JsSet.size (snd e)) tbl.

Definition isSolanaChain (chainId : string) : bool := String.eqb chainId "solana".

(** [analyzeForensics]; [None] is the exception escaping from step 3. *)
Definition analyzeForensics (forensics : option ForensicData)
    (priceUsd fdv : float) (chainId : string) : option AnalysisResult :=
  match forensics with
  | None => Some emptyAnalysis
  | Some forensics =>
      let isSolana := isSolanaChain chainId in
      (* step 1 *)
      let '(block0Buyers, block0Volume) :=
        fold_left (block0Step isSolana priceUsd) (block0Transfers forensics)
                  (JsSet.empty, 0%float) in
      (* step 2 *)
      let '(earlyVolume, earlyBuyers, fundingSources) :=
        fold_left (earlyStep isSolana priceUsd) (earlyTransfers forensics)
                  (0%float, JsSet.empty, JsSet.empty) in
      (* step 3 *)
      let clusterVerdict : option (bool * float) :=
        if isSolana then
          let hasBundleCluster := 3 <=? JsSet.size block0Buyers in
          if negb hasBundleCluster && (5 <=? JsSet.size earlyBuyers)
          then Some (true, earlyVolume)
          else Some (hasBundleCluster, block0Volume)
        else
          match sourceToRecipients (earlyTransfers forensics) [] with
          | None => None
          | Some tbl => Some (hasFanOut tbl, block0Volume)
          end in
      match clusterVerdict with
      | None => None
      | Some (hasBundleCluster, bundleVolumeUSD) =>
          (* step 4 *)
          let holdingConcentration :=
            fold_left (fun acc h => (acc + percentage h)%float) (holders forensics) 0%float in
          (* step 5 *)
          let totalBundlePercentage :=
            if Js.gt fdv 0 then (block0Volume / fdv * 100)%float else 0%float in
          let uniqueFundingSources :=
            if isSolana then JsSet.size earlyBuyers else JsSet.size fundingSources in
          Some {|
            sniperCount := JsSet.size block0Buyers;
            block0Volume := block0Volume;
            earlyVolume := earlyVolume;
            bundleVolumeUSD := if hasBundleCluster then bundleVolumeUSD else block0Volume;
            totalBundlePercentage := totalBundlePercentage;
            holdingConcentration := holdingConcentration;
            uniqueFundingSources := uniqueFundingSources;
            hasBundleCluster := hasBundleCluster;
            block0Buyers := block0Buyers;
          |}
      end
  end.

(** ** Scoring (scanEngine) *)

(** goPlus: the security audit. *)
Record SecurityData := {
  is_honeypot : bool;
  is_mintable : bool;
  owner_address : string;
  is_open_source : bool;
  buy_tax : string;
  sell_tax : string;
  cannot_sell_all : bool;
  is_proxy : bool;
  slippage_modifiable : bool;
}.

Inductive FactorStatus := pass | warn | fail | info.

Record ScoreFactor := {
  label : string;
  impact : Z;
  status : FactorStatus;
  detail : string;
}.

Record StatusDistribution := {
  locked : Z; burned : Z; dormant : Z; active : Z;
}.

(** Modelled from the spec: the cluster record of the cluster-labelling
    component, whose declaration (lib/mockData) is not among the sources:
    id, member wallets, supply percent, USD value, lock/burn/dormant/active
    status, LP-impact ratio and qualitative risk. *)
Record Cluster := {
  clusterId : string;
  clusterWallets : list string;
  clusterSupplyPercent : float;
  clusterValueUSD : float;
  clusterStatus : string;
  clusterLpImpactRatio : float;
  clusterRisk : string;
}.

(** [BundleControlResult]: the fields the engine reads. *)
Module BundleControl.
Record t := {
  clusters : list Cluster;
  overallRisk : string;
  clusterCount : Z;
  lpImpactRatio : float;
  totalBundledSupplyPercent : float;
  totalBundledTokens : float;
  totalBundledValueUSD : float;
  totalWalletCount : Z;
  statusDistribution : StatusDistribution;
}.
End BundleControl.

(** The [analysis] object assembled by [runFullScan] (step F) and read by
    [calculateScore]. *)
Module Analysis.
Record t := {
  totalBundlePercentage : float;
  bundleWalletCount : Z;
  holdingConcentration : float;
  liquidityMcapRatio : float;
  uniqueFundingSources : Z;
  bundleHoldingsUSD : float;
  bundleVolumeUSD : float;
  liquidityRiskRatio : float;
  clusters : list Cluster;
  overallRisk : string;
  lpValueUSD : float;
  clusterCount : Z;
  lpImpactRatio : float;
  totalBundledSupplyPercent : float;
  totalBundledTokens : float;
  totalBundledValueUSD : float;
  totalWalletCount : Z;
  statusDistribution : StatusDistribution;
  lastUpdated : string;
  block0Volume : float;
  block1Volume : float;
  bribeFees : float;
  initialInsiderSupply : float;
  totalInsiderSold : float;
  currentInsiderHoldings : float;
  retentionRate : float;
}.
End Analysis.

Record ScoreResult := {
  score : Z;
  breakdown : list ScoreFactor;
}.

(** The two mutable locals of [calculateScore]: [score] and [breakdown]. *)
Definition ScoreState : Type := Z * list ScoreFactor.

(** [score -= k; breakdown.push(f)] and a bare [breakdown.push(f)]. *)
Definition deduct (k : Z) (f : ScoreFactor) (st : ScoreState) : ScoreState :=
  (fst st - k, snd st ++ [f]).
Definition push (f : ScoreFactor) (st : ScoreState) : ScoreState :=
  (fst st, snd st ++ [f]).

Section Scoring.
Context `{Js.Builtins}.

Definition honeypotFactor : ScoreFactor :=
  {| label := "Honeypot"; impact := -100; status := fail;
     detail := "Cannot sell — confirmed honeypot" |}.

Definition isHoneypot (security : option SecurityData) : bool :=
  match security with Some s => is_honeypot s | None => false end.

Definition ruleMintable (security : option SecurityData) (st : ScoreState) : ScoreState :=
  if (match security with Some s => is_mintable s | None => false end)
  then deduct 25 {| label := "Mintable Supply"; impact := -25; status := fail;
                    detail := "Owner can mint new tokens" |} st
  else st.

(** [parseFloat(security?.buy_tax || '0')]. *)
Definition taxOf (field : SecurityData → string) (security : option SecurityData) : float :=
  Js.parseFloat (Js.orStr (match security with Some s => field s | None => EmptyString end) "0").

Definition ruleBuyTax (security : option SecurityData) (st : ScoreState) : ScoreState :=
  let buyTax := taxOf buy_tax security in
  if Js.gt buyTax 10
  then deduct 15 {| label := "Buy Tax"; impact := -15; status := fail;
                    detail := Js.toFixed buyTax 1 +:+ "% tax on buys" |} st
  else st.

Definition ruleSellTax (security : option SecurityData) (st : ScoreState) : ScoreState :=
  let sellTax := taxOf sell_tax security in
  if Js.gt sellTax 10
  then deduct 15 {| label := "Sell Tax"; impact := -15; status := fail;
                    detail := Js.toFixed sellTax 1 +:+ "% tax on sells" |} st
  else st.

Definition ruleSellRestriction (security : option SecurityData) (st : ScoreState) : ScoreState :=
  if (match security with Some s => cannot_sell_all s | None => false end)
  then deduct 30 {| label := "Sell Restriction"; impact := -30; status := fail;
                    detail := "Cannot sell entire balance" |} st
  else st.

Definition ruleLiquidity (liquidityUsd : float) (st : ScoreState) : ScoreState :=
  let shown := "$" +:+ Js.toLocaleString liquidityUsd in
  if Js.lt liquidityUsd 1000
  then deduct 40 {| label := "Liquidity"; impact := -40; status := fail;
                    detail := shown +:+ " — critically low" |} st
  else if Js.lt liquidityUsd 5000
  then deduct 25 {| label := "Liquidity"; impact := -25; status := warn;
                    detail := shown +:+ " — low" |} st
  else if Js.lt liquidityUsd 20000
  then deduct 10 {| label := "Liquidity"; impact := -10; status := warn;
                    detail := shown +:+ " — moderate" |} st
  else push {| label := "Liquidity"; impact := 0; status := pass;
               detail := shown +:+ " — healthy" |} st.

Definition ruleBundleActivity (analysis : Analysis.t) (st : ScoreState) : ScoreState :=
  let n := Analysis.bundleWalletCount analysis in
  if n >? 10
  then deduct 30 {| label := "Bundle Activity"; impact := -30; status := fail;
                    detail := pretty n +:+ " bundled wallets — heavy coordination" |} st
  else if n >? 5
  then deduct 15 {| label := "Bundle Activity"; impact := -15; status := warn;
                    detail := pretty n +:+ " bundled wallets — moderate coordination" |} st
  else if n >? 2
  then deduct 5 {| label := "Bundle Activity"; impact := -5; status := warn;
                   detail := pretty n +:+ " bundled wallets detected" |} st
  else push {| label := "Bundle Activity"; impact := 0; status := pass;
               detail := if n >? 0 then pretty n +:+ " wallet(s) — minimal"
                         else "No bundle activity detected" |} st.

Definition ruleLaunchVolume (analysis : Analysis.t) (st : ScoreState) : ScoreState :=
  let v := Analysis.block0Volume analysis in
  let shown := "$" +:+ Js.toLocaleString v in
  if Js.gt v 50000
  then deduct 25 {| label := "Launch Volume"; impact := -25; status := fail;
                    detail := shown +:+ " — massive launch buying" |} st
  else if Js.gt v 10000
  then deduct 15 {| label := "Launch Volume"; impact := -15; status := warn;
                    detail := shown +:+ " — high launch buying" |} st
  else if Js.gt v 5000
  then deduct 10 {| label := "Launch Volume"; impact := -10; status := warn;
                    detail := shown +:+ " — moderate launch buying" |} st
  else push {| label := "Launch Volume"; impact := 0; status := pass;
               detail := if Js.gt v 0 then shown +:+ " — low"
                         else "No launch block activity" |} st.

Definition ruleHolderConcentration (analysis : Analysis.t) (st : ScoreState) : ScoreState :=
  let c := Analysis.holdingConcentration analysis in
  let shown := Js.toFixed c 1 +:+ "% held by top 20" in
  if Js.gt c 80
  then deduct 20 {| label := "Holder Concentration"; impact := -20; status := fail;
                    detail := shown +:+ " — very concentrated" |} st
  else if Js.gt c 60
  then deduct 10 {| label := "Holder Concentration"; impact := -10; status := warn;
                    detail := shown +:+ " — concentrated" |} st
  else push {| label := "Holder Concentration"; impact := 0; status := pass;
               detail := shown +:+ " — distributed" |} st.

Definition ruleLpImpact (bc : BundleControl.t) (st : ScoreState) : ScoreState :=
  let r := BundleControl.lpImpactRatio bc in
  let shown := Js.numberToString r +:+ "x" in
  if Js.gt r 1.5
  then deduct 20 {| label := "LP Impact Ratio"; impact := -20; status := fail;
                    detail := shown +:+ " — bundled value far exceeds LP" |} st
  else if Js.gt r 1.0
  then deduct 15 {| label := "LP Impact Ratio"; impact := -15; status := fail;
                    detail := shown +:+ " — bundled value exceeds LP" |} st
  else if Js.gt r 0.5
  then deduct 10 {| label := "LP Impact Ratio"; impact := -10; status := warn;
                    detail := shown +:+ " — significant LP pressure risk" |} st
  else push {| label := "LP Impact Ratio"; impact := 0; status := pass;
               detail := shown +:+ " — manageable LP impact" |} st.

Definition ruleBundledSupply (bc : BundleControl.t) (st : ScoreState) : ScoreState :=
  let p := BundleControl.totalBundledSupplyPercent bc in
  let shown := Js.numberToString p +:+ "%" in
  if Js.gt p 30
  then deduct 15 {| label := "Bundled Supply"; impact := -15; status := fail;
                    detail := shown +:+ " of supply held by bundle clusters" |} st
  else if Js.gt p 10
  then deduct 8 {| label := "Bundled Supply"; impact := -8; status := warn;
                   detail := shown +:+ " of supply in bundle clusters" |} st
  else if Js.gt p 0
  then push {| label := "Bundled Supply"; impact := 0; status := pass;
               detail := shown +:+ " — low bundled supply" |} st
  else st.

Definition ruleDeepBundle (bundleControl : option BundleControl.t)
    (st : ScoreState) : ScoreState :=
  match bundleControl with
  | Some bc =>
      if BundleControl.clusterCount bc >? 0
      then ruleBundledSupply bc (ruleLpImpact bc st)
      else st
  | None => st
  end.

Definition calculateScore (liquidityUsd : float) (security : option SecurityData)
    (analysis : Analysis.t) (bundleControl : option BundleControl.t) : ScoreResult :=
  if isHoneypot security
  then {| score := 0; breakdown := [] ++ [honeypotFactor] |}
  else
    let st : ScoreState := (100, []) in
    let st := ruleMintable security st in
    let st := ruleBuyTax security st in
    let st := ruleSellTax security st in
    let st := ruleSellRestriction security st in
    let st := ruleLiquidity liquidityUsd st in
    let st := ruleBundleActivity analysis st in
    let st := ruleLaunchVolume analysis st in
    let st := ruleHolderConcentration analysis st in
    let st := ruleDeepBundle bundleControl st in
    {| score := Z.max 0 (Z.min 100 (fst st)); breakdown := snd st |}.

End Scoring.

(** ** Wallet trace records (heliusService) *)

Module TokenTransfer.
Record t := {
  fromUserAccount : string;
  toUserAccount : string;
  tokenAmount : float;
  mint : string;
}.
End TokenTransfer.

Module NativeTransfer.
Record t := {
  fromUserAccount : string;
  toUserAccount : string;
  amount : float;  (* lamports *)
}.
End NativeTransfer.

(** The two arrays are guarded by truthiness tests in the code, so they
    may be missing from a provider record. *)
Module HeliusTransaction.
Record t := {
  signature : string;
  type : string;
  source : string;
  slot : float;
  timestamp : float;
  feePayer : string;
  tokenTransfers : option (list TokenTransfer.t);
  nativeTransfers : option (list NativeTransfer.t);
}.
End HeliusTransaction.

Module FundingSource.
Record t := {
  address : string;
  amount : float;
  timestamp : float;
  isCex : bool;
}.
End FundingSource.

Module Swap.
Record t := { tokenAmount : float; timestamp : float }.
End Swap.

Module Outgoing.
Record t := { to : string; tokenAmount : float; timestamp : float }.
End Outgoing.

Module Incoming.
Record t := { from : string; tokenAmount : float; timestamp : float }.
End Incoming.

(** [HeliusWalletData], shared by both tracers. *)
Module WalletData.
Record t := {
  address : string;
  buys : list Swap.t;
  sells : list Swap.t;
  outgoingTransfers : list Outgoing.t;
  incomingTransfers : list Incoming.t;
  currentBalance : float;
  isSeedWallet : bool;
  traceDepth : Z;
  fundingSource : option FundingSource.t;
}.
End WalletData.

(** ** The breadth-first trace

    [traceDistributionTree] (Helius) and [traceEvmDistributionTree]
    (Alchemy) are the same four-level loop nest, statement for statement;
    they differ in the exclusion test, in the per-wallet fetch, in the batch
    balance look-up and in the end index handed to [slice].  The loop nest
    is written once over these four.  The [delay] calls only pace the
    requests and are not modelled. *)

Definition MAX_TOTAL_WALLETS : Z := 400.

Section TraceLevels.
Context {W : Type}.
Variable isExcluded : string → bool.
Variable fetchSeed : string → IO W WalletData.t.
Variable fetchHop : string → Z → IO W WalletData.t.
Variable batchBalances : list string → IO W (JsMap.t float).
Variable sliceEnd : Z → Z → Z.

(** Loop state: [knownAddresses] and [results]. *)
Definition TraceState : Type := JsSet.t * list WalletData.t.

Definition resultsLength (results : list WalletData.t) : Z :=
  Z.of_nat (length results).

(** Level 0: [for (const wallet of seedAddresses)]. *)
Fixpoint seedLoop (seedAddresses : list string) (st : TraceState) : IO W TraceState :=
  match seedAddresses with
  | [] => ioRet st
  | wallet :: rest =>
      if isExcluded wallet then seedLoop rest st
      else
        let knownAddresses := JsSet.add wallet (fst st) in
        await walletData := fetchSeed wallet in
        seedLoop rest (knownAddresses, snd st ++ [walletData])
  end.

(** The nested [forEach] that gathers the next level's addresses. *)
Definition collectRecipients (knownAddresses : JsSet.t)
    (from : list WalletData.t) : JsSet.t :=
  fold_left
    (fun level w =>
       fold_left
         (fun level t =>
            if negb (JsSet.has (Outgoing.to t) knownAddresses)
               && negb (isExcluded (Outgoing.to t))
            then JsSet.add (Outgoing.to t) level else level)
         (WalletData.outgoingTransfers w) level)
    from JsSet.empty.

(** Levels 1 and 2: [for (const wallet of levelArray)], with the
    [break] on the cap. *)
Fixpoint hopLoop (depth : Z) (levelArray : list string) (st : TraceState)
    : IO W TraceState :=
  match levelArray with
  | [] => ioRet st
  | wallet :: rest =>
      if resultsLength (snd st) >=? MAX_TOTAL_WALLETS then ioRet st
      else
        let knownAddresses := JsSet.add wallet (fst st) in
        await walletData := fetchHop wallet depth in
        hopLoop depth rest (knownAddresses, snd st ++ [walletData])
  end.

(** Level 3: [for (const [addr, balance] of balances)]. *)
Fixpoint balanceLoop (balances : JsMap.t float) (st : TraceState) : TraceState :=
  match balances with
  | [] => st
  | (addr, balance) :: rest =>
      if resultsLength (snd st) >=? MAX_TOTAL_WALLETS then st
      else
        balanceLoop rest
          (JsSet.add addr (fst st),
           snd st ++ [ {| WalletData.address := addr;
                          WalletData.buys := [];
                          WalletData.sells := [];
                          WalletData.outgoingTransfers := [];
                          WalletData.incomingTransfers := [];
                          WalletData.currentBalance := balance;
                          WalletData.isSeedWallet := false;
                          WalletData.traceDepth := 3;
                          WalletData.fundingSource := None |} ])
  end.

Definition atDepth (d : Z) (results : list WalletData.t) : list WalletData.t :=
  List.filter (fun r => WalletData.traceDepth r =? d) results.

(** [[...levelAddresses].slice(0, end)]. *)
Definition levelArrayOf (levelAddresses : JsSet.t) (results : list WalletData.t)
    : list string :=
  Js.slice0 levelAddresses
    (sliceEnd (JsSet.size levelAddresses) (MAX_TOTAL_WALLETS - resultsLength results)).

Definition traceLevels (seedAddresses : list string) : IO W (list WalletData.t) :=
  (* level 0 *)
  await st := seedLoop seedAddresses (JsSet.empty, []) in
  (* level 1 *)
  let level1Addresses := collectRecipients (fst st) (snd st) in
  let level1Array := levelArrayOf level1Addresses (snd st) in
  await st := hopLoop 1 level1Array st in
  (* level 2 *)
  let level2Addresses := collectRecipients (fst st) (atDepth 1 (snd st)) in
  let level2Array := levelArrayOf level2Addresses (snd st) in
  await st := hopLoop 2 level2Array st in
  (* level 3 *)
  let level3Addresses := collectRecipients (fst st) (atDepth 2 (snd st)) in
  let level3Array := levelArrayOf level3Addresses (snd st) in
  if (0 <? length level3Array)%nat
  then
    await level3Balances := batchBalances level3Array in
    ioRet (snd (balanceLoop level3Balances st))
  else ioRet (snd st).

End TraceLevels.

(** ** Solana adapter and tracer (heliusService) *)

(** What the process reads from outside: the environment and the clock. *)
Class Runtime (W : Type) := {
  (** [import.meta.env.X] / [process.env.X]; an unset variable reads as
      the empty string. *)
  env : string → IO W string;
  (** [Date.now()], in milliseconds. *)
  dateNow : IO W float;
}.

(** The two Helius endpoints.  [None] is a rejected request (or, for the
    transaction list, a body without data).  A token account is listed by
    its [uiAmountString]; [None] stands for an account object on which the
    property chain read by the code is broken. *)
Class HeliusApi (W : Type) := {
  heliusTransactions : string → string → IO W (option (list HeliusTransaction.t));
  heliusTokenAccounts : Z → string → string → string → IO W (option (list (option string)));
}.

Module Helius.

Definition EXCLUDED_ADDRESSES : gset string :=
  {[ "11111111111111111111111111111111";
     "TokenkegQfeZyiNwAJbNbGKPFXCWuBvf9Ss623VQ5DA";
     "ATokenGPvbdGVxr1b2hvZbsiqW5xWH25efTNsLJA8knL";
     "So11111111111111111111111111111111111111112";
     "JUP6LkbZbjS1jKKwapdHNy74zcZ3tLUZoi5QNyVTaV4";
     "JUP4Fb2cqiRUcaTHdrPC8h2gNsA2ETXiPDD33WcGuJB";
     "whirLbMiicVdio4qvUfM5KAg6Ct8VwpYzGff3uctyCc";
     "675kPX9MHTjS2zt1qfr1NYHuzeLXfQM9H24wFSUt1Mp8";
     "5Q544fKrFoe6tsEbD7S8EmxGTJYAKtTVhAW5Q5pge4j1";
     "CAMMCzo5YL8w4VFF8KVHrK22GGUsp5VTaW7grrKgrWqK";
     "CPMMoo8L3F4NbTegBCKVNunggL7H1ZpdTHKxQB5qKP1C";
     "6EF8rrecthR5Dkzon8Nwu78hRvfCKubJ14M5uBEwF6P";
     "Ce6TQqeHC9p8KetsN6JsjHK7UTZk7nasjjQ7GWkRjQpM";
     "CebN5WGQ4jvEPvsVU4EoHEpgzq1VV7AbicfhtW4xC9iM";
     "39azUYFWPz3VHgKCf3VChUwbpURdCHRxjWVowf5jUJjg" ]}.

Definition KNOWN_CEX_ADDRESSES : gset string :=
  {[ "5tzFkiKscXHK5ZXCGbXZxdw7gTjjD1mBwuoFbhUvuAi9";
     "9WzDXwBbmkg8ZTbNMqUxvQRAyrZzDsGYdLVL9zYtAWWM";
     "53unSgGWqEWANcPYRF35B2Bgf8BkszUtcccKiXwGGLyr";
     "GJRs4FwHtemZ5ZE9x3FNvJ8TMwitKTh21yxdRPqn7npE";
     "2AQdpHJ2JpcEgPiATUXjQxA8QmafFegfBKCoF3gKsGb2";
     "6LY1JzAFVZsP2a2xKrtU6znQMQ5h4i7tocWdgrkZzkzF";
     "is6MTRHEgyFLNTfYcuV4QBWLjrZBfmhVNYR6ccgr8KV";
     "AC5RDfQFmDS1deWZos921JfqscXdByf8BKHm5xd8nudL";
     "5Q544fKrFoe6tsEbD7S8EmxGTJYAKtTVhAW5Q5pge4j1" ]}.

Definition isExcludedAddress (addr : string) : bool :=
  if negb (Js.truthyStr addr) || (String.length addr <? 20)%nat then true
  else if bool_decide (addr ∈ EXCLUDED_ADDRESSES) then true
  else false.

(** *** Parsing helpers *)

Definition swapStep (wallet mintAddress : string) (timestamp : float)
    (acc : list Swap.t * list Swap.t) (tt : TokenTransfer.t)
    : list Swap.t * list Swap.t :=
  let '(buys, sells) := acc in
  if negb (String.eqb (TokenTransfer.mint tt) mintAddress) then acc
  else if PrimFloat.leb (TokenTransfer.tokenAmount tt) 0 then acc
  else if String.eqb (TokenTransfer.toUserAccount tt) wallet
          && negb (String.eqb (TokenTransfer.fromUserAccount tt) wallet)
  then (buys ++ [ {| Swap.tokenAmount := TokenTransfer.tokenAmount tt;
                     Swap.timestamp := timestamp |} ], sells)
  else if String.eqb (TokenTransfer.fromUserAccount tt) wallet
          && negb (String.eqb (TokenTransfer.toUserAccount tt) wallet)
  then (buys, sells ++ [ {| Swap.tokenAmount := TokenTransfer.tokenAmount tt;
                            Swap.timestamp := timestamp |} ])
  else acc.

Definition parseSwaps (allTxs : list HeliusTransaction.t) (wallet mintAddress : string)
    : list Swap.t * list Swap.t :=
  fold_left
    (fun acc tx =>
       match HeliusTransaction.tokenTransfers tx with
       | None | Some [] => acc
       | Some tts =>
           let isSwapLike :=
             String.eqb (HeliusTransaction.type tx) "SWAP"
             || String.eqb (HeliusTransaction.type tx) "UNKNOWN"
             || String.eqb (HeliusTransaction.source tx) "PUMP_FUN" in
           if negb isSwapLike then acc
           else fold_left (swapStep wallet mintAddress (HeliusTransaction.timestamp tx)) tts acc
       end)
    allTxs ([], []).

Definition transferStep (wallet mintAddress : string) (timestamp : float)
    (acc : list Outgoing.t * list Incoming.t) (tt : TokenTransfer.t)
    : list Outgoing.t * list Incoming.t :=
  let '(outgoingTransfers, incomingTransfers) := acc in
  if negb (String.eqb (TokenTransfer.mint tt) mintAddress) then acc
  else if PrimFloat.leb (TokenTransfer.tokenAmount tt) 0 then acc
  else if String.eqb (TokenTransfer.fromUserAccount tt) (TokenTransfer.toUserAccount tt)
  then acc
  else if isExcludedAddress (TokenTransfer.fromUserAccount tt)
          || isExcludedAddress (TokenTransfer.toUserAccount tt)
  then acc
  else if String.eqb (TokenTransfer.fromUserAccount tt) wallet
  then (outgoingTransfers ++
          [ {| Outgoing.to := TokenTransfer.toUserAccount tt;
               Outgoing.tokenAmount := TokenTransfer.tokenAmount tt;
               Outgoing.timestamp := timestamp |} ],
        incomingTransfers)
  else if String.eqb (TokenTransfer.toUserAccount tt) wallet
  then (outgoingTransfers,
        incomingTransfers ++
          [ {| Incoming.from := TokenTransfer.fromUserAccount tt;
               Incoming.tokenAmount := TokenTransfer.tokenAmount tt;
               Incoming.timestamp := timestamp |} ])
  else acc.

Definition parseTransfers (allTxs : list HeliusTransaction.t) (wallet mintAddress : string)
    : list Outgoing.t * list Incoming.t :=
  fold_left
    (fun acc tx =>
       match HeliusTransaction.tokenTransfers tx with
       | None | Some [] => acc
       | Some tts =>
           fold_left (transferStep wallet mintAddress (HeliusTransaction.timestamp tx)) tts acc
       end)
    allTxs ([], []).

(** *** Funding-source inference *)

(** The filter predicate of [fundingTxs]: some native transfer to the
    wallet above 0.01 SOL. *)
Definition isFundingTx (wallet : string) (tx : HeliusTransaction.t) : bool :=
  match HeliusTransaction.nativeTransfers tx with
  | None => false
  | Some nts =>
      existsb
        (fun nt => String.eqb (NativeTransfer.toUserAccount nt) wallet
                   && Js.gt (NativeTransfer.amount nt) 10000000)
        nts
  end.

Definition traceFundingSource (txs : list HeliusTransaction.t) (wallet : string)
    (firstBuyTimestamp : float) : option FundingSource.t :=
  let fundingTxs := List.filter (isFundingTx wallet) txs in
  let fundingTxs :=
    Js.sort
      (fun a b => (HeliusTransaction.timestamp b - HeliusTransaction.timestamp a)%float)
      fundingTxs in
  let best :=
    Js.find
      (fun tx =>
         Js.lt (HeliusTransaction.timestamp tx) firstBuyTimestamp
         && Js.gt (HeliusTransaction.timestamp tx) (firstBuyTimestamp - 86400)%float)
      fundingTxs in
  let best :=
    match best with
    | Some tx => Some tx
    | None => if (0 <? length fundingTxs)%nat then last fundingTxs else None
    end in
  match best with
  | None => None
  | Some best =>
      let transfer :=
        Js.find (fun nt => String.eqb (NativeTransfer.toUserAccount nt) wallet)
                (default [] (HeliusTransaction.nativeTransfers best)) in
      match transfer with
      | None => None
      | Some transfer =>
          let sender := NativeTransfer.fromUserAccount transfer in
          let isCex := bool_decide (sender ∈ KNOWN_CEX_ADDRESSES) in
          Some {| FundingSource.address := sender;
                  FundingSource.amount := NativeTransfer.amount transfer;
                  FundingSource.timestamp := HeliusTransaction.timestamp best;
                  FundingSource.isCex := isCex |}
      end
  end.

Section Adapter.
Context {W : Type} `{Js.Builtins} `{Runtime W} `{HeliusApi W}.

Definition getApiKey : IO W string := env "VITE_HELIUS_API_KEY".

Definition fetchWalletTransactions (walletAddress apiKey : string)
    : IO W (list HeliusTransaction.t) :=
  await res := heliusTransactions walletAddress apiKey in
  ioRet (default [] res).

(** Balance read off the first listed account. *)
Definition firstAccountBalance (accounts : list (option string)) : option float :=
  match accounts with
  | [] => None
  | Some uiAmountString :: _ => Some (Js.parseFloat (Js.orStr uiAmountString "0"))
  | None :: _ => Some 0%float  (* TypeError, caught: return 0 *)
  end.

Definition getWalletTokenBalance (walletAddress mintAddress apiKey : string)
    : IO W float :=
  await res := heliusTokenAccounts 1 walletAddress mintAddress apiKey in
  match res with
  | None => ioRet 0%float
  | Some accounts =>
      match firstAccountBalance accounts with
      | Some b => ioRet b
      | None =>
          await res2022 := heliusTokenAccounts 2 walletAddress mintAddress apiKey in
          match res2022 with
          | None => ioRet 0%float
          | Some accounts2022 =>
              ioRet (default 0%float (firstAccountBalance accounts2022))
          end
      end
  end.

(** The look-ups of one group run concurrently in the code; the
    groups, and here the look-ups, follow the order of [addresses]. *)
Fixpoint batchGetBalancesFrom (addresses : list string) (mintAddress apiKey : string)
    (balances : JsMap.t float) : IO W (JsMap.t float) :=
  match addresses with
  | [] => ioRet balances
  | addr :: rest =>
      await b := getWalletTokenBalance addr mintAddress apiKey in
      batchGetBalancesFrom rest mintAddress apiKey (JsMap.set addr b balances)
  end.

Definition batchGetBalances (addresses : list string) (mintAddress apiKey : string)
    : IO W (JsMap.t float) :=
  batchGetBalancesFrom addresses mintAddress apiKey [].

(** [buys[0]?.timestamp || Date.now() / 1000]. *)
Definition firstBuyTimestampOf (buys : list Swap.t) : IO W float :=
  match buys with
  | b :: _ =>
      if Js.truthyNum (Swap.timestamp b) then ioRet (Swap.timestamp b)
      else await now := dateNow in ioRet (now / 1000)%float
  | [] => await now := dateNow in ioRet (now / 1000)%float
  end.

Definition fetchFullWalletData (wallet mintAddress apiKey : string)
    (isSeed : bool) (depth : Z) : IO W WalletData.t :=
  await allTxs := fetchWalletTransactions wallet apiKey in
  await currentBalance := getWalletTokenBalance wallet mintAddress apiKey in
  let '(buys, sells) := parseSwaps allTxs wallet mintAddress in
  let '(outgoingTransfers, incomingTransfers) := parseTransfers allTxs wallet mintAddress in
  await firstBuy := firstBuyTimestampOf buys in
  let fundingSource := traceFundingSource allTxs wallet firstBuy in
  ioRet {| WalletData.address := wallet;
           WalletData.buys := buys;
           WalletData.sells := sells;
           WalletData.outgoingTransfers := outgoingTransfers;
           WalletData.incomingTransfers := incomingTransfers;
           WalletData.currentBalance := currentBalance;
           WalletData.isSeedWallet := isSeed;
           WalletData.traceDepth := depth;
           WalletData.fundingSource := fundingSource |}.

Definition fetchTransferWalletData (wallet mintAddress apiKey : string)
    (depth : Z) : IO W WalletData.t :=
  await allTxs := fetchWalletTransactions wallet apiKey in
  await currentBalance := getWalletTokenBalance wallet mintAddress apiKey in
  let '(buys, sells) := parseSwaps allTxs wallet mintAddress in
  let '(outgoingTransfers, incomingTransfers) := parseTransfers allTxs wallet mintAddress in
  await firstBuy := firstBuyTimestampOf buys in
  let fundingSource := traceFundingSource allTxs wallet firstBuy in
  ioRet {| WalletData.address := wallet;
           WalletData.buys := buys;
           WalletData.sells := sells;
           WalletData.outgoingTransfers := outgoingTransfers;
           WalletData.incomingTransfers := incomingTransfers;
           WalletData.currentBalance := currentBalance;
           WalletData.isSeedWallet := false;
           WalletData.traceDepth := depth;
           WalletData.fundingSource := fundingSource |}.

Definition traceDistributionTree (seedAddresses : list string) (mintAddress : string)
    : IO W (list WalletData.t) :=
  await apiKey := getApiKey in
  if negb (Js.truthyStr apiKey) then ioRet []
  else
    traceLevels isExcludedAddress
      (fun wallet => fetchFullWalletData wallet mintAddress apiKey true 0)
      (fun wallet depth => fetchTransferWalletData wallet mintAddress apiKey depth)
      (fun level3Array => batchGetBalances level3Array mintAddress apiKey)
      (fun size room => Z.min size room)
      seedAddresses.

End Adapter.

End Helius.

(** ** EVM adapter and tracer (alchemyService) *)

Module AlchemyTransfer.
Record t := {
  from : string;
  to : string;
  value : float;
  hash : string;
  blockNum : string;
}.
End AlchemyTransfer.

(** The two Alchemy JSON-RPC methods, by endpoint URL.  For the transfer
    list the flag tells the outgoing query ([true], [fromAddress]) from the
    incoming one ([toAddress]); [None] is a rejected request.  The balance
    answer is the [tokenBalance] hex string, empty when the property chain
    yields [undefined]. *)
Class AlchemyApi (W : Type) := {
  alchemyAssetTransfers :
    bool → string → string → string → IO W (option (list AlchemyTransfer.t));
  alchemyTokenBalances : string → string → string → IO W (option string);
}.

Module Alchemy.

(** Chain ids that name an inherited property of the object literal are
    outside this table's model. *)
Definition ALCHEMY_NETWORKS : list (string * string) :=
  [ ("ethereum", "eth-mainnet"); ("base", "base-mainnet");
    ("arbitrum", "arb-mainnet"); ("optimism", "opt-mainnet");
    ("polygon", "polygon-mainnet"); ("bsc", "bnb-mainnet") ].

Definition getAlchemyUrl (chainId apiKey : string) : string :=
  let network := default "eth-mainnet" (JsMap.get chainId ALCHEMY_NETWORKS) in
  "https://" +:+ network +:+ ".g.alchemy.com/v2/" +:+ apiKey.

Definition EXCLUDED_ADDRESSES : gset string :=
  {[ "0x0000000000000000000000000000000000000000";
     "0x000000000000000000000000000000000000dead";
     "0x7a250d5630b4cf539739df2c5dacb4c659f2488d";
     "0x68b3465833fb72a70ecdf485e0e4c7bd8665fc45";
     "0x1111111254fb6c44bac0bed2854e76f90643097d";
     "0xdef1c0ded9bec7f1a1670819833240f027b25eff" ]}.

Definition isExcluded (addr : string) : bool :=
  bool_decide (Js.toLowerCase addr ∈ EXCLUDED_ADDRESSES).

Definition classifyStep (wallet : string)
    (acc : list Outgoing.t * list Incoming.t) (t : AlchemyTransfer.t)
    : list Outgoing.t * list Incoming.t :=
  let '(outgoingTransfers, incomingTransfers) := acc in
  let amount := AlchemyTransfer.value t in
  let timestamp := 0%float in
  if String.eqb (Js.toLowerCase (AlchemyTransfer.from t)) (Js.toLowerCase wallet)
  then (outgoingTransfers ++
          [ {| Outgoing.to := AlchemyTransfer.to t;
               Outgoing.tokenAmount := amount;
               Outgoing.timestamp := timestamp |} ],
        incomingTransfers)
  else (outgoingTransfers,
        incomingTransfers ++
          [ {| Incoming.from := AlchemyTransfer.from t;
               Incoming.tokenAmount := amount;
               Incoming.timestamp := timestamp |} ]).

(** [buys] and [sells] stay empty. *)
Definition classifyTransfers (transfers : list AlchemyTransfer.t) (wallet : string)
    : list Swap.t * list Swap.t * list Outgoing.t * list Incoming.t :=
  let '(outgoingTransfers, incomingTransfers) :=
    fold_left (classifyStep wallet) transfers ([], []) in
  ([], [], outgoingTransfers, incomingTransfers).

Section Adapter.
Context {W : Type} `{Js.Builtins} `{Runtime W} `{AlchemyApi W}.

Definition getApiKey : IO W string := env "VITE_ALCHEMY_API_KEY".

Definition getAssetTransfers (wallet tokenAddress url : string)
    : IO W (list AlchemyTransfer.t) :=
  await outRes := alchemyAssetTransfers true wallet tokenAddress url in
  await inRes := alchemyAssetTransfers false wallet tokenAddress url in
  match outRes, inRes with
  | Some outTxs, Some inTxs => ioRet (outTxs ++ inTxs)
  | _, _ => ioRet []
  end.

Definition getTokenBalance (wallet tokenAddress url : string) : IO W float :=
  await res := alchemyTokenBalances wallet tokenAddress url in
  match res with
  | None => ioRet 0%float
  | Some hexBal =>
      if negb (Js.truthyStr hexBal) || String.eqb hexBal "0x" then ioRet 0%float
      else ioRet (Js.parseInt hexBal 16 / 1e18)%float
  end.

Fixpoint batchGetEvmBalancesFrom (wallets : list string) (tokenAddress url : string)
    (results : JsMap.t float) : IO W (JsMap.t float) :=
  match wallets with
  | [] => ioRet results
  | w :: rest =>
      await bal := getTokenBalance w tokenAddress url in
      batchGetEvmBalancesFrom rest tokenAddress url (JsMap.set w bal results)
  end.

(** In the code the look-ups run in chunks of five concurrent callbacks,
    each of which stores its own answer, so that the keys of a chunk enter
    the map in the order the answers arrive.  Here the look-ups, and the
    keys, follow the order of [wallets]: the map holds the same entries,
    possibly in another order. *)
Definition batchGetEvmBalances (wallets : list string)
    (tokenAddress chainId apiKey : string) : IO W (JsMap.t float) :=
  let url := getAlchemyUrl chainId apiKey in
  batchGetEvmBalancesFrom wallets tokenAddress url [].

Definition fetchEvmWalletData (wallet tokenAddress chainId apiKey : string)
    (isSeed : bool) (depth : Z) : IO W WalletData.t :=
  let url := getAlchemyUrl chainId apiKey in
  await transfers := getAssetTransfers wallet tokenAddress url in
  await balance := getTokenBalance wallet tokenAddress url in
  let '(buys, sells, outgoingTransfers, incomingTransfers) :=
    classifyTransfers transfers wallet in
  ioRet {| WalletData.address := wallet;
           WalletData.buys := buys;
           WalletData.sells := sells;
           WalletData.outgoingTransfers := outgoingTransfers;
           WalletData.incomingTransfers := incomingTransfers;
           WalletData.currentBalance := balance;
           WalletData.isSeedWallet := isSeed;
           WalletData.traceDepth := depth;
           WalletData.fundingSource := None |}.

Definition traceEvmDistributionTree (seedAddresses : list string)
    (tokenAddress chainId : string) : IO W (list WalletData.t) :=
  await apiKey := getApiKey in
  if negb (Js.truthyStr apiKey) then ioRet []
  else
    traceLevels isExcluded
      (fun wallet => fetchEvmWalletData wallet tokenAddress chainId apiKey true 0)
      (fun wallet depth => fetchEvmWalletData wallet tokenAddress chainId apiKey false depth)
      (fun level3Array => batchGetEvmBalances level3Array tokenAddress chainId apiKey)
      (fun _ room => room)
      seedAddresses.

End Adapter.

End Alchemy.

(** ** Pair resolver records (dexScreener) *)

Module Token.
Record t := { address : string; name : string; symbol : string }.
End Token.

Module Liquidity.
Record t := { usd : float; base : float; quote : float }.
End Liquidity.

(** [DexPairData]; the transaction, volume and price-change statistics,
    which the engine never reads, are left out. *)
Module DexPairData.
Record t := {
  chainId : string;
  dexId : string;
  url : string;
  pairAddress : string;
  baseToken : Token.t;
  quoteToken : Token.t;
  priceNative : string;
  priceUsd : string;
  liquidity : option Liquidity.t;
  fdv : float;
  paircreatedAt : float;
}.
End DexPairData.

Module LiquidityPair.
Record t := {
  dexName : string;
  liquidityUSD : float;
  pairAddress : string;
  baseTokenSymbol : string;
  quoteTokenSymbol : string;
}.
End LiquidityPair.

(** [dexData.liquidity?.usd || 0]. *)
Definition liquidityUsdOf (p : DexPairData.t) : float :=
  match DexPairData.liquidity p with
  | Some l => Js.orNum (Liquidity.usd l) 0
  | None => 0%float
  end.

Definition mapDexToLiquidityPair (dexData : DexPairData.t) : LiquidityPair.t :=
  {| LiquidityPair.dexName := DexPairData.dexId dexData;
     LiquidityPair.liquidityUSD := liquidityUsdOf dexData;
     LiquidityPair.pairAddress := DexPairData.pairAddress dexData;
     LiquidityPair.baseTokenSymbol := Token.symbol (DexPairData.baseToken dexData);
     LiquidityPair.quoteTokenSymbol := Token.symbol (DexPairData.quoteToken dexData) |}.

(** ** Scan result and wallet list (scanEngine) *)

Module WalletNode.
Record t := {
  address : string;
  isBundler : bool;
  fundingSource : string;
  holdingAmount : float;
  percentage : float;
}.
End WalletNode.

Inductive RiskLevel := SAFE | CAUTION | DANGER | CRITICAL.
Inductive ThreatType :=
  ORGANIC_GROWTH | ACCUMULATION_PHASE | DISTRIBUTION_PHASE | UNKNOWN.
Inductive ForensicsStatus := SUCCESS | MISSING_KEY | NOT_SUPPORTED | ERROR.

Module ScanResult.
Record t := {
  score : Z;
  riskLevel : RiskLevel;
  threatType : ThreatType;
  forensicsStatus : ForensicsStatus;
  scoreBreakdown : list ScoreFactor;
  marketCap : float;
  tokenName : string;
  tokenSymbol : string;
  priceUsd : float;
  chainId : string;
  isBurned : bool;
  isLocked : bool;
  isSoledOld : bool;
  pairs : list LiquidityPair.t;
  selectedPair : LiquidityPair.t;
  analysis : Analysis.t;
  wallets : list WalletNode.t;
  bundleControl : option BundleControl.t;
}.
End ScanResult.

Definition buildWalletList (forensics : option ForensicData) (block0Buyers : JsSet.t)
    (priceUsd : float) (chainId : string) : list WalletNode.t :=
  match forensics with
  | None => []
  | Some forensics =>
      let isSolana := isSolanaChain chainId in
      imap
        (fun idx h =>
           let address := holderAddress h in
           let isBundler := JsSet.has address block0Buyers in
           let holdingAmount :=
             if isSolana then holderUsdValue h else (balance h * priceUsd)%float in
           let fundingSource :=
             if (idx =? 0)%nat then "Deployer"
             else if isBundler then "Bundle Buyer"
             else "Unknown" in
           {| WalletNode.address := address;
              WalletNode.isBundler := isBundler;
              WalletNode.fundingSource := fundingSource;
              WalletNode.holdingAmount := holdingAmount;
              WalletNode.percentage := percentage h |})
        (Js.slice0 (holders forensics) 20)
  end.

Definition zeroDistribution : StatusDistribution :=
  {| locked := 0; burned := 0; dormant := 0; active := 0 |}.

(** [buildEmptyResult]; the [lastUpdated] stamp, read from the clock in
    the code, is passed in. *)
Definition buildEmptyResult (query lastUpdated : string) : ScanResult.t :=
  {| ScanResult.score := 0;
     ScanResult.riskLevel := CAUTION;
     ScanResult.threatType := UNKNOWN;
     ScanResult.marketCap := 0;
     ScanResult.tokenName := query;
     ScanResult.tokenSymbol := "???";
     ScanResult.priceUsd := 0;
     ScanResult.chainId := "unknown";
     ScanResult.isBurned := false;
     ScanResult.isLocked := false;
     ScanResult.isSoledOld := false;
     ScanResult.pairs := [];
     ScanResult.selectedPair :=
       {| LiquidityPair.dexName := "N/A"; LiquidityPair.liquidityUSD := 0;
          LiquidityPair.pairAddress := EmptyString;
          LiquidityPair.baseTokenSymbol := "???";
          LiquidityPair.quoteTokenSymbol := "???" |};
     ScanResult.analysis :=
       {| Analysis.totalBundlePercentage := 0; Analysis.bundleWalletCount := 0;
          Analysis.holdingConcentration := 0; Analysis.liquidityMcapRatio := 0;
          Analysis.uniqueFundingSources := 0; Analysis.bundleHoldingsUSD := 0;
          Analysis.bundleVolumeUSD := 0; Analysis.liquidityRiskRatio := 0;
          Analysis.block0Volume := 0; Analysis.block1Volume := 0;
          Analysis.bribeFees := 0; Analysis.initialInsiderSupply := 0;
          Analysis.totalInsiderSold := 0; Analysis.currentInsiderHoldings := 0;
          Analysis.retentionRate := 0;
          Analysis.clusters := []; Analysis.overallRisk := "LOW";
          Analysis.lpValueUSD := 0; Analysis.clusterCount := 0;
          Analysis.lpImpactRatio := 0; Analysis.totalBundledSupplyPercent := 0;
          Analysis.totalBundledTokens := 0; Analysis.totalBundledValueUSD := 0;
          Analysis.totalWalletCount := 0;
          Analysis.statusDistribution := zeroDistribution;
          Analysis.lastUpdated := lastUpdated |};
     ScanResult.forensicsStatus := MISSING_KEY;
     ScanResult.scoreBreakdown := [];
     ScanResult.wallets := [];
     ScanResult.bundleControl := None |}.

(** Step F of [runFullScan]: the [analysis] object. *)
Definition assembleAnalysis (analysisResult : AnalysisResult)
    (bundleControl : option BundleControl.t) (wallets : list WalletNode.t)
    (liquidityUsd fdv : float) (lastUpdated : string) : Analysis.t :=
  let initialInsiderSupply :=
    fold_left (fun acc w => (acc + WalletNode.holdingAmount w)%float) wallets 0%float in
  let bcNum (f : BundleControl.t → float) : float :=
    match bundleControl with Some bc => Js.orNum (f bc) 0 | None => 0%float end in
  let bcInt (f : BundleControl.t → Z) : Z :=
    match bundleControl with Some bc => f bc | None => 0 end in
  {| Analysis.totalBundlePercentage := totalBundlePercentage analysisResult;
     Analysis.bundleWalletCount := sniperCount analysisResult;
     Analysis.holdingConcentration := holdingConcentration analysisResult;
     Analysis.liquidityMcapRatio :=
       if Js.gt fdv 0 then (liquidityUsd / fdv)%float else 0%float;
     Analysis.uniqueFundingSources := uniqueFundingSources analysisResult;
     Analysis.bundleHoldingsUSD := block0Volume analysisResult;
     Analysis.bundleVolumeUSD := bundleVolumeUSD analysisResult;
     Analysis.liquidityRiskRatio :=
       if Js.gt liquidityUsd 0 then (block0Volume analysisResult / liquidityUsd)%float
       else 0%float;
     Analysis.clusters :=
       match bundleControl with Some bc => BundleControl.clusters bc | None => [] end;
     Analysis.overallRisk :=
       Js.orStr (match bundleControl with
                 | Some bc => BundleControl.overallRisk bc
                 | None => EmptyString
                 end) "LOW";
     Analysis.lpValueUSD := liquidityUsd;
     Analysis.clusterCount := bcInt BundleControl.clusterCount;
     Analysis.lpImpactRatio := bcNum BundleControl.lpImpactRatio;
     Analysis.totalBundledSupplyPercent := bcNum BundleControl.totalBundledSupplyPercent;
     Analysis.totalBundledTokens := bcNum BundleControl.totalBundledTokens;
     Analysis.totalBundledValueUSD := bcNum BundleControl.totalBundledValueUSD;
     Analysis.totalWalletCount := bcInt BundleControl.totalWalletCount;
     Analysis.statusDistribution :=
       match bundleControl with
       | Some bc => BundleControl.statusDistribution bc
       | None => zeroDistribution
       end;
     Analysis.lastUpdated := lastUpdated;
     Analysis.block0Volume := block0Volume analysisResult;
     Analysis.block1Volume := (earlyVolume analysisResult - block0Volume analysisResult)%float;
     Analysis.bribeFees := 0;
     Analysis.initialInsiderSupply := initialInsiderSupply;
     Analysis.totalInsiderSold := 0;
     Analysis.currentInsiderHoldings := initialInsiderSupply;
     Analysis.retentionRate := 1.0 |}.

(** Step H. *)
Definition threatTypeOf (securityData : option SecurityData)
    (analysisResult : AnalysisResult) : ThreatType :=
  if match securityData with Some s => is_honeypot s | None => false end
  then DISTRIBUTION_PHASE
  else if hasBundleCluster analysisResult then ACCUMULATION_PHASE
  else if (sniperCount analysisResult >? 5) && Js.gt (block0Volume analysisResult) 5000
  then ACCUMULATION_PHASE
  else if sniperCount analysisResult >? 3 then ACCUMULATION_PHASE
  else ORGANIC_GROWTH.

(** Step I. *)
Definition riskLevelOf (score : Z) : RiskLevel :=
  if score >=? 80 then SAFE
  else if score >=? 50 then CAUTION
  else if score >=? 20 then DANGER
  else CRITICAL.

(** [block0BuyMap]: launch-window token amount per buyer. *)
Definition block0BuyMapOf (forensics : option ForensicData) : JsMap.t float :=
  match forensics with
  | None => []
  | Some f =>
      fold_left
        (fun m tx =>
           if Js.truthyStr (buyerAddress tx)
           then
             let current :=
               match JsMap.get (buyerAddress tx) m with
               | Some a => Js.orNum a 0
               | None => 0%float
               end in
             JsMap.set (buyerAddress tx) (current + tokenAmount tx)%float m
           else m)
        (block0Transfers f) []
  end.

(** The collaborators of [runFullScan].  A rejected promise is [None].
    The cluster labelling component (bundleAnalyzer) and the demo
    scenarios (lib/mockData) are not among the sources and stay abstract;
    a labelling that raises is [None]. *)
Class ScanProviders (W : Type) := {
  searchAllPairs : string → IO W (list DexPairData.t);
  checkTokenSecurity : string → string → IO W (option (option SecurityData));
  getTokenForensics : string → string → IO W (option (option ForensicData));
  analyzeBundleClusters :
    list WalletData.t → float → float → float → list string →
    list NormalizedHolder → JsMap.t float → option BundleControl.t;
  MOCK_SCENARIOS : string → ScanResult.t;
  (** [new Date().toISOString()]. *)
  isoNow : IO W string;
}.

Section ScanEngine.
Context {W : Type} `{Js.Builtins} `{Runtime W} `{HeliusApi W} `{AlchemyApi W}
        `{ScanProviders W}.

(** Step D2 for one tracer: trace, then label. *)
Definition deepBundleAnalysis (trace : IO W (list WalletData.t))
    (forensics : option ForensicData) (block0Addresses : list string)
    (priceUsd liquidityUsd fdv : float) : IO W (option BundleControl.t) :=
  await walletData := trace in
  let totalSupply :=
    if Js.gt fdv 0 && Js.gt priceUsd 0 then (fdv / priceUsd)%float else 0%float in
  ioRet (analyzeBundleClusters walletData totalSupply priceUsd liquidityUsd
           block0Addresses
           (match forensics with Some f => holders f | None => [] end)
           (block0BuyMapOf forensics)).

(** [runFullScan]; [None] is the exception that escapes when
    [analyzeForensics] raises. *)
Definition runFullScan (query : string) : IO W (option ScanResult.t) :=
  let normalized := Js.trim (Js.toUpperCase query) in
  if String.eqb normalized "RUG" || String.eqb normalized "VAMPIRE"
  then ioRet (Some (MOCK_SCENARIOS "VAMPIRE"))
  else if String.eqb normalized "NEST" then ioRet (Some (MOCK_SCENARIOS "NEST"))
  else if String.eqb normalized "SAFE" then ioRet (Some (MOCK_SCENARIOS "SAFE"))
  else
    (* A *)
    await allDexPairs := searchAllPairs query in
    match allDexPairs with
    | [] =>
        await stamp := isoNow in
        ioRet (Some (buildEmptyResult query stamp))
    | bestPair :: _ =>
        let allPairsMapped := map mapDexToLiquidityPair allDexPairs in
        let chainId := DexPairData.chainId bestPair in
        let tokenAddress := Token.address (DexPairData.baseToken bestPair) in
        let priceUsd := Js.parseFloat (Js.orStr (DexPairData.priceUsd bestPair) "0") in
        let liquidityUsd := liquidityUsdOf bestPair in
        let fdv := Js.orNum (DexPairData.fdv bestPair) 0 in
        (* B *)
        await securityRes := checkTokenSecurity chainId tokenAddress in
        let securityData := default None securityRes in
        (* C *)
        await moralisKey := env "VITE_MORALIS_API_KEY" in
        await '(forensics, forensicsStatus) :=
          (if negb (Js.truthyStr moralisKey) then ioRet (None, MISSING_KEY)
           else
             await res := getTokenForensics chainId tokenAddress in
             match res with
             | Some (Some f) => ioRet (Some f, SUCCESS)
             | Some None => ioRet (None, NOT_SUPPORTED)
             | None => ioRet (None, ERROR)
             end) in
        (* D *)
        match analyzeForensics forensics priceUsd fdv chainId with
        | None => ioRet None
        | Some analysisResult =>
            (* D2 *)
            let isSolana := isSolanaChain chainId in
            await heliusKey := env "VITE_HELIUS_API_KEY" in
            await alchemyKey := env "VITE_ALCHEMY_API_KEY" in
            let block0Addresses := block0Buyers analysisResult in
            await bundleControl :=
              (if isSolana && Js.truthyStr heliusKey then
                 if (0 <? length block0Addresses)%nat then
                   deepBundleAnalysis
                     (Helius.traceDistributionTree block0Addresses tokenAddress)
                     forensics block0Addresses priceUsd liquidityUsd fdv
                 else ioRet None
               else if negb isSolana && Js.truthyStr alchemyKey then
                 if (0 <? length block0Addresses)%nat then
                   deepBundleAnalysis
                     (Alchemy.traceEvmDistributionTree block0Addresses tokenAddress chainId)
                     forensics block0Addresses priceUsd liquidityUsd fdv
                 else ioRet None
               else ioRet None) in
            (* E *)
            let wallets :=
              buildWalletList forensics (block0Buyers analysisResult) priceUsd chainId in
            (* F *)
            await stamp := isoNow in
            let analysis :=
              assembleAnalysis analysisResult bundleControl wallets liquidityUsd fdv stamp in
            let scored := calculateScore liquidityUsd securityData analysis bundleControl in
            let score := score scored in
            (* H, I *)
            let threatType := threatTypeOf securityData analysisResult in
            let riskLevel := riskLevelOf score in
            ioRet (Some
              {| ScanResult.score := score;
                 ScanResult.riskLevel := riskLevel;
                 ScanResult.threatType := threatType;
                 ScanResult.forensicsStatus := forensicsStatus;
                 ScanResult.scoreBreakdown := breakdown scored;
                 ScanResult.marketCap := fdv;
                 ScanResult.tokenName :=
                   Js.orStr (Token.name (DexPairData.baseToken bestPair))
                            (Token.symbol (DexPairData.baseToken bestPair));
                 ScanResult.tokenSymbol := Token.symbol (DexPairData.baseToken bestPair);
                 ScanResult.priceUsd := priceUsd;
                 ScanResult.chainId := chainId;
                 ScanResult.isBurned :=
                   match securityData with Some s => negb (is_mintable s) | None => false end;
                 ScanResult.isLocked :=
                   match securityData with Some s => is_open_source s | None => false end;
                 ScanResult.isSoledOld := false;
                 ScanResult.pairs := allPairsMapped;
                 ScanResult.selectedPair := mapDexToLiquidityPair bestPair;
                 ScanResult.analysis := analysis;
                 ScanResult.wallets :=
                   if (0 <? length wallets)%nat then wallets
                   else [ {| WalletNode.address := "No holder data available";
                             WalletNode.isBundler := false;
                             WalletNode.fundingSource := "N/A";
                             WalletNode.holdingAmount := 0;
                             WalletNode.percentage := 0 |} ];
                 ScanResult.bundleControl := bundleControl |})
        end
    end.

End ScanEngine.

(** ** A closed world for the examples

    No network: the pair resolver answers with a fixed list, every other
    request is rejected, and each environment variable reads as [key]. *)

Module Offline.

(** Reads an unsigned decimal integer; anything else is [NaN]. *)
Fixpoint digitsValue (s : string) (acc : float) : float :=
  match s with
  | EmptyString => acc
  | String c s' =>
      let n := nat_of_ascii c in
      if (48 <=? n)%nat && (n <=? 57)%nat
      then digitsValue s' (acc * 10 + nth (n - 48) [0; 1; 2; 3; 4; 5; 6; 7; 8; 9] 0)%float
      else PrimFloat.nan
  end.

Definition builtins : Js.Builtins :=
  {| Js.parseFloat := fun s =>
       match s with EmptyString => PrimFloat.nan | _ => digitsValue s 0 end;
     Js.parseInt := fun _ _ => PrimFloat.nan;
     Js.toLocaleString := fun _ => "?";
     Js.toFixed := fun _ _ => "?";
     Js.numberToString := fun _ => "?" |}.

Definition runtime (key : string) : Runtime unit :=
  {| env := fun _ => ioRet key; dateNow := ioRet 0%float |}.

Definition helius : HeliusApi unit :=
  {| heliusTransactions := fun _ _ => ioRet None;
     heliusTokenAccounts := fun _ _ _ _ => ioRet None |}.

Definition alchemy : AlchemyApi unit :=
  {| alchemyAssetTransfers := fun _ _ _ _ => ioRet None;
     alchemyTokenBalances := fun _ _ _ => ioRet None |}.

Definition providers (pairs : list DexPairData.t) : ScanProviders unit :=
  {| searchAllPairs := fun _ => ioRet pairs;
     checkTokenSecurity := fun _ _ => ioRet None;
     getTokenForensics := fun _ _ => ioRet None;
     analyzeBundleClusters := fun _ _ _ _ _ _ _ => None;
     MOCK_SCENARIOS := fun q => buildEmptyResult q EmptyString;
     isoNow := ioRet "1970-01-01T00:00:00.000Z" |}.

End Offline.

(** * Properties *)

(** ** The scoring ledger *)

Definition sumImpacts (l : list ScoreFactor) : Z :=
  foldr (fun f acc => impact f + acc) 0 l.

Definition labelIn (ls : list string) (f : ScoreFactor) : bool :=
  existsb (String.eqb (label f)) ls.

Definition labelled (l : string) (bd : list ScoreFactor) : list ScoreFactor :=
  List.filter (fun f => String.eqb (label f) l) bd.

(** A rule [r] extends the ledger: it appends entries [ext] carrying
    labels among [ls], and lowers the score by exactly their impacts. *)
Definition extends (ls : list string) (r : ScoreState → ScoreState) : Prop :=
  ∀ st, ∃ ext,
    r st = (fst st + sumImpacts ext, snd st ++ ext)
    ∧ forallb (labelIn ls) ext = true.


Section ScoringVocabulary.
Context `{Js.Builtins}.

(** The security and liquidity rules, in evaluation order. *)
Definition contractRules (liq : float) (sec : option SecurityData)
    (st : ScoreState) : ScoreState :=
  ruleLiquidity liq (ruleSellRestriction sec (ruleSellTax sec (ruleBuyTax sec
    (ruleMintable sec st)))).

Definition contractLabels : list string :=
  ["Mintable Supply"; "Buy Tax"; "Sell Tax"; "Sell Restriction"; "Liquidity"].

Definition launchLabels : list string :=
  ["Bundle Activity"; "Launch Volume"; "Holder Concentration"].

Definition deepLabels : list string := ["LP Impact Ratio"; "Bundled Supply"].

Definition launchRules (an : Analysis.t) (st : ScoreState) : ScoreState :=
  ruleHolderConcentration an (ruleLaunchVolume an (ruleBundleActivity an st)).

End ScoringVocabulary.

(** ** Sample inputs *)

Definition honeypotAudit : SecurityData :=
  {| is_honeypot := true; is_mintable := false; owner_address := "0xowner";
     is_open_source := true; buy_tax := "0"; sell_tax := "0";
     cannot_sell_all := false; is_proxy := false; slippage_modifiable := false |}.

(** The analysis object of a scan whose forensic snapshot is missing. *)
Definition blankAnalysis : Analysis.t :=
  assembleAnalysis emptyAnalysis None [] 50000 1000000 "1970-01-01T00:00:00.000Z".

(** ** Launch-window vocabulary *)

(** Mint-like noise: a zero/burn seller on an account-model chain, or a
    missing or zero-address buyer on any chain. *)
Definition mintLikeNoise (isSolana : bool) (tx : NormalizedTransfer) : bool :=
  (negb isSolana && isZeroAddress (sellerAddress tx))
  || negb (Js.truthyStr (buyerAddress tx))
  || isZeroAddress (buyerAddress tx).

Definition surviving (isSolana : bool) (txs : list NormalizedTransfer)
    : list NormalizedTransfer :=
  List.filter (fun tx => negb (mintLikeNoise isSolana tx)) txs.

(** The distinct buyers of a window on a slot-model chain. *)
Definition distinctBuyers (txs : list NormalizedTransfer) : gset string :=
  list_to_set (map buyerAddress (surviving true txs)).

(** USD volume of one transfer, and of the surviving transfers of a
    window, accrued in arrival order. *)
Definition transferVolume (priceUsd : float) (tx : NormalizedTransfer) : float :=
  if Js.gt (usdValue tx) 0 then usdValue tx else (tokenAmount tx * priceUsd)%float.

Definition windowVolume (isSolana : bool) (priceUsd : float)
    (txs : list NormalizedTransfer) : float :=
  fold_left (fun v tx => (v + transferVolume priceUsd tx)%float) (surviving isSolana txs) 0%float.

Definition withBlock0 (f : ForensicData) (txs : list NormalizedTransfer) : ForensicData :=
  {| holders := holders f; block0Transfers := txs; earlyTransfers := earlyTransfers f;
     creationBlock := creationBlock f; chain := chain f |}.

Definition withEarly (f : ForensicData) (txs : list NormalizedTransfer) : ForensicData :=
  {| holders := holders f; block0Transfers := block0Transfers f; earlyTransfers := txs;
     creationBlock := creationBlock f; chain := chain f |}.

(** The same transfer with another seller field. *)
Definition withSeller (seller : string) (tx : NormalizedTransfer) : NormalizedTransfer :=
  {| txHash := txHash tx; blockNumber := blockNumber tx; buyerAddress := buyerAddress tx;
     sellerAddress := seller; tokenAmount := tokenAmount tx; usdValue := usdValue tx;
     transactionType := transactionType tx |}.

Definition resell (g : NormalizedTransfer → string) (f : ForensicData) : ForensicData :=
  {| holders := holders f;
     block0Transfers := map (fun tx => withSeller (g tx) tx) (block0Transfers f);
     earlyTransfers := map (fun tx => withSeller (g tx) tx) (earlyTransfers f);
     creationBlock := creationBlock f; chain := chain f |}.

(** A launch-window buy of 1000 tokens without USD valuation. *)
Definition plainBuy (buyer : string) : NormalizedTransfer :=
  {| txHash := "sig-" +:+ buyer; blockNumber := 250000000; buyerAddress := buyer;
     sellerAddress := EmptyString; tokenAmount := 1000; usdValue := 0;
     transactionType := "buy" |}.

Definition erc20Transfer (sender recipient : string) : NormalizedTransfer :=
  {| txHash := "0xhash-" +:+ recipient; blockNumber := 19000000;
     buyerAddress := recipient; sellerAddress := sender;
     tokenAmount := 1000000; usdValue := 0; transactionType := "transfer" |}.

Definition mintTo (recipient : string) : NormalizedTransfer :=
  erc20Transfer "0x0000000000000000000000000000000000000000" recipient.

Definition evmLaunch : ForensicData :=
  {| holders := [];
     block0Transfers := [erc20Transfer "0xdeployer" "0xalice"];
     earlyTransfers := [erc20Transfer "0xdeployer" "0xalice";
                        erc20Transfer "0xdeployer" "0xbob"];
     creationBlock := 19000000; chain := "ethereum" |}.

Definition threeBuys : ForensicData :=
  {| holders := [];
     block0Transfers := [plainBuy "buyerA"; plainBuy "buyerB"; plainBuy "buyerC"];
     earlyTransfers := [plainBuy "buyerA"; plainBuy "buyerB"; plainBuy "buyerC"];
     creationBlock := 250000000; chain := "solana" |}.

Definition fiveEarlyBuys : ForensicData :=
  {| holders := [];
     block0Transfers := [plainBuy "buyerA"; plainBuy "buyerB"];
     earlyTransfers := [plainBuy "buyerA"; plainBuy "buyerB"; plainBuy "buyerC";
                        plainBuy "buyerD"; plainBuy "buyerE"];
     creationBlock := 250000000; chain := "solana" |}.

Definition loneBuy : ForensicData :=
  {| holders := [];
     block0Transfers := [plainBuy "buyerA"];
     earlyTransfers := [plainBuy "buyerA"; plainBuy "buyerB"];
     creationBlock := 250000000; chain := "solana" |}.

(** ** Trace vocabulary *)

(** 401 distinct seed wallets, none of them infrastructure: base58
    text for the Solana tracer, 20-byte hex for the EVM tracer. *)
Definition base58Digit (k : nat) : string :=
  nth k ["1"; "2"; "3"; "4"; "5"; "6"; "7"; "8"; "9"] "1".

Definition solanaSeeds : list string :=
  map (fun n : nat =>
         "7xKXtg2CW87d97TXJSDpbD5jBkheTqA83TZRuJosg"
         +:+ base58Digit (n / 81) +:+ base58Digit (n / 9 mod 9) +:+ base58Digit (n mod 9))
      (seq 0 401).

Definition evmSeeds : list string :=
  map (fun n : nat => "0x3f5ce5fbfe3e9af3971dd833d26ba9b5c936f" +:+ pretty (100 + n)%nat)
      (seq 0 401).

(** Seeds that pass the exclusion test of level 0. *)
Definition eligibleSeeds (isExcluded : string → bool) (seeds : list string) : list string :=
  List.filter (fun a => negb (isExcluded a)) seeds.

(** ** Funding vocabulary *)

Definition fundedWallet : string := "9xQeWvG816bUx9EPjHmaT23yvVM2ZWbrrpZb9PusVFin".

(** One transaction, an hour before the first buy, carrying two native
    transfers to the wallet: 5000 lamports of dust from an unknown
    sender, then 2 SOL from a listed exchange wallet (Binance 2). *)
Definition dustThenFunding : HeliusTransaction.t :=
  {| HeliusTransaction.signature := "5j7s6NiJS3JAkvgkoc18WVAsiSaci2pxB2A6ueCJP4tp";
     HeliusTransaction.type := "TRANSFER";
     HeliusTransaction.source := "SYSTEM_PROGRAM";
     HeliusTransaction.slot := 250000000;
     HeliusTransaction.timestamp := 1699996400;
     HeliusTransaction.feePayer := "5tzFkiKscXHK5ZXCGbXZxdw7gTjjD1mBwuoFbhUvuAi9";
     HeliusTransaction.tokenTransfers := Some [];
     HeliusTransaction.nativeTransfers :=
       Some [ {| NativeTransfer.fromUserAccount := "DustSenderWa11et1111111111111111111111111";
                 NativeTransfer.toUserAccount := fundedWallet;
                 NativeTransfer.amount := 5000 |};
              {| NativeTransfer.fromUserAccount := "5tzFkiKscXHK5ZXCGbXZxdw7gTjjD1mBwuoFbhUvuAi9";
                 NativeTransfer.toUserAccount := fundedWallet;
                 NativeTransfer.amount := 2000000000 |} ] |}.

(** ** Risk bands *)

(** The banding of a result's risk level by its score. *)
Definition banded (r : ScanResult.t) : Prop :=
  (80 ≤ ScanResult.score r → ScanResult.riskLevel r = SAFE)
  ∧ (50 ≤ ScanResult.score r < 80 → ScanResult.riskLevel r = CAUTION)
  ∧ (20 ≤ ScanResult.score r < 50 → ScanResult.riskLevel r = DANGER)
  ∧ (ScanResult.score r < 20 → ScanResult.riskLevel r = CRITICAL).

(** Queries answered from the demo scenarios. *)
Definition isDemoQuery (query : string) : bool :=
  let normalized := Js.trim (Js.toUpperCase query) in
  String.eqb normalized "RUG" || String.eqb normalized "VAMPIRE"
  || String.eqb normalized "NEST" || String.eqb normalized "SAFE".

(** The stored demo scenarios that a query can select. *)
Definition demoScenarios : list string := ["VAMPIRE"; "NEST"; "SAFE"].

Definition samplePair : DexPairData.t :=
  {| DexPairData.chainId := "solana";
     DexPairData.dexId := "raydium";
     DexPairData.url := "https://dexscreener.com/solana/pair";
     DexPairData.pairAddress := "8sLbNZoA1cfnvMJLPfp98ZLAnFSYCFApfJKMbiXNLwxj";
     DexPairData.baseToken :=
       {| Token.address := "EKpQGSJtjMFqKZ9KQanSqYXRcF8fBopzLHYxdM65zcjm";
          Token.name := "Sample"; Token.symbol := "SMPL" |};
     DexPairData.quoteToken :=
       {| Token.address := "So11111111111111111111111111111111111111112";
          Token.name := "Wrapped SOL"; Token.symbol := "SOL" |};
     DexPairData.priceNative := "1";
     DexPairData.priceUsd := "2";
     DexPairData.liquidity := Some {| Liquidity.usd := 50000; Liquidity.base := 1;
                                      Liquidity.quote := 1 |};
     DexPairData.fdv := 1000000;
     DexPairData.paircreatedAt := 1700000000000 |}.

(** ** Trace structure vocabulary *)

Definition addressesOf (results : list WalletData.t) : list string :=
  map WalletData.address results.

(** [p] has an outgoing token transfer to [a]. *)
Definition sentTo (p : WalletData.t) (a : string) : Prop :=
  ∃ t, t ∈ WalletData.outgoingTransfers p ∧ Outgoing.to t = a.

(** The keys of a map, in insertion order. *)
Definition keysOf {V} (m : JsMap.t V) : list string := map fst m.

(** The nodes added at hop level [d]: each is a non-seed node of depth
    [d] for an address that is not infrastructure, was not visited before
    the level, and received an outgoing transfer from one of [parents];
    no address is added twice. *)
Definition levelOf (isExcluded : string → bool) (d : Z)
    (parents : list WalletData.t) (visited : list string)
    (nodes : list WalletData.t) : Prop :=
  Forall (fun n =>
            WalletData.traceDepth n = d
            ∧ WalletData.isSeedWallet n = false
            ∧ isExcluded (WalletData.address n) = false
            ∧ (WalletData.address n ∉ visited)
            ∧ ∃ p, p ∈ parents ∧ sentTo p (WalletData.address n)) nodes
  ∧ NoDup (addressesOf nodes).

(** A node sits where the trace found it: a seed at depth 0, or a
    non-seed node at depth 1 to 3 that received a transfer from a node of
    the result one level up. *)
Definition wellPlaced (result : list WalletData.t) (n : WalletData.t) : Prop :=
  (WalletData.traceDepth n = 0 ∧ WalletData.isSeedWallet n = true)
  ∨ (WalletData.isSeedWallet n = false
     ∧ 1 ≤ WalletData.traceDepth n ≤ 3
     ∧ ∃ p, p ∈ result
            ∧ WalletData.traceDepth p = WalletData.traceDepth n - 1
            ∧ sentTo p (WalletData.address n)).

(** ** Parsing vocabulary *)

(** The swap test of [parseSwaps]. *)
Definition isSwapLike (tx : HeliusTransaction.t) : bool :=
  String.eqb (HeliusTransaction.type tx) "SWAP"
  || String.eqb (HeliusTransaction.type tx) "UNKNOWN"
  || String.eqb (HeliusTransaction.source tx) "PUMP_FUN".

(** [tt] is a token transfer of [tx], of the mint [m], with a positive
    amount. *)
Definition movesMint (m : string) (tx : HeliusTransaction.t) (tt : TokenTransfer.t) : Prop :=
  (∃ tts, HeliusTransaction.tokenTransfers tx = Some tts ∧ tt ∈ tts)
  ∧ TokenTransfer.mint tt = m
  ∧ PrimFloat.leb (TokenTransfer.tokenAmount tt) 0 = false.

(** [t.from.toLowerCase() === wallet.toLowerCase()]. *)
Definition sentBy (wallet : string) (t : AlchemyTransfer.t) : bool :=
  String.eqb (Js.toLowerCase (AlchemyTransfer.from t)) (Js.toLowerCase wallet).

(** The 24 hours before the first buy, ends excluded. *)
Definition inFundingWindow (firstBuy : float) (tx : HeliusTransaction.t) : bool :=
  Js.lt (HeliusTransaction.timestamp tx) firstBuy
  && Js.gt (HeliusTransaction.timestamp tx) (firstBuy - 86400)%float.

(** ** Breakdown vocabulary *)

(** The labels of the scoring rules, in evaluation order. *)
Definition ruleOrder : list string :=
  ["Mintable Supply"; "Buy Tax"; "Sell Tax"; "Sell Restriction"; "Liquidity";
   "Bundle Activity"; "Launch Volume"; "Holder Concentration";
   "LP Impact Ratio"; "Bundled Supply"].

(** An entry of the rule labelled [l]: it never adds to the score, and it
    passes exactly when it costs nothing. *)
Definition factorOf (l : string) (f : ScoreFactor) : Prop :=
  label f = l ∧ -40 ≤ impact f ≤ 0
  ∧ (impact f = 0 ↔ status f = pass) ∧ status f ≠ info.

(** What one rule appends: nothing (when it may stay silent) or one entry
    of its own. *)
Definition slot (l : string) (must : bool) (ext : list ScoreFactor) : Prop :=
  (must = false ∧ ext = []) ∨ ∃ f, ext = [f] ∧ factorOf l f.

Definition emits (l : string) (must : bool) (r : ScoreState → ScoreState) : Prop :=
  ∀ st, ∃ ext, r st = (fst st + sumImpacts ext, snd st ++ ext) ∧ slot l must ext.

(** ** Fan-out vocabulary *)

(** The test that guards the fan-out table of account-model chains. *)
Definition fanEligible (tx : NormalizedTransfer) : bool :=
  negb (isZeroAddress (sellerAddress tx)) && Js.truthyStr (buyerAddress tx)
  && negb (isZeroAddress (buyerAddress tx)).

(** The distinct recipients that [seller] sent to within a window. *)
Definition fanOutOf (seller : string) (txs : list NormalizedTransfer) : gset string :=
  list_to_set
    (map buyerAddress
       (List.filter (fun tx => fanEligible tx && String.eqb (sellerAddress tx) seller) txs)).

(** The members recorded for a key of the fan-out table. *)
Definition membersAt (s : string) (tbl : JsMap.t JsSet.t) : list string :=
  default [] (JsMap.get s tbl).

(** The table invariant: distinct keys, none of them inherited
    properties, each with a duplicate-free member list. *)
Definition tableOk (tbl : JsMap.t JsSet.t) : Prop :=
  NoDup (keysOf tbl)
  ∧ Forall (fun k => k ∉ OBJECT_PROTOTYPE_KEYS) (keysOf tbl)
  ∧ ∀ s, NoDup (membersAt s tbl).


(** A launch-window buy that carries its own USD valuation. *)
Definition valuedBuy (buyer : string) : NormalizedTransfer :=
  {| txHash := "sig-" +:+ buyer; blockNumber := 250000000; buyerAddress := buyer;
     sellerAddress := EmptyString; tokenAmount := 1000; usdValue := 12.5;
     transactionType := "buy" |}.

Definition valuedBuys : ForensicData :=
  {| holders := [];
     block0Transfers := [valuedBuy "buyerA"; valuedBuy "buyerB"];
     earlyTransfers := [valuedBuy "buyerA"; valuedBuy "buyerB"; valuedBuy "buyerC"];
     creationBlock := 250000000; chain := "solana" |}.


(** A closed world like [Offline.providers], except that the security
    provider flags the token as a honeypot. *)
Definition flaggedProviders (pairs : list DexPairData.t) : ScanProviders unit :=
  {| searchAllPairs := fun _ => ioRet pairs;
     checkTokenSecurity := fun _ _ => ioRet (Some (Some honeypotAudit));
     getTokenForensics := fun _ _ => ioRet None;
     analyzeBundleClusters := fun _ _ _ _ _ _ _ => None;
     MOCK_SCENARIOS := fun q => buildEmptyResult q EmptyString;
     isoNow := ioRet "1970-01-01T00:00:00.000Z" |}.

(** ** Letter case on account-model chains *)

(** Two seed wallets, spelt in mixed-case checksum form. *)
Definition checksumSender : string := "0xAb5801a7D398351b8bE11C439e05C5B3259aeC9B".
Definition checksumHolder : string := "0x71C7656EC7ab88b098defB751B7401B5f6d8976F".

(** One token transfer between them, spelt in lower case as the provider
    reports addresses. *)
Definition lowerCaseLedger : list AlchemyTransfer.t :=
  [ {| AlchemyTransfer.from := "0xab5801a7d398351b8be11c439e05c5b3259aec9b";
       AlchemyTransfer.to := "0x71c7656ec7ab88b098defb751b7401b5f6d8976f";
       AlchemyTransfer.value := 1000;
       AlchemyTransfer.hash := "0x5c504ed432cb51138bcf09aa5e8a410dd4a1e204ef84bfed1be16dfba1b22060";
       AlchemyTransfer.blockNum := "0x10d4f" |} ].

(** A provider that answers the two transfer queries from a ledger,
    matching the queried address whatever its letter case, and has no
    balance to report. *)
Definition ledgerAlchemy (ledger : list AlchemyTransfer.t) : AlchemyApi unit :=
  {| alchemyAssetTransfers := fun outgoing wallet _ _ =>
       ioRet (Some (List.filter
                      (fun t => String.eqb
                                  (Js.toLowerCase (if outgoing : bool
                                                   then AlchemyTransfer.from t
                                                   else AlchemyTransfer.to t))
                                  (Js.toLowerCase wallet))
                      ledger));
     alchemyTokenBalances := fun _ _ _ => ioRet None |}.
Lemma sumImpacts_app l1 l2 : sumImpacts (l1 ++ l2) = sumImpacts l1 + sumImpacts l2.
Proof. induction l1 as [|f l1 IH]; simpl; [reflexivity | rewrite IH; lia]. Qed.

Lemma labelled_app l b1 b2 : labelled l (b1 ++ b2) = labelled l b1 ++ labelled l b2.
Proof. apply List.filter_app. Qed.

Lemma labelled_foreign ls l ext :
  forallb (labelIn ls) ext = true →
  existsb (String.eqb l) ls = false →
  labelled l ext = [].
Proof.
  intros Hall Hnot. induction ext as [|f ext IH]; [reflexivity|].
  simpl in Hall. apply andb_prop in Hall as [Hf Hext].
  unfold labelled; simpl.
  destruct (String.eqb (label f) l) eqn:E.
  - apply String.eqb_eq in E. subst l. unfold labelIn in Hf. congruence.
  - apply IH, Hext.
Qed.

Lemma extends_skip ls : extends ls (fun st => st).
Proof.
  intros [s bd]. exists []. simpl. split; [|reflexivity].
  f_equal; [lia | symmetry; apply app_nil_r].
Qed.

Lemma extends_deduct ls k f :
  impact f = - k → labelIn ls f = true → extends ls (deduct k f).
Proof.
  intros Hk Hl [s bd]. exists [f]. unfold deduct; simpl.
  rewrite Hl. split; [|reflexivity]. f_equal. lia.
Qed.

Lemma extends_push ls f :
  impact f = 0 → labelIn ls f = true → extends ls (push f).
Proof.
  intros Hk Hl [s bd]. exists [f]. unfold push; simpl.
  rewrite Hl. split; [|reflexivity]. f_equal. lia.
Qed.

Lemma extends_weaken ls ls' r :
  (∀ l, existsb (String.eqb l) ls = true → existsb (String.eqb l) ls' = true) →
  extends ls r → extends ls' r.
Proof.
  intros Hsub Hr st. destruct (Hr st) as (ext & Heq & Hall).
  exists ext. split; [exact Heq|].
  apply forallb_forall. intros f Hf.
  apply Hsub. exact (proj1 (forallb_forall _ _) Hall f Hf).
Qed.

Lemma extends_compose ls r1 r2 :
  extends ls r1 → extends ls r2 → extends ls (fun st => r2 (r1 st)).
Proof.
  intros H1 H2 st.
  destruct (H1 st) as (e1 & Q1 & A1).
  destruct (H2 (r1 st)) as (e2 & Q2 & A2).
  exists (e1 ++ e2). rewrite Q2, Q1; simpl. split.
  - rewrite sumImpacts_app, app_assoc. f_equal. lia.
  - rewrite forallb_app, A1, A2. reflexivity.
Qed.

(** Closes [extends ls rule] for a rule that is a cascade of tests ending
    in [deduct], [push] or nothing. *)
Ltac rule_cases :=
  let st := fresh "st" in
  intros st; cbv zeta;
  repeat match goal with
         | |- context [match ?o with Some _ => _ | None => _ end] => destruct o
         | |- context [if ?c then _ else _] => destruct c
         end;
  first [ refine (extends_deduct _ _ _ _ _ st); reflexivity
        | refine (extends_push _ _ _ _ st); reflexivity
        | exact (extends_skip _ st) ].

Section ScoringFacts.
Context `{Js.Builtins}.

Lemma ruleMintable_extends sec : extends ["Mintable Supply"] (ruleMintable sec).
Proof. unfold ruleMintable. rule_cases. Qed.

Lemma ruleBuyTax_extends sec : extends ["Buy Tax"] (ruleBuyTax sec).
Proof. unfold ruleBuyTax. rule_cases. Qed.

Lemma ruleSellTax_extends sec : extends ["Sell Tax"] (ruleSellTax sec).
Proof. unfold ruleSellTax. rule_cases. Qed.

Lemma ruleSellRestriction_extends sec :
  extends ["Sell Restriction"] (ruleSellRestriction sec).
Proof. unfold ruleSellRestriction. rule_cases. Qed.

Lemma ruleLiquidity_extends liq : extends ["Liquidity"] (ruleLiquidity liq).
Proof. unfold ruleLiquidity. rule_cases. Qed.

Lemma ruleBundleActivity_extends an : extends ["Bundle Activity"] (ruleBundleActivity an).
Proof. unfold ruleBundleActivity. rule_cases. Qed.

Lemma ruleLaunchVolume_extends an : extends ["Launch Volume"] (ruleLaunchVolume an).
Proof. unfold ruleLaunchVolume. rule_cases. Qed.

Lemma ruleHolderConcentration_extends an :
  extends ["Holder Concentration"] (ruleHolderConcentration an).
Proof. unfold ruleHolderConcentration. rule_cases. Qed.

Lemma ruleLpImpact_extends bc :
  extends ["LP Impact Ratio"; "Bundled Supply"] (ruleLpImpact bc).
Proof. unfold ruleLpImpact. rule_cases. Qed.

Lemma ruleBundledSupply_extends bc :
  extends ["LP Impact Ratio"; "Bundled Supply"] (ruleBundledSupply bc).
Proof. unfold ruleBundledSupply. rule_cases. Qed.

Lemma ruleDeepBundle_extends bc :
  extends ["LP Impact Ratio"; "Bundled Supply"] (ruleDeepBundle bc).
Proof.
  unfold ruleDeepBundle. destruct bc as [bc|]; [|apply extends_skip].
  destruct (BundleControl.clusterCount bc >? 0); [|apply extends_skip].
  apply (extends_compose _ (ruleLpImpact bc) (ruleBundledSupply bc));
    [apply ruleLpImpact_extends | apply ruleBundledSupply_extends].
Qed.

Lemma weaken_by_compute ls ls' r :
  forallb (fun l => existsb (String.eqb l) ls') ls = true →
  extends ls r → extends ls' r.
Proof.
  intros Hall. apply extends_weaken. intros l Hl.
  apply existsb_exists in Hl as (x & Hx & E). apply String.eqb_eq in E. subst x.
  exact (proj1 (forallb_forall _ _) Hall l Hx).
Qed.

Ltac weaken_with L := refine (weaken_by_compute _ _ _ _ L); reflexivity.

Lemma contractRules_extends liq sec : extends contractLabels (contractRules liq sec).
Proof.
  unfold contractRules.
  apply (extends_compose contractLabels
           (fun st => ruleSellRestriction sec (ruleSellTax sec (ruleBuyTax sec
                        (ruleMintable sec st))))
           (ruleLiquidity liq)); [|weaken_with (ruleLiquidity_extends liq)].
  apply (extends_compose contractLabels
           (fun st => ruleSellTax sec (ruleBuyTax sec (ruleMintable sec st)))
           (ruleSellRestriction sec)); [|weaken_with (ruleSellRestriction_extends sec)].
  apply (extends_compose contractLabels
           (fun st => ruleBuyTax sec (ruleMintable sec st))
           (ruleSellTax sec)); [|weaken_with (ruleSellTax_extends sec)].
  apply (extends_compose contractLabels (ruleMintable sec) (ruleBuyTax sec));
    [weaken_with (ruleMintable_extends sec) | weaken_with (ruleBuyTax_extends sec)].
Qed.

Lemma launchRules_extends an : extends launchLabels (launchRules an).
Proof.
  unfold launchRules.
  apply (extends_compose launchLabels
           (fun st => ruleLaunchVolume an (ruleBundleActivity an st))
           (ruleHolderConcentration an));
    [|weaken_with (ruleHolderConcentration_extends an)].
  apply (extends_compose launchLabels (ruleBundleActivity an) (ruleLaunchVolume an));
    [weaken_with (ruleBundleActivity_extends an) | weaken_with (ruleLaunchVolume_extends an)].
Qed.

Lemma calculateScore_unfold liq sec an bc :
  calculateScore liq sec an bc =
    if isHoneypot sec
    then {| score := 0; breakdown := [honeypotFactor] |}
    else
      let st := ruleDeepBundle bc (launchRules an (contractRules liq sec (100, []))) in
      {| score := Z.max 0 (Z.min 100 (fst st)); breakdown := snd st |}.
Proof. reflexivity. Qed.

(** Without a honeypot flag the running score is 100 plus the impacts
    of the entries pushed so far. *)
Lemma running_score liq sec an bc :
  let st := ruleDeepBundle bc (launchRules an (contractRules liq sec (100, []))) in
  fst st = 100 + sumImpacts (snd st).
Proof.
  cbv zeta.
  destruct (contractRules_extends liq sec (100, [])) as (e1 & Q1 & _).
  destruct (launchRules_extends an (contractRules liq sec (100, []))) as (e2 & Q2 & _).
  destruct (ruleDeepBundle_extends bc
              (launchRules an (contractRules liq sec (100, [])))) as (e3 & Q3 & _).
  rewrite Q3, Q2, Q1. simpl. rewrite !sumImpacts_app. lia.
Qed.

End ScoringFacts.

(** C1. For every liquidity value, security flags, analysis snapshot and
    optional cluster-control input, the score returned by [calculateScore]
    is an integer between 0 and 100, bounds included. *)
Theorem calculateScore_in_range `{Js.Builtins} (liquidityUsd : float)
    (security : option SecurityData) (analysis : Analysis.t)
    (bundleControl : option BundleControl.t) :
  0 ≤ score (calculateScore liquidityUsd security analysis bundleControl) ≤ 100.
Proof.
  rewrite calculateScore_unfold.
  destruct (isHoneypot security); simpl; lia.
Qed.

(** C2. When the security audit flags a honeypot, [calculateScore] returns
    score 0 and a breakdown of exactly one entry, the honeypot entry of
    impact -100; no other rule contributes. *)
Theorem calculateScore_honeypot `{Js.Builtins} (liquidityUsd : float)
    (audit : SecurityData) (analysis : Analysis.t)
    (bundleControl : option BundleControl.t) :
  is_honeypot audit = true →
  let r := calculateScore liquidityUsd (Some audit) analysis bundleControl in
  score r = 0
  ∧ ∃ f, breakdown r = [f] ∧ impact f = -100 ∧ label f = "Honeypot" ∧ status f = fail.
Proof.
  intros Hhp r. subst r. rewrite calculateScore_unfold. simpl. rewrite Hhp. simpl.
  split; [reflexivity|]. exists honeypotFactor. repeat split.
Qed.

(** C10. The returned score is 100 plus the sum of the impacts of the
    returned breakdown entries, clamped to [0, 100]: each deduction made
    on the score is carried by an entry of the same impact. *)
Theorem calculateScore_ledger `{Js.Builtins} (liquidityUsd : float)
    (security : option SecurityData) (analysis : Analysis.t)
    (bundleControl : option BundleControl.t) :
  let r := calculateScore liquidityUsd security analysis bundleControl in
  score r = Z.max 0 (Z.min 100 (100 + sumImpacts (breakdown r))).
Proof.
  cbv zeta. rewrite calculateScore_unfold.
  destruct (isHoneypot security).
  - reflexivity.
  - cbv zeta. cbn [score breakdown].
    rewrite (running_score liquidityUsd security analysis bundleControl). reflexivity.
Qed.

Lemma calculateScore_honeypot_witness :
  let r := @calculateScore Offline.builtins 50000 (Some honeypotAudit) blankAnalysis None in
  score r = 0
  ∧ ∃ f, breakdown r = [f] ∧ impact f = -100 ∧ label f = "Honeypot" ∧ status f = fail.
Proof.
  apply (@calculateScore_honeypot Offline.builtins 50000 honeypotAudit blankAnalysis None).
  reflexivity.
Defined.

(** ** The missing forensic snapshot *)

Section MissingSnapshot.
Context `{Js.Builtins}.

Lemma labelled_contract l liq sec st :
  existsb (String.eqb l) contractLabels = false →
  labelled l (snd (contractRules liq sec st)) = labelled l (snd st).
Proof.
  intros Hl. destruct (contractRules_extends liq sec st) as (ext & Q & A).
  rewrite Q. simpl. rewrite labelled_app, (labelled_foreign _ _ _ A Hl).
  apply app_nil_r.
Qed.

Lemma labelled_deep l bc st :
  existsb (String.eqb l) deepLabels = false →
  labelled l (snd (ruleDeepBundle bc st)) = labelled l (snd st).
Proof.
  intros Hl. destruct (ruleDeepBundle_extends bc st) as (ext & Q & A).
  rewrite Q. simpl. rewrite labelled_app, (labelled_foreign _ _ _ A Hl).
  apply app_nil_r.
Qed.

(** With the all-zero snapshot the three launch rules push their pass
    entries. *)
Lemma launchRules_blank bc wallets liq fdv stamp st :
  launchRules (assembleAnalysis emptyAnalysis bc wallets liq fdv stamp) st =
    (fst st,
     snd st ++
       [ {| label := "Bundle Activity"; impact := 0; status := pass;
            detail := "No bundle activity detected" |};
         {| label := "Launch Volume"; impact := 0; status := pass;
            detail := "No launch block activity" |};
         {| label := "Holder Concentration"; impact := 0; status := pass;
            detail := (Js.toFixed 0 1 +:+ "% held by top 20") +:+ " — distributed" |} ]).
Proof.
  destruct st as [s bd]. unfold launchRules, ruleHolderConcentration,
    ruleLaunchVolume, ruleBundleActivity, push. simpl.
  rewrite <- !app_assoc. reflexivity.
Qed.

End MissingSnapshot.

(** C7. Without a forensic snapshot [analyzeForensics] returns the
    all-zero, empty result; scoring the analysis assembled from it, the
    bundle-activity, launch-volume and holder-concentration rules each
    contribute their zero-impact pass entry and nothing else (after the
    honeypot exit no rule runs, so they contribute nothing at all). *)
Theorem missing_snapshot_scores_neutral `{Js.Builtins}
    (priceUsd fdv liquidityUsd : float) (chainId stamp : string)
    (security : option SecurityData) (bundleControl : option BundleControl.t)
    (wallets : list WalletNode.t) :
  match analyzeForensics None priceUsd fdv chainId with
  | None => False
  | Some snapshot =>
      snapshot =
        {| sniperCount := 0; block0Volume := 0; earlyVolume := 0;
           bundleVolumeUSD := 0; totalBundlePercentage := 0;
           holdingConcentration := 0; uniqueFundingSources := 0;
           hasBundleCluster := false; block0Buyers := [] |}
      ∧ let analysis :=
          assembleAnalysis snapshot bundleControl wallets liquidityUsd fdv stamp in
        let bd := breakdown (calculateScore liquidityUsd security analysis bundleControl) in
        let neutral (l : string) (f : ScoreFactor) :=
          if isHoneypot security then labelled l bd = []
          else labelled l bd = [f] ∧ label f = l ∧ impact f = 0 ∧ status f = pass in
        neutral "Bundle Activity"
          {| label := "Bundle Activity"; impact := 0; status := pass;
             detail := "No bundle activity detected" |}
        ∧ neutral "Launch Volume"
          {| label := "Launch Volume"; impact := 0; status := pass;
             detail := "No launch block activity" |}
        ∧ neutral "Holder Concentration"
          {| label := "Holder Concentration"; impact := 0; status := pass;
             detail := (Js.toFixed 0 1 +:+ "% held by top 20") +:+ " — distributed" |}
  end.
Proof.
  change (analyzeForensics None priceUsd fdv chainId) with (Some emptyAnalysis).
  split; [reflexivity|]. cbv zeta.
  rewrite calculateScore_unfold.
  destruct (isHoneypot security); [repeat split|].
  cbv zeta. cbn [breakdown].
  repeat split;
    (rewrite labelled_deep by reflexivity;
     rewrite launchRules_blank; cbn [snd];
     rewrite labelled_app, labelled_contract by reflexivity;
     reflexivity).
Qed.

(** ** The forensic analyzer *)

Lemma JsSet_add_elem x y (s : JsSet.t) : x ∈ JsSet.add y s ↔ x = y ∨ x ∈ s.
Proof.
  unfold JsSet.add, JsSet.has. case_bool_decide as Hy.
  - split; [auto|]. intros [->|]; assumption.
  - rewrite elem_of_app, list_elem_of_singleton. tauto.
Qed.

Lemma JsSet_add_NoDup y (s : JsSet.t) : NoDup s → NoDup (JsSet.add y s).
Proof.
  intros Hs. unfold JsSet.add, JsSet.has. case_bool_decide as Hy; [assumption|].
  apply NoDup_app. repeat split; [assumption | | apply NoDup_singleton].
  intros x Hx Hx'. apply list_elem_of_singleton in Hx'. subst. contradiction.
Qed.

Lemma JsSet_adds_NoDup (xs : list string) (s : JsSet.t) :
  NoDup s → NoDup (fold_left (fun s a => JsSet.add a s) xs s).
Proof.
  revert s. induction xs as [|a xs IH]; intros s Hs; simpl; [assumption|].
  apply IH, JsSet_add_NoDup, Hs.
Qed.

Lemma JsSet_adds_elem (xs : list string) (s : JsSet.t) x :
  x ∈ fold_left (fun s a => JsSet.add a s) xs s ↔ x ∈ xs ∨ x ∈ s.
Proof.
  revert s. induction xs as [|a xs IH]; intros s; simpl.
  - rewrite elem_of_nil. tauto.
  - rewrite IH, JsSet_add_elem, elem_of_cons. tauto.
Qed.

(** A set built by successive [add]s has as many members as there are
    distinct values added. *)
Lemma JsSet_adds_size (xs : list string) :
  JsSet.size (fold_left (fun s a => JsSet.add a s) xs JsSet.empty)
  = Z.of_nat (size (list_to_set xs : gset string)).
Proof.
  unfold JsSet.size. f_equal.
  rewrite <- (size_list_to_set (C := gset string)
                (fold_left (fun s a => JsSet.add a s) xs JsSet.empty)).
  - f_equal. apply set_eq. intros x.
    rewrite !elem_of_list_to_set, JsSet_adds_elem.
    unfold JsSet.empty. rewrite elem_of_nil. tauto.
  - apply JsSet_adds_NoDup, NoDup_nil_2.
Qed.

(** The launch loop skips exactly the mint-like noise. *)
Lemma block0Step_noise isSolana priceUsd acc tx :
  mintLikeNoise isSolana tx = true → block0Step isSolana priceUsd acc tx = acc.
Proof.
  unfold mintLikeNoise, block0Step. destruct acc as [B V].
  destruct (negb isSolana && isZeroAddress (sellerAddress tx)); [reflexivity|].
  simpl. intros ->. reflexivity.
Qed.

Lemma block0Step_keep isSolana priceUsd B V tx :
  mintLikeNoise isSolana tx = false →
  block0Step isSolana priceUsd (B, V) tx
  = (JsSet.add (buyerAddress tx) B, (V + transferVolume priceUsd tx)%float).
Proof.
  unfold mintLikeNoise, block0Step, transferVolume.
  destruct (negb isSolana && isZeroAddress (sellerAddress tx)); [discriminate|].
  simpl. intros ->. destruct (Js.gt (usdValue tx) 0); reflexivity.
Qed.

Lemma block0_fold isSolana priceUsd txs B V :
  fold_left (block0Step isSolana priceUsd) txs (B, V)
  = (fold_left (fun s a => JsSet.add a s) (map buyerAddress (surviving isSolana txs)) B,
     fold_left (fun v tx => (v + transferVolume priceUsd tx)%float)
               (surviving isSolana txs) V).
Proof.
  revert B V. induction txs as [|tx txs IH]; intros B V; [reflexivity|].
  unfold surviving in *. cbn [fold_left List.filter].
  destruct (mintLikeNoise isSolana tx) eqn:E; cbn [negb map fold_left].
  - rewrite block0Step_noise by assumption. apply IH.
  - rewrite block0Step_keep by assumption. apply IH.
Qed.

Lemma earlyStep_noise isSolana priceUsd acc tx :
  mintLikeNoise isSolana tx = true → earlyStep isSolana priceUsd acc tx = acc.
Proof.
  unfold mintLikeNoise, earlyStep. destruct acc as [[V B] F].
  destruct (negb isSolana && isZeroAddress (sellerAddress tx)); [reflexivity|].
  simpl. intros ->. reflexivity.
Qed.

Lemma earlyStep_keep isSolana priceUsd V B F tx :
  mintLikeNoise isSolana tx = false →
  earlyStep isSolana priceUsd (V, B, F) tx
  = ((V + transferVolume priceUsd tx)%float,
     JsSet.add (buyerAddress tx) B,
     if Js.truthyStr (sellerAddress tx) && negb (isZeroAddress (sellerAddress tx))
     then JsSet.add (sellerAddress tx) F else F).
Proof.
  unfold mintLikeNoise, earlyStep, transferVolume.
  destruct (negb isSolana && isZeroAddress (sellerAddress tx)); [discriminate|].
  simpl. intros ->. destruct (Js.gt (usdValue tx) 0); reflexivity.
Qed.

(** The early loop, projected on volume and buyers. *)
Lemma early_fold isSolana priceUsd txs V B F :
  let r := fold_left (earlyStep isSolana priceUsd) txs (V, B, F) in
  fst (fst r)
  = fold_left (fun v tx => (v + transferVolume priceUsd tx)%float) (surviving isSolana txs) V
  ∧ snd (fst r)
  = fold_left (fun s a => JsSet.add a s) (map buyerAddress (surviving isSolana txs)) B.
Proof.
  revert V B F. induction txs as [|tx txs IH]; intros V B F; [split; reflexivity|].
  unfold surviving in *. cbn [fold_left List.filter].
  destruct (mintLikeNoise isSolana tx) eqn:E; cbn [negb map fold_left].
  - rewrite earlyStep_noise by assumption. apply IH.
  - rewrite earlyStep_keep by assumption. apply IH.
Qed.

(** What [analyzeForensics] computes on a slot-model chain, in terms of
    the windows' distinct buyers and volumes. *)
Lemma analyze_solana_shape (f : ForensicData) (priceUsd fdv : float) :
  let n0 := Z.of_nat (size (distinctBuyers (block0Transfers f))) in
  let n1 := Z.of_nat (size (distinctBuyers (earlyTransfers f))) in
  let v0 := windowVolume true priceUsd (block0Transfers f) in
  let v1 := windowVolume true priceUsd (earlyTransfers f) in
  ∃ r, analyzeForensics (Some f) priceUsd fdv "solana" = Some r
       ∧ sniperCount r = n0
       ∧ block0Volume r = v0
       ∧ earlyVolume r = v1
       ∧ hasBundleCluster r = (3 <=? n0) || (5 <=? n1)
       ∧ bundleVolumeUSD r = (if 3 <=? n0 then v0 else if 5 <=? n1 then v1 else v0)
       ∧ (∀ a, a ∈ block0Buyers r ↔ a ∈ distinctBuyers (block0Transfers f)).
Proof.
  cbv zeta. unfold analyzeForensics.
  change (isSolanaChain "solana") with true.
  rewrite block0_fold.
  pose proof (early_fold true priceUsd (earlyTransfers f) 0%float JsSet.empty JsSet.empty)
    as [Hv Hb].
  destruct (fold_left (earlyStep true priceUsd) (earlyTransfers f)
              (0%float, JsSet.empty, JsSet.empty)) as [[ev eb] fs].
  cbn [fst snd] in Hv, Hb. subst ev eb.
  rewrite !JsSet_adds_size.
  fold (distinctBuyers (block0Transfers f)) (distinctBuyers (earlyTransfers f)).
  fold (windowVolume true priceUsd (block0Transfers f))
       (windowVolume true priceUsd (earlyTransfers f)).
  set (n0 := Z.of_nat (size (distinctBuyers (block0Transfers f)))).
  set (n1 := Z.of_nat (size (distinctBuyers (earlyTransfers f)))).
  assert (Hmem : ∀ a,
    a ∈ fold_left (fun s a => JsSet.add a s)
          (map buyerAddress (surviving true (block0Transfers f))) JsSet.empty
    ↔ a ∈ distinctBuyers (block0Transfers f)).
  { intros a. unfold distinctBuyers. rewrite elem_of_list_to_set, JsSet_adds_elem.
    unfold JsSet.empty. rewrite elem_of_nil. tauto. }
  destruct (3 <=? n0) eqn:E0; destruct (5 <=? n1) eqn:E1; cbn [negb andb orb];
    eexists; (split; [reflexivity|]); cbn; repeat split; try reflexivity;
    apply Hmem.
Qed.

(** C4. On a slot-model chain: with at least 3 distinct non-excluded
    launch-window buyers the cluster verdict is true and the bundle volume
    is the launch-window volume; otherwise, with at least 5 distinct
    early-window buyers, the verdict is true and the bundle volume is the
    early-window volume; otherwise the verdict is false and the bundle
    volume is the launch-window volume. *)
Theorem solana_cluster_verdict (f : ForensicData) (priceUsd fdv : float) :
  let n0 := size (distinctBuyers (block0Transfers f)) in
  let n1 := size (distinctBuyers (earlyTransfers f)) in
  let launchVolume := windowVolume true priceUsd (block0Transfers f) in
  let earlyWindowVolume := windowVolume true priceUsd (earlyTransfers f) in
  ∃ r, analyzeForensics (Some f) priceUsd fdv "solana" = Some r
       ∧ ((3 ≤ n0)%nat →
          hasBundleCluster r = true ∧ bundleVolumeUSD r = launchVolume)
       ∧ ((n0 < 3)%nat → (5 ≤ n1)%nat →
          hasBundleCluster r = true ∧ bundleVolumeUSD r = earlyWindowVolume)
       ∧ ((n0 < 3)%nat → (n1 < 5)%nat →
          hasBundleCluster r = false ∧ bundleVolumeUSD r = launchVolume).
Proof.
  cbv zeta.
  destruct (analyze_solana_shape f priceUsd fdv) as (r & Hr & _ & _ & _ & Hc & Hb & _).
  exists r. split; [exact Hr|]. rewrite Hc, Hb.
  repeat split; intros;
    repeat match goal with
           | |- context [?a <=? ?b] =>
               destruct (Z.leb_spec a b); try lia
           end;
    reflexivity.
Qed.

Lemma solana_cluster_verdict_witness :
  (∃ r, analyzeForensics (Some threeBuys) 0.01 1000000 "solana" = Some r
        ∧ hasBundleCluster r = true
        ∧ bundleVolumeUSD r = windowVolume true 0.01 (block0Transfers threeBuys))
  ∧ (∃ r, analyzeForensics (Some fiveEarlyBuys) 0.01 1000000 "solana" = Some r
          ∧ hasBundleCluster r = true
          ∧ bundleVolumeUSD r = windowVolume true 0.01 (earlyTransfers fiveEarlyBuys))
  ∧ (∃ r, analyzeForensics (Some loneBuy) 0.01 1000000 "solana" = Some r
          ∧ hasBundleCluster r = false
          ∧ bundleVolumeUSD r = windowVolume true 0.01 (block0Transfers loneBuy)).
Proof.
  split; [|split].
  - destruct (solana_cluster_verdict threeBuys 0.01 1000000) as (r & Hr & H3 & _).
    exists r. split; [exact Hr|]. apply H3. vm_compute. lia.
  - destruct (solana_cluster_verdict fiveEarlyBuys 0.01 1000000) as (r & Hr & _ & H5 & _).
    exists r. split; [exact Hr|]. apply H5; vm_compute; lia.
  - destruct (solana_cluster_verdict loneBuy 0.01 1000000) as (r & Hr & _ & _ & H0).
    exists r. split; [exact Hr|]. apply H0; vm_compute; lia.
Defined.

Lemma nonzero_truthy (a : string) : isZeroAddress a = false → Js.truthyStr a = true.
Proof. destruct a; [vm_compute; discriminate | reflexivity]. Qed.

Lemma solana_not_noise (tx : NormalizedTransfer) :
  isZeroAddress (buyerAddress tx) = false → mintLikeNoise true tx = false.
Proof.
  intros Hz. unfold mintLikeNoise. rewrite Hz, (nonzero_truthy _ Hz). reflexivity.
Qed.

(** C6. Scenario A: on a slot-model chain, three launch-window transfers
    by three distinct non-zero buyers, each of 1000 tokens with no USD
    value, at price 0.01, give launch volume 30 (each transfer falling
    back to amount times price), a true cluster verdict and bundle volume
    30. *)
Theorem scenario_three_buyers (f : ForensicData) (tx1 tx2 tx3 : NormalizedTransfer)
    (fdv : float) :
  block0Transfers f = [tx1; tx2; tx3] →
  NoDup [buyerAddress tx1; buyerAddress tx2; buyerAddress tx3] →
  Forall (fun tx => isZeroAddress (buyerAddress tx) = false
                    ∧ tokenAmount tx = 1000%float ∧ usdValue tx = 0%float)
         [tx1; tx2; tx3] →
  ∃ r, analyzeForensics (Some f) 0.01 fdv "solana" = Some r
       ∧ block0Volume r = 30%float
       ∧ hasBundleCluster r = true
       ∧ bundleVolumeUSD r = 30%float.
Proof.
  intros Hf Hnd Hall.
  apply Forall_cons in Hall as [(Z1 & A1 & U1) Hall].
  apply Forall_cons in Hall as [(Z2 & A2 & U2) Hall].
  apply Forall_cons in Hall as [(Z3 & A3 & U3) _].
  destruct (analyze_solana_shape f 0.01 fdv) as (r & Hr & _ & Hv & _ & Hc & Hb & _).
  exists r. split; [exact Hr|].
  assert (Hsurv : surviving true (block0Transfers f) = [tx1; tx2; tx3]).
  { rewrite Hf. unfold surviving. cbn [List.filter].
    rewrite !solana_not_noise by assumption. reflexivity. }
  assert (Hn : size (distinctBuyers (block0Transfers f)) = 3%nat).
  { unfold distinctBuyers. rewrite Hsurv. cbn [map].
    rewrite size_list_to_set by exact Hnd. reflexivity. }
  assert (Hvol : windowVolume true 0.01 (block0Transfers f) = 30%float).
  { unfold windowVolume. rewrite Hsurv. cbn [fold_left]. unfold transferVolume.
    rewrite A1, A2, A3, U1, U2, U3. vm_compute. reflexivity. }
  rewrite Hv, Hc, Hb, Hn, Hvol. repeat split.
Qed.

Lemma scenario_three_buyers_witness :
  ∃ r, analyzeForensics (Some threeBuys) 0.01 1000000 "solana" = Some r
       ∧ block0Volume r = 30%float
       ∧ hasBundleCluster r = true
       ∧ bundleVolumeUSD r = 30%float.
Proof.
  apply (scenario_three_buyers threeBuys
           (plainBuy "buyerA") (plainBuy "buyerB") (plainBuy "buyerC") 1000000).
  - reflexivity.
  - apply (bool_decide_unpack (NoDup ["buyerA"; "buyerB"; "buyerC"])). vm_compute. exact I.
  - repeat constructor.
Defined.

(** *** Mint-like noise *)

Lemma fold_left_skip {A B} (step : A → B → A) pre x post acc :
  (∀ a, step a x = a) →
  fold_left step (pre ++ x :: post) acc = fold_left step (pre ++ post) acc.
Proof.
  intros Hskip. rewrite !fold_left_app. cbn [fold_left]. rewrite Hskip. reflexivity.
Qed.

Lemma sourceToRecipients_skip pre tx post tbl :
  negb (isZeroAddress (sellerAddress tx)) && Js.truthyStr (buyerAddress tx)
    && negb (isZeroAddress (buyerAddress tx)) = false →
  sourceToRecipients (pre ++ tx :: post) tbl = sourceToRecipients (pre ++ post) tbl.
Proof.
  intros Hskip. revert tbl. induction pre as [|p pre IH]; intros tbl.
  - cbn [app sourceToRecipients]. rewrite Hskip. reflexivity.
  - cbn [app sourceToRecipients].
    destruct (negb (isZeroAddress (sellerAddress p)) && Js.truthyStr (buyerAddress p)
              && negb (isZeroAddress (buyerAddress p))); [|apply IH].
    destruct (JsMap.get (sellerAddress p) tbl); [apply IH|].
    destruct (bool_decide (sellerAddress p ∈ OBJECT_PROTOTYPE_KEYS)); [reflexivity|apply IH].
Qed.

(** Removing a transfer that every loop skips leaves the analysis
    unchanged, whichever window it sat in. *)
Lemma noise_removed (f : ForensicData) priceUsd fdv chainId pre tx post :
  mintLikeNoise (isSolanaChain chainId) tx = true →
  negb (isZeroAddress (sellerAddress tx)) && Js.truthyStr (buyerAddress tx)
    && negb (isZeroAddress (buyerAddress tx)) = false →
  analyzeForensics (Some (withBlock0 f (pre ++ tx :: post))) priceUsd fdv chainId
  = analyzeForensics (Some (withBlock0 f (pre ++ post))) priceUsd fdv chainId
  ∧ analyzeForensics (Some (withEarly f (pre ++ tx :: post))) priceUsd fdv chainId
    = analyzeForensics (Some (withEarly f (pre ++ post))) priceUsd fdv chainId.
Proof.
  intros Hnoise Hfan. unfold analyzeForensics, withBlock0, withEarly.
  cbn [block0Transfers earlyTransfers holders].
  rewrite (fold_left_skip (block0Step _ priceUsd) pre tx post)
    by (intros a; apply block0Step_noise, Hnoise).
  rewrite (fold_left_skip (earlyStep _ priceUsd) pre tx post)
    by (intros a; apply earlyStep_noise, Hnoise).
  rewrite (sourceToRecipients_skip pre tx post) by exact Hfan.
  split; reflexivity.
Qed.

Lemma zero_seller_is_noise tx :
  isZeroAddress (sellerAddress tx) = true →
  mintLikeNoise false tx = true
  ∧ negb (isZeroAddress (sellerAddress tx)) && Js.truthyStr (buyerAddress tx)
      && negb (isZeroAddress (buyerAddress tx)) = false.
Proof. intros Hz. unfold mintLikeNoise. rewrite Hz. split; reflexivity. Qed.

Lemma zero_buyer_is_noise isSolana tx :
  Js.truthyStr (buyerAddress tx) = false ∨ isZeroAddress (buyerAddress tx) = true →
  mintLikeNoise isSolana tx = true
  ∧ negb (isZeroAddress (sellerAddress tx)) && Js.truthyStr (buyerAddress tx)
      && negb (isZeroAddress (buyerAddress tx)) = false.
Proof.
  intros [Hb|Hb]; unfold mintLikeNoise; rewrite Hb;
    rewrite ?orb_true_r, ?andb_false_r; split; reflexivity.
Qed.

(** On a slot-model chain no step reads the seller field into the
    result. *)
Lemma surviving_resell g txs :
  surviving true (map (fun tx => withSeller (g tx) tx) txs)
  = map (fun tx => withSeller (g tx) tx) (surviving true txs).
Proof.
  unfold surviving. induction txs as [|tx txs IH]; [reflexivity|].
  cbn [map List.filter].
  change (mintLikeNoise true (withSeller (g tx) tx)) with (mintLikeNoise true tx).
  destruct (mintLikeNoise true tx); cbn [negb map]; rewrite IH; reflexivity.
Qed.

Lemma volume_resell g priceUsd txs v :
  fold_left (fun v tx => (v + transferVolume priceUsd tx)%float)
            (map (fun tx => withSeller (g tx) tx) txs) v
  = fold_left (fun v tx => (v + transferVolume priceUsd tx)%float) txs v.
Proof.
  revert v. induction txs as [|tx txs IH]; intros v; [reflexivity|].
  cbn [map fold_left]. apply IH.
Qed.

Lemma solana_resell (f : ForensicData) priceUsd fdv g :
  analyzeForensics (Some (resell g f)) priceUsd fdv "solana"
  = analyzeForensics (Some f) priceUsd fdv "solana".
Proof.
  unfold analyzeForensics, resell.
  change (isSolanaChain "solana") with true.
  cbn [block0Transfers earlyTransfers holders].
  rewrite !block0_fold.
  pose proof (early_fold true priceUsd (earlyTransfers f) 0%float JsSet.empty JsSet.empty)
    as [Hv Hb].
  pose proof (early_fold true priceUsd
                (map (fun tx => withSeller (g tx) tx) (earlyTransfers f))
                0%float JsSet.empty JsSet.empty) as [Hv' Hb'].
  destruct (fold_left (earlyStep true priceUsd) (earlyTransfers f)
              (0%float, JsSet.empty, JsSet.empty)) as [[ev eb] fs].
  destruct (fold_left (earlyStep true priceUsd)
              (map (fun tx => withSeller (g tx) tx) (earlyTransfers f))
              (0%float, JsSet.empty, JsSet.empty)) as [[ev' eb'] fs'].
  cbn [fst snd] in Hv, Hb, Hv', Hb'.
  subst ev eb ev' eb'.
  rewrite !surviving_resell, !volume_resell, !List.map_map. cbn [withSeller buyerAddress].
  reflexivity.
Qed.

(** C5. On an account-model chain a transfer whose seller is a zero/burn
    address is left out of the seed-buyer set and of the volumes: the
    analysis is the one of the input without it.  On every chain the same
    holds for a transfer with an empty or zero-address buyer.  On a
    slot-model chain the seller field plays no part: rewriting every
    seller leaves the analysis unchanged, and a launch-window transfer
    with a non-zero buyer puts that buyer in the seed set whatever its
    seller. *)
Theorem mint_noise_filter (f : ForensicData) (priceUsd fdv : float) (chainId : string)
    (pre post : list NormalizedTransfer) (tx : NormalizedTransfer) :
  let analyze g := analyzeForensics (Some g) priceUsd fdv chainId in
  let dropped :=
    analyze (withBlock0 f (pre ++ tx :: post)) = analyze (withBlock0 f (pre ++ post))
    ∧ analyze (withEarly f (pre ++ tx :: post)) = analyze (withEarly f (pre ++ post)) in
  (chainId ≠ "solana" → isZeroAddress (sellerAddress tx) = true → dropped)
  ∧ (buyerAddress tx = EmptyString ∨ isZeroAddress (buyerAddress tx) = true → dropped)
  ∧ (chainId = "solana" →
     (∀ g, analyze (resell g f) = analyze f)
     ∧ (tx ∈ block0Transfers f → isZeroAddress (buyerAddress tx) = false →
        ∃ r, analyze f = Some r ∧ buyerAddress tx ∈ block0Buyers r)).
Proof.
  cbv zeta. split; [|split].
  - intros Hchain Hz.
    assert (isSolanaChain chainId = false) as Hs
      by (apply String.eqb_neq; exact Hchain).
    destruct (zero_seller_is_noise tx Hz) as [Hn Hfan].
    apply noise_removed; [rewrite Hs; exact Hn | exact Hfan].
  - intros Hb.
    assert (Js.truthyStr (buyerAddress tx) = false
            ∨ isZeroAddress (buyerAddress tx) = true) as Hb'.
    { destruct Hb as [->|Hb]; [left; reflexivity | right; exact Hb]. }
    destruct (zero_buyer_is_noise (isSolanaChain chainId) tx Hb') as [Hn Hfan].
    apply noise_removed; assumption.
  - intros ->. split.
    + intros g. apply solana_resell.
    + intros Hin Hz.
      destruct (analyze_solana_shape f priceUsd fdv) as (r & Hr & _ & _ & _ & _ & _ & Hm).
      exists r. split; [exact Hr|]. apply Hm.
      unfold distinctBuyers. rewrite elem_of_list_to_set.
      apply list_elem_of_In, in_map, filter_In. split.
      * apply list_elem_of_In, Hin.
      * rewrite solana_not_noise by exact Hz. reflexivity.
Qed.

Lemma mint_noise_filter_witness :
  let analyze chain g := analyzeForensics (Some g) 0.01 1000000 chain in
  (analyze "ethereum"
     (withBlock0 evmLaunch ([erc20Transfer "0xdeployer" "0xalice"] ++ mintTo "0xcarol" :: []))
   = analyze "ethereum"
       (withBlock0 evmLaunch ([erc20Transfer "0xdeployer" "0xalice"] ++ [])))
  ∧ (analyze "solana" (withEarly threeBuys ([] ++ plainBuy EmptyString :: [plainBuy "buyerA"]))
     = analyze "solana" (withEarly threeBuys ([] ++ [plainBuy "buyerA"])))
  ∧ (∃ r, analyze "solana" threeBuys = Some r ∧ "buyerA" ∈ block0Buyers r).
Proof.
  cbv zeta. split; [|split].
  - destruct (mint_noise_filter evmLaunch 0.01 1000000 "ethereum"
                [erc20Transfer "0xdeployer" "0xalice"] [] (mintTo "0xcarol"))
      as (Hseller & _ & _).
    apply Hseller; [discriminate | reflexivity].
  - destruct (mint_noise_filter threeBuys 0.01 1000000 "solana"
                [] [plainBuy "buyerA"] (plainBuy EmptyString))
      as (_ & Hbuyer & _).
    apply Hbuyer. left. reflexivity.
  - destruct (mint_noise_filter threeBuys 0.01 1000000 "solana"
                [] [] (plainBuy "buyerA"))
      as (_ & _ & Hsol).
    destruct (Hsol eq_refl) as [_ Hin].
    apply Hin; [|reflexivity].
    apply list_elem_of_In. left. reflexivity.
Defined.

(** ** The distribution-tree trace *)

Section TraceFacts.
Context {W : Type}.
Variable isExcluded : string → bool.
Variable fetchSeed : string → IO W WalletData.t.
Variable fetchHop : string → Z → IO W WalletData.t.
Variable batchBalances : list string → IO W (JsMap.t float).
Variable sliceEnd : Z → Z → Z.

(** Level 0 appends one node per eligible seed, whatever the total. *)
Lemma seedLoop_length seeds st w :
  length (snd (fst (seedLoop isExcluded fetchSeed seeds st w)))
  = (length (snd st) + length (eligibleSeeds isExcluded seeds))%nat.
Proof.
  revert st w. induction seeds as [|a seeds IH]; intros st w.
  - simpl. lia.
  - cbn [seedLoop eligibleSeeds List.filter].
    destruct (isExcluded a); cbn [negb].
    + apply IH.
    + unfold ioBind. destruct (fetchSeed a w) as [d w1].
      fold (eligibleSeeds isExcluded seeds).
      rewrite IH. cbn [snd length]. rewrite length_app. simpl. lia.
Qed.

(** The later levels stop at the cap, and only they do. *)
Lemma hopLoop_saturated depth arr st w :
  resultsLength (snd st) >= MAX_TOTAL_WALLETS →
  hopLoop fetchHop depth arr st w = (st, w).
Proof.
  intros Hcap. destruct arr as [|a arr]; [reflexivity|].
  cbn [hopLoop].
  destruct (Z.geb_spec (resultsLength (snd st)) MAX_TOTAL_WALLETS); [reflexivity|lia].
Qed.

Lemma balanceLoop_saturated balances st :
  resultsLength (snd st) >= MAX_TOTAL_WALLETS →
  balanceLoop balances st = st.
Proof.
  intros Hcap. destruct balances as [|[a b] balances]; [reflexivity|].
  cbn [balanceLoop].
  destruct (Z.geb_spec (resultsLength (snd st)) MAX_TOTAL_WALLETS); [reflexivity|lia].
Qed.

Lemma hopLoop_bound depth arr st w :
  let n := length (snd (fst (hopLoop fetchHop depth arr st w))) in
  (length (snd st) ≤ n ∧ n ≤ Nat.max (length (snd st)) 400)%nat.
Proof.
  cbv zeta. revert st w. induction arr as [|a arr IH]; intros st w.
  - simpl. lia.
  - cbn [hopLoop].
    destruct (Z.geb_spec (resultsLength (snd st)) MAX_TOTAL_WALLETS) as [Hge|Hlt].
    + simpl. lia.
    + unfold ioBind. destruct (fetchHop a depth w) as [d w1].
      specialize (IH (JsSet.add a (fst st), snd st ++ [d]) w1).
      cbn [snd] in IH. rewrite length_app in IH. simpl in IH.
      unfold resultsLength, MAX_TOTAL_WALLETS in Hlt. lia.
Qed.

Lemma balanceLoop_bound balances st :
  let n := length (snd (balanceLoop balances st)) in
  (length (snd st) ≤ n ∧ n ≤ Nat.max (length (snd st)) 400)%nat.
Proof.
  cbv zeta. revert st. induction balances as [|[a b] balances IH]; intros st.
  - simpl. lia.
  - cbn [balanceLoop].
    destruct (Z.geb_spec (resultsLength (snd st)) MAX_TOTAL_WALLETS) as [Hge|Hlt].
    + lia.
    + match goal with
      | |- context [balanceLoop balances ?s] => specialize (IH s)
      end.
      cbn [snd] in IH. rewrite length_app in IH. simpl in IH.
      unfold resultsLength, MAX_TOTAL_WALLETS in Hlt. lia.
Qed.

(** The whole trace: the cap bounds every level but the seed level. *)
Lemma traceLevels_bound seeds w :
  let n := length (fst (traceLevels isExcluded fetchSeed fetchHop batchBalances
                          sliceEnd seeds w)) in
  (length (eligibleSeeds isExcluded seeds) ≤ n
   ∧ n ≤ Nat.max (length (eligibleSeeds isExcluded seeds)) 400)%nat.
Proof.
  cbv zeta. unfold traceLevels, ioBind.
  pose proof (seedLoop_length seeds (JsSet.empty, []) w) as H0.
  destruct (seedLoop isExcluded fetchSeed seeds (JsSet.empty, []) w) as [st0 w0].
  cbn [fst snd length] in H0.
  set (arr1 := levelArrayOf sliceEnd _ _).
  pose proof (hopLoop_bound 1 arr1 st0 w0) as H1. cbv zeta in H1.
  destruct (hopLoop fetchHop 1 arr1 st0 w0) as [st1 w1]. cbn [fst] in H1.
  set (arr2 := levelArrayOf sliceEnd _ _).
  pose proof (hopLoop_bound 2 arr2 st1 w1) as H2. cbv zeta in H2.
  destruct (hopLoop fetchHop 2 arr2 st1 w1) as [st2 w2]. cbn [fst] in H2.
  set (arr3 := levelArrayOf sliceEnd _ _).
  destruct (0 <? length arr3)%nat.
  - destruct (batchBalances arr3 w2) as [bal w3]. cbn [ioRet fst].
    pose proof (balanceLoop_bound bal st2) as H3. cbv zeta in H3. lia.
  - cbn [ioRet fst]. lia.
Qed.

(** Once level 0 alone has reached the cap, the trace returns the
    level-0 nodes, all of them. *)
Lemma traceLevels_saturated seeds w :
  (400 ≤ length (eligibleSeeds isExcluded seeds))%nat →
  length (fst (traceLevels isExcluded fetchSeed fetchHop batchBalances
                 sliceEnd seeds w))
  = length (eligibleSeeds isExcluded seeds).
Proof.
  intros Hmany. pose proof (traceLevels_bound seeds w) as Hb. cbv zeta in Hb. lia.
Qed.

End TraceFacts.

Lemma solanaSeeds_eligible :
  eligibleSeeds Helius.isExcludedAddress solanaSeeds = solanaSeeds.
Proof. vm_compute. reflexivity. Qed.

Lemma evmSeeds_eligible : eligibleSeeds Alchemy.isExcluded evmSeeds = evmSeeds.
Proof. vm_compute. reflexivity. Qed.

(** The Helius tracer returns at most [max(400, eligible seeds)] nodes. *)
Lemma traceDistributionTree_bound {W} `{Js.Builtins} `{Runtime W} `{HeliusApi W}
    (seeds : list string) (mint : string) (w : W) :
  (length (fst (Helius.traceDistributionTree seeds mint w))
   ≤ Nat.max (length (eligibleSeeds Helius.isExcludedAddress seeds)) 400)%nat.
Proof.
  unfold Helius.traceDistributionTree, ioBind.
  destruct (Helius.getApiKey w) as [key w1].
  destruct (Js.truthyStr key); cbn [negb].
  - apply traceLevels_bound.
  - simpl. lia.
Qed.

(** The EVM tracer obeys the same bound. *)
Lemma traceEvmDistributionTree_bound {W} `{Js.Builtins} `{Runtime W} `{AlchemyApi W}
    (seeds : list string) (token chainId : string) (w : W) :
  (length (fst (Alchemy.traceEvmDistributionTree seeds token chainId w))
   ≤ Nat.max (length (eligibleSeeds Alchemy.isExcluded seeds)) 400)%nat.
Proof.
  unfold Alchemy.traceEvmDistributionTree, ioBind.
  destruct (Alchemy.getApiKey w) as [key w1].
  destruct (Js.truthyStr key); cbn [negb].
  - apply traceLevels_bound.
  - simpl. lia.
Qed.

(** C3. Handed 401 seed wallets that are not infrastructure, either
    tracer (with its provider key set) returns 401 nodes: the cap of 400
    is not enforced at the seed level. *)
Theorem trace_exceeds_cap {W} `{Js.Builtins} `{Runtime W} `{HeliusApi W} `{AlchemyApi W}
    (token chainId : string) (w : W) :
  (Js.truthyStr (fst (env "VITE_HELIUS_API_KEY" w)) = true →
   length (fst (Helius.traceDistributionTree solanaSeeds token w)) = 401%nat)
  ∧ (Js.truthyStr (fst (env "VITE_ALCHEMY_API_KEY" w)) = true →
     length (fst (Alchemy.traceEvmDistributionTree evmSeeds token chainId w)) = 401%nat).
Proof.
  split; intros Hkey.
  - unfold Helius.traceDistributionTree, Helius.getApiKey, ioBind.
    destruct (env "VITE_HELIUS_API_KEY" w) as [key w1]. cbn [fst] in Hkey.
    rewrite Hkey. cbn [negb].
    rewrite traceLevels_saturated; rewrite solanaSeeds_eligible; vm_compute; [reflexivity|lia].
  - unfold Alchemy.traceEvmDistributionTree, Alchemy.getApiKey, ioBind.
    destruct (env "VITE_ALCHEMY_API_KEY" w) as [key w1]. cbn [fst] in Hkey.
    rewrite Hkey. cbn [negb].
    rewrite traceLevels_saturated; rewrite evmSeeds_eligible; vm_compute; [reflexivity|lia].
Qed.

Lemma trace_exceeds_cap_witness :
  length (fst (@Helius.traceDistributionTree unit Offline.builtins
                 (Offline.runtime "helius-key") Offline.helius
                 solanaSeeds "So1MintAddress" tt)) = 401%nat
  ∧ length (fst (@Alchemy.traceEvmDistributionTree unit Offline.builtins
                   (Offline.runtime "alchemy-key") Offline.alchemy
                   evmSeeds "0xtoken" "ethereum" tt)) = 401%nat.
Proof.
  split.
  - apply (@trace_exceeds_cap unit Offline.builtins (Offline.runtime "helius-key")
             Offline.helius Offline.alchemy "So1MintAddress" "ethereum" tt).
    reflexivity.
  - apply (@trace_exceeds_cap unit Offline.builtins (Offline.runtime "alchemy-key")
             Offline.helius Offline.alchemy "0xtoken" "ethereum" tt).
    reflexivity.
Defined.

(** ** Funding-source inference *)

(** The exchange flag of a reported funding source is membership of its
    address in the static set. *)
Lemma traceFundingSource_isCex txs wallet firstBuy fs :
  Helius.traceFundingSource txs wallet firstBuy = Some fs →
  FundingSource.isCex fs
  = bool_decide (FundingSource.address fs ∈ Helius.KNOWN_CEX_ADDRESSES).
Proof.
  unfold Helius.traceFundingSource. cbv zeta.
  repeat match goal with
         | |- context [match ?o with Some _ => _ | None => _ end] => destruct o
         | |- context [if ?c then _ else _] => destruct c
         end;
    intros [= <-]; reflexivity.
Qed.

Lemma sortInsert_elem {A} (cmp : A → A → float) (x y : A) (l : list A) :
  y ∈ Js.sortInsert cmp x l → y = x ∨ y ∈ l.
Proof.
  induction l as [|z l IH]; cbn [Js.sortInsert].
  - rewrite list_elem_of_singleton. auto.
  - destruct (Js.gt (cmp x z) 0); rewrite !elem_of_cons; [|tauto].
    intros [->|Hy]; [auto|]. destruct (IH Hy); auto.
Qed.

Lemma sort_elem {A} (cmp : A → A → float) (y : A) (l : list A) :
  y ∈ Js.sort cmp l → y ∈ l.
Proof.
  unfold Js.sort. induction l as [|x l IH]; cbn [foldr]; [auto|].
  intros Hy. apply sortInsert_elem in Hy as [->|Hy]; [left | right; auto].
Qed.

(** What [traceFundingSource] reports, transaction-wise: the chosen
    transaction is one of the wallet's funding transactions, and the
    reported sender and amount are those of its first native transfer to
    the wallet. *)
Lemma traceFundingSource_chosen txs wallet firstBuy fs :
  Helius.traceFundingSource txs wallet firstBuy = Some fs →
  ∃ tx nts nt,
    tx ∈ txs
    ∧ Helius.isFundingTx wallet tx = true
    ∧ HeliusTransaction.nativeTransfers tx = Some nts
    ∧ List.find (fun nt => String.eqb (NativeTransfer.toUserAccount nt) wallet) nts = Some nt
    ∧ FundingSource.address fs = NativeTransfer.fromUserAccount nt
    ∧ FundingSource.amount fs = NativeTransfer.amount nt
    ∧ FundingSource.timestamp fs = HeliusTransaction.timestamp tx.
Proof.
  unfold Helius.traceFundingSource. cbv zeta.
  set (sorted := Js.sort _ (List.filter (Helius.isFundingTx wallet) txs)).
  assert (Hsorted : ∀ tx, tx ∈ sorted → tx ∈ txs ∧ Helius.isFundingTx wallet tx = true).
  { intros tx Htx. apply sort_elem, list_elem_of_In, filter_In in Htx as [Hin Hf].
    split; [apply list_elem_of_In, Hin | exact Hf]. }
  assert (Hbest : ∀ best,
    match Js.find
            (fun tx => Js.lt (HeliusTransaction.timestamp tx) firstBuy
                       && Js.gt (HeliusTransaction.timestamp tx) (firstBuy - 86400)%float)
            sorted with
    | Some tx => Some tx
    | None => if (0 <? length sorted)%nat then last sorted else None
    end = Some best → best ∈ sorted).
  { intros best. unfold Js.find.
    destruct (List.find _ sorted) as [tx|] eqn:E.
    - intros [= <-]. apply List.find_some in E as [Hin _]. apply list_elem_of_In, Hin.
    - destruct (0 <? length sorted)%nat; [|discriminate].
      intros Hl. apply last_Some in Hl as [l' ->]. apply elem_of_app. right. left. }
  destruct (match Js.find _ sorted with Some tx => Some tx | None => _ end)
    as [best|] eqn:Eb; [|discriminate].
  destruct (Hsorted best (Hbest best eq_refl)) as [Hin Hfund].
  unfold Js.find.
  destruct (HeliusTransaction.nativeTransfers best) as [nts|] eqn:En;
    [|cbn; discriminate].
  cbn [default from_option]. unfold id.
  destruct (List.find (fun nt => String.eqb (NativeTransfer.toUserAccount nt) wallet) nts)
    as [nt|] eqn:Ent; [|discriminate].
  intros [= <-]. exists best, nts, nt. repeat split; assumption.
Qed.

(** C8. On a transaction whose first native transfer to the wallet is
    dust and whose second is the real funding from an exchange wallet,
    [traceFundingSource] reports the dust transfer: its sender, its 5000
    lamports (below the threshold of 10000000), not an exchange. *)
Theorem funding_source_reports_dust :
  Helius.traceFundingSource [dustThenFunding] fundedWallet 1700000000
  = Some {| FundingSource.address := "DustSenderWa11et1111111111111111111111111";
            FundingSource.amount := 5000;
            FundingSource.timestamp := 1699996400;
            FundingSource.isCex := false |}
  ∧ Js.gt 5000 10000000 = false
  ∧ bool_decide ("5tzFkiKscXHK5ZXCGbXZxdw7gTjjD1mBwuoFbhUvuAi9"
                 ∈ Helius.KNOWN_CEX_ADDRESSES) = true.
Proof. vm_compute. repeat split. Qed.

(** ** Risk level *)

Lemma riskLevelOf_bands (s : Z) :
  (80 ≤ s → riskLevelOf s = SAFE)
  ∧ (50 ≤ s < 80 → riskLevelOf s = CAUTION)
  ∧ (20 ≤ s < 50 → riskLevelOf s = DANGER)
  ∧ (s < 20 → riskLevelOf s = CRITICAL).
Proof.
  unfold riskLevelOf.
  destruct (Z.geb_spec s 80); destruct (Z.geb_spec s 50); destruct (Z.geb_spec s 20);
    repeat split; intros; first [reflexivity | lia].
Qed.

(** C9, as stated, fails: when the pair resolver finds nothing the
    result has score 0 and risk level CAUTION, not CRITICAL. *)
Lemma token_not_found_not_banded :
  ∃ r, fst (@runFullScan unit Offline.builtins (Offline.runtime EmptyString)
              Offline.helius Offline.alchemy (Offline.providers [])
              "0xunknowntoken" tt) = Some r
       ∧ ScanResult.score r = 0
       ∧ ScanResult.riskLevel r = CAUTION
       ∧ ¬ banded r.
Proof.
  eexists. split; [vm_compute; reflexivity|].
  split; [reflexivity|]. split; [reflexivity|].
  intros (_ & _ & _ & Hcrit). cbn in Hcrit.
  specialize (Hcrit ltac:(lia)). discriminate.
Qed.

Section LiveScan.
Context {W : Type} `{Js.Builtins} `{Runtime W} `{HeliusApi W} `{AlchemyApi W}
        `{ScanProviders W}.

(** A live scan that found a pair derives the risk level from the
    score. *)
Lemma live_scan_risk query w r :
  fst (runFullScan query w) = Some r →
  isDemoQuery query = false →
  fst (searchAllPairs query w) ≠ [] →
  ScanResult.riskLevel r = riskLevelOf (ScanResult.score r).
Proof.
  unfold runFullScan, isDemoQuery. cbv zeta. intros Hrun Hdemo Hpairs.
  apply orb_false_elim in Hdemo as [Hdemo Hsafe].
  apply orb_false_elim in Hdemo as [Hdemo Hnest].
  rewrite Hdemo, Hnest, Hsafe in Hrun.
  unfold ioBind in Hrun.
  destruct (searchAllPairs query w) as [[|bestPair others] w1];
    [contradiction|]. clear Hpairs.
  repeat match type of Hrun with
         | context [let '(_, _) := ?m in _] =>
             let a := fresh "a" in let w' := fresh "w" in destruct m as [a w']
         | context [match ?o with Some _ => _ | None => _ end] => destruct o
         | context [if ?c then _ else _] => destruct c
         end;
    cbn [ioRet fst] in Hrun; try discriminate;
    injection Hrun as <-; reflexivity.
Qed.

(** A demo query is answered with one of the stored scenarios. *)
Lemma demo_scan_result query w r :
  fst (runFullScan query w) = Some r →
  isDemoQuery query = true →
  ∃ name, name ∈ demoScenarios ∧ r = MOCK_SCENARIOS name.
Proof.
  unfold runFullScan, isDemoQuery, demoScenarios. cbv zeta.
  destruct (String.eqb (Js.trim (Js.toUpperCase query)) "RUG"
            || String.eqb (Js.trim (Js.toUpperCase query)) "VAMPIRE").
  { intros [= <-] _. exists "VAMPIRE". split; [left | reflexivity]. }
  destruct (String.eqb (Js.trim (Js.toUpperCase query)) "NEST").
  { intros [= <-] _. exists "NEST". split; [right; left | reflexivity]. }
  destruct (String.eqb (Js.trim (Js.toUpperCase query)) "SAFE").
  { intros [= <-] _. exists "SAFE". split; [right; right; left | reflexivity]. }
  intros _ Hdemo. discriminate Hdemo.
Qed.

(** A live scan that finds no pair returns the token-not-found result. *)
Lemma token_not_found_result query w r :
  fst (runFullScan query w) = Some r →
  isDemoQuery query = false →
  fst (searchAllPairs query w) = [] →
  ∃ stamp, r = buildEmptyResult query stamp.
Proof.
  unfold runFullScan, isDemoQuery. cbv zeta. intros Hrun Hdemo Hpairs.
  apply orb_false_elim in Hdemo as [Hdemo Hsafe].
  apply orb_false_elim in Hdemo as [Hdemo Hnest].
  rewrite Hdemo, Hnest, Hsafe in Hrun.
  unfold ioBind in Hrun.
  destruct (searchAllPairs query w) as [pairs w1]. cbn [fst] in Hpairs. subst pairs.
  destruct (isoNow w1) as [stamp w2]. cbn [ioRet fst] in Hrun.
  injection Hrun as <-. exists stamp. reflexivity.
Qed.

(** The token-not-found result is outside the bands. *)
Lemma buildEmptyResult_not_banded query stamp : ¬ banded (buildEmptyResult query stamp).
Proof.
  intros (_ & _ & _ & Hcrit). cbn in Hcrit.
  specialize (Hcrit ltac:(lia)). discriminate.
Qed.

End LiveScan.

(** C9, amended. Every result of [runFullScan] falls in one of three
    cases.  For a demo query (RUG, VAMPIRE, NEST or SAFE once upper-cased
    and trimmed) it is one of the three stored demo scenarios, returned
    unchanged, so it is banded exactly when that stored scenario is.  For
    a live scan that finds no pair it is the token-not-found result: score
    0 with risk level caution, which is outside the bands.  For every
    other live scan the risk level follows from the score by the fixed
    bands: at least 80 safe, 50 to 79 caution, 20 to 49 danger, below 20
    critical. *)
Theorem scan_result_banding {W} `{Js.Builtins} `{Runtime W} `{HeliusApi W}
    `{AlchemyApi W} `{ScanProviders W} (query : string) (w : W) (r : ScanResult.t) :
  fst (runFullScan query w) = Some r →
  if isDemoQuery query
  then ∃ name, name ∈ demoScenarios ∧ r = MOCK_SCENARIOS name
                ∧ (banded r ↔ banded (MOCK_SCENARIOS name))
  else match fst (searchAllPairs query w) with
       | [] => ScanResult.score r = 0 ∧ ScanResult.riskLevel r = CAUTION ∧ ¬ banded r
       | _ :: _ => banded r
       end.
Proof.
  intros Hrun. destruct (isDemoQuery query) eqn:Hdemo.
  - destruct (demo_scan_result query w r Hrun Hdemo) as (name & Hname & ->).
    exists name. split; [exact Hname|]. split; reflexivity.
  - destruct (fst (searchAllPairs query w)) as [|pair pairs] eqn:Hpairs.
    + destruct (token_not_found_result query w r Hrun Hdemo Hpairs) as [stamp ->].
      split; [reflexivity|]. split; [reflexivity|]. apply buildEmptyResult_not_banded.
    + unfold banded.
      rewrite (live_scan_risk query w r Hrun Hdemo) by (rewrite Hpairs; discriminate).
      apply riskLevelOf_bands.
Qed.

Lemma scan_result_banding_witness :
  (∃ r, fst (@runFullScan unit Offline.builtins (Offline.runtime EmptyString)
               Offline.helius Offline.alchemy (Offline.providers [samplePair])
               "SMPL" tt) = Some r
        ∧ banded r)
  ∧ (∃ r, fst (@runFullScan unit Offline.builtins (Offline.runtime EmptyString)
                 Offline.helius Offline.alchemy (Offline.providers [])
                 "0xunknowntoken" tt) = Some r
          ∧ ScanResult.score r = 0 ∧ ScanResult.riskLevel r = CAUTION ∧ ¬ banded r)
  ∧ (∃ r, fst (@runFullScan unit Offline.builtins (Offline.runtime EmptyString)
                 Offline.helius Offline.alchemy (Offline.providers [samplePair])
                 " rug " tt) = Some r
          ∧ ∃ name, name ∈ demoScenarios
                    ∧ r = @MOCK_SCENARIOS unit (Offline.providers [samplePair]) name
                    ∧ (banded r
                       ↔ banded (@MOCK_SCENARIOS unit (Offline.providers [samplePair])
                                   name))).
Proof.
  split; [|split]; eexists; (split; [vm_compute; reflexivity|]).
  - refine (@scan_result_banding unit Offline.builtins (Offline.runtime EmptyString)
              Offline.helius Offline.alchemy (Offline.providers [samplePair])
              "SMPL" tt _ _).
    vm_compute. reflexivity.
  - refine (@scan_result_banding unit Offline.builtins (Offline.runtime EmptyString)
              Offline.helius Offline.alchemy (Offline.providers [])
              "0xunknowntoken" tt _ _).
    vm_compute. reflexivity.
  - refine (@scan_result_banding unit Offline.builtins (Offline.runtime EmptyString)
              Offline.helius Offline.alchemy (Offline.providers [samplePair])
              " rug " tt _ _).
    vm_compute. reflexivity.
Defined.

(** ** Structure of a trace *)

Lemma JsSet_adds_fresh (xs : list string) (s : JsSet.t) :
  NoDup (s ++ xs) → fold_left (fun s a => JsSet.add a s) xs s = s ++ xs.
Proof.
  revert s. induction xs as [|a xs IH]; intros s Hnd; cbn [fold_left].
  - symmetry. apply app_nil_r.
  - assert (a ∉ s) as Ha.
    { apply NoDup_app in Hnd as (_ & Hd & _). intros Hin. apply (Hd a Hin). left. }
    unfold JsSet.add at 2, JsSet.has. rewrite bool_decide_eq_false_2 by exact Ha.
    rewrite IH; rewrite <- app_assoc; [reflexivity | exact Hnd].
Qed.

Lemma JsMap_set_keys {V} (k : string) (v : V) (m : JsMap.t V) :
  keysOf (JsMap.set k v m) = JsSet.add k (keysOf m).
Proof.
  unfold keysOf, JsSet.add, JsSet.has.
  induction m as [|[k' v'] m IH]; cbn [JsMap.set map fst].
  - rewrite bool_decide_eq_false_2 by apply not_elem_of_nil. reflexivity.
  - destruct (String.eqb k k') eqn:E.
    + apply String.eqb_eq in E. subst k'.
      rewrite bool_decide_eq_true_2 by left. reflexivity.
    + apply String.eqb_neq in E. cbn [map fst]. rewrite IH.
      case_bool_decide as H1; case_bool_decide as H2; try reflexivity.
      * exfalso. apply H2. right. exact H1.
      * exfalso. apply elem_of_cons in H2 as [H2|H2]; [congruence | contradiction].
Qed.

Lemma NoDup_prefix {A} (k : nat) (l : list A) : NoDup l → NoDup (take k l).
Proof. intros H. eapply sublist_NoDup; [exact H | apply sublist_take]. Qed.

Lemma slice0_prefix {A} (l : list A) (e : Z) : ∃ k, Js.slice0 l e = take k l.
Proof. unfold Js.slice0. destruct (e <? 0); eauto. Qed.

Section TraceStructure.
Context {W : Type}.
Variable isExcluded : string → bool.
Variable fetchSeed : string → IO W WalletData.t.
Variable fetchHop : string → Z → IO W WalletData.t.
Variable batchBalances : list string → IO W (JsMap.t float).
Variable sliceEnd : Z → Z → Z.

(** What the loop nest relies on: a fetch answers for the wallet it was
    asked about, at the depth it was given, and the balance look-up
    answers for the addresses it was given, in order. *)
Hypothesis fetchSeed_node : ∀ a w,
  let n := fst (fetchSeed a w) in
  WalletData.address n = a ∧ WalletData.traceDepth n = 0
  ∧ WalletData.isSeedWallet n = true.
Hypothesis fetchHop_node : ∀ a d w,
  let n := fst (fetchHop a d w) in
  WalletData.address n = a ∧ WalletData.traceDepth n = d
  ∧ WalletData.isSeedWallet n = false.
Hypothesis batchBalances_keys : ∀ arr w,
  NoDup arr → keysOf (fst (batchBalances arr w)) = arr.

Lemma collectRecipients_flat known from :
  collectRecipients isExcluded known from
  = fold_left (fun s a => JsSet.add a s)
      (List.filter (fun a => negb (JsSet.has a known) && negb (isExcluded a))
         (map Outgoing.to (flat_map WalletData.outgoingTransfers from)))
      JsSet.empty.
Proof.
  unfold collectRecipients. generalize JsSet.empty.
  induction from as [|p from IH]; intros s; [reflexivity|].
  cbn [fold_left flat_map]. rewrite IH, map_app, List.filter_app, fold_left_app.
  f_equal. clear IH. revert s.
  induction (WalletData.outgoingTransfers p) as [|t ts IHt]; intros s; [reflexivity|].
  cbn [fold_left map List.filter].
  destruct (negb (JsSet.has (Outgoing.to t) known) && negb (isExcluded (Outgoing.to t)));
    cbn [fold_left]; apply IHt.
Qed.

Lemma collectRecipients_NoDup known from :
  NoDup (collectRecipients isExcluded known from).
Proof. rewrite collectRecipients_flat. apply JsSet_adds_NoDup, NoDup_nil_2. Qed.

Lemma collectRecipients_elem known from a :
  a ∈ collectRecipients isExcluded known from
  ↔ (a ∉ known) ∧ isExcluded a = false ∧ ∃ p, p ∈ from ∧ sentTo p a.
Proof.
  rewrite collectRecipients_flat, JsSet_adds_elem.
  unfold JsSet.empty. rewrite elem_of_nil, list_elem_of_In, filter_In, in_map_iff.
  unfold JsSet.has, sentTo. split.
  - intros [((t & <- & Ht) & Hc)|[]].
    apply andb_prop in Hc as [Hk He].
    apply negb_true_iff in Hk, He. apply bool_decide_eq_false in Hk.
    apply in_flat_map in Ht as (p & Hp & Ht).
    repeat split; [exact Hk | exact He |].
    exists p. split; [apply list_elem_of_In, Hp|].
    exists t. split; [apply list_elem_of_In, Ht | reflexivity].
  - intros (Hk & He & p & Hp & t & Ht & <-). left. split.
    + exists t. split; [reflexivity|]. apply in_flat_map.
      exists p. split; apply list_elem_of_In; assumption.
    + rewrite He, bool_decide_eq_false_2 by exact Hk. reflexivity.
Qed.

(** Level 0 appends the nodes of the eligible seeds, in order. *)
Lemma seedLoop_nodes seeds st w :
  ∃ new,
    fst (seedLoop isExcluded fetchSeed seeds st w)
    = (fold_left (fun s a => JsSet.add a s) (eligibleSeeds isExcluded seeds) (fst st),
       snd st ++ new)
    ∧ addressesOf new = eligibleSeeds isExcluded seeds
    ∧ Forall (fun n => WalletData.traceDepth n = 0 ∧ WalletData.isSeedWallet n = true) new.
Proof.
  revert st w. induction seeds as [|a seeds IH]; intros st w.
  - exists []. cbn. rewrite app_nil_r. destruct st; auto.
  - cbn [seedLoop eligibleSeeds List.filter]. destruct (isExcluded a); cbn [negb].
    + apply IH.
    + unfold ioBind. pose proof (fetchSeed_node a w) as (Ha & Hd & Hs).
      destruct (fetchSeed a w) as [n w1]. cbn [fst] in Ha, Hd, Hs.
      destruct (IH (JsSet.add a (fst st), snd st ++ [n]) w1) as (new & Q & A & F).
      exists (n :: new). rewrite Q. cbn [fst snd fold_left]. repeat split.
      * fold (eligibleSeeds isExcluded seeds). rewrite <- app_assoc. reflexivity.
      * unfold addressesOf in *. cbn [map]. rewrite Ha, A. reflexivity.
      * constructor; [split; assumption | exact F].
Qed.

(** Levels 1 and 2 append the nodes of a prefix of the level array. *)
Lemma hopLoop_nodes depth arr st w :
  ∃ new k,
    fst (hopLoop fetchHop depth arr st w)
    = (fold_left (fun s a => JsSet.add a s) (take k arr) (fst st), snd st ++ new)
    ∧ addressesOf new = take k arr
    ∧ Forall (fun n => WalletData.traceDepth n = depth
                       ∧ WalletData.isSeedWallet n = false) new.
Proof.
  revert st w. induction arr as [|a arr IH]; intros st w.
  - exists [], 0%nat. cbn. rewrite app_nil_r. destruct st; auto.
  - cbn [hopLoop].
    destruct (resultsLength (snd st) >=? MAX_TOTAL_WALLETS).
    + exists [], 0%nat. cbn. rewrite app_nil_r. destruct st; auto.
    + unfold ioBind. pose proof (fetchHop_node a depth w) as (Ha & Hd & Hs).
      destruct (fetchHop a depth w) as [n w1]. cbn [fst] in Ha, Hd, Hs.
      destruct (IH (JsSet.add a (fst st), snd st ++ [n]) w1) as (new & k & Q & A & F).
      exists (n :: new), (S k). rewrite Q. cbn [fst snd fold_left take]. repeat split.
      * rewrite <- app_assoc. reflexivity.
      * unfold addressesOf in *. cbn [map]. rewrite Ha, A. reflexivity.
      * constructor; [split; assumption | exact F].
Qed.

(** Level 3 appends balance-only nodes for a prefix of the map keys. *)
Lemma balanceLoop_nodes balances st :
  ∃ new k,
    balanceLoop balances st
    = (fold_left (fun s a => JsSet.add a s) (take k (keysOf balances)) (fst st),
       snd st ++ new)
    ∧ addressesOf new = take k (keysOf balances)
    ∧ Forall (fun n => WalletData.traceDepth n = 3
                       ∧ WalletData.isSeedWallet n = false
                       ∧ WalletData.outgoingTransfers n = []
                       ∧ WalletData.fundingSource n = None) new.
Proof.
  revert st. induction balances as [|[a b] balances IH]; intros st.
  - exists [], 0%nat. cbn. rewrite app_nil_r. destruct st; auto.
  - cbn [balanceLoop].
    destruct (resultsLength (snd st) >=? MAX_TOTAL_WALLETS).
    + exists [], 0%nat. cbn. rewrite app_nil_r. destruct st; auto.
    + match goal with
      | |- context [balanceLoop balances ?s] => destruct (IH s) as (new & k & Q & A & F)
      end.
      eexists (_ :: new), (S k). rewrite Q.
      unfold keysOf in *. cbn [fst snd fold_left take map]. repeat split.
      * rewrite <- app_assoc. reflexivity.
      * unfold addressesOf in *. cbn [map WalletData.address]. rewrite A. reflexivity.
      * constructor; [cbn; auto | exact F].
Qed.

Lemma atDepth_app d (l1 l2 : list WalletData.t) :
  atDepth d (l1 ++ l2) = atDepth d l1 ++ atDepth d l2.
Proof. apply List.filter_app. Qed.

Lemma atDepth_all d (l : list WalletData.t) :
  Forall (fun n => WalletData.traceDepth n = d) l → atDepth d l = l.
Proof.
  induction 1 as [|n l Hn _ IH]; [reflexivity|].
  unfold atDepth in *. cbn [List.filter]. rewrite Hn, Z.eqb_refl, IH. reflexivity.
Qed.

Lemma atDepth_none d d' (l : list WalletData.t) :
  d ≠ d' → Forall (fun n => WalletData.traceDepth n = d') l → atDepth d l = [].
Proof.
  intros Hne. induction 1 as [|n l Hn _ IH]; [reflexivity|].
  unfold atDepth in *. cbn [List.filter]. rewrite Hn.
  destruct (Z.eqb_spec d' d); [congruence | exact IH].
Qed.

(** The nodes a hop level appends, read against the recipients it
    collected. *)
Lemma level_nodes d known visited parents e k new :
  (∀ a, a ∈ known ↔ a ∈ visited) →
  addressesOf new
  = take k (Js.slice0 (collectRecipients isExcluded known parents) e) →
  Forall (fun n => WalletData.traceDepth n = d ∧ WalletData.isSeedWallet n = false) new →
  levelOf isExcluded d parents visited new.
Proof.
  intros Hknown Haddr Hnew.
  destruct (slice0_prefix (collectRecipients isExcluded known parents) e) as [k' Hs].
  rewrite Hs in Haddr.
  assert (Hsub : ∀ a, a ∈ addressesOf new → a ∈ collectRecipients isExcluded known parents).
  { intros a Ha. rewrite Haddr in Ha.
    apply (subseteq_take k' (collectRecipients isExcluded known parents)).
    apply (subseteq_take k (take k' _)). exact Ha. }
  split.
  - apply Forall_forall. intros n Hn.
    destruct (proj1 (Forall_forall _ _) Hnew n Hn) as [Hd Hs'].
    assert (WalletData.address n ∈ addressesOf new) as Ha
      by (apply list_elem_of_fmap; exists n; auto).
    apply Hsub, collectRecipients_elem in Ha as (Hk & He & Hp).
    repeat split; try assumption. rewrite <- Hknown. exact Hk.
  - rewrite Haddr. apply NoDup_prefix, NoDup_prefix, collectRecipients_NoDup.
Qed.

Lemma levelArray_NoDup known parents results :
  NoDup (levelArrayOf sliceEnd (collectRecipients isExcluded known parents) results).
Proof.
  unfold levelArrayOf.
  destruct (slice0_prefix (collectRecipients isExcluded known parents)
              (sliceEnd (JsSet.size (collectRecipients isExcluded known parents))
                        (MAX_TOTAL_WALLETS - resultsLength results))) as [k ->].
  apply NoDup_prefix, collectRecipients_NoDup.
Qed.

(** The shape of every trace: the seed nodes, then three hop levels,
    each fed by the level before it. *)
Lemma traceLevels_structure seeds w :
  ∃ R0 R1 R2 R3,
    fst (traceLevels isExcluded fetchSeed fetchHop batchBalances sliceEnd seeds w)
    = R0 ++ R1 ++ R2 ++ R3
    ∧ addressesOf R0 = eligibleSeeds isExcluded seeds
    ∧ Forall (fun n => WalletData.traceDepth n = 0 ∧ WalletData.isSeedWallet n = true) R0
    ∧ levelOf isExcluded 1 R0 (addressesOf R0) R1
    ∧ levelOf isExcluded 2 R1 (addressesOf (R0 ++ R1)) R2
    ∧ levelOf isExcluded 3 R2 (addressesOf (R0 ++ R1 ++ R2)) R3
    ∧ Forall (fun n => WalletData.outgoingTransfers n = []
                       ∧ WalletData.fundingSource n = None) R3.
Proof.
  unfold traceLevels, ioBind.
  destruct (seedLoop_nodes seeds (JsSet.empty, []) w) as (R0 & Q0 & A0 & F0).
  destruct (seedLoop isExcluded fetchSeed seeds (JsSet.empty, []) w) as [st0 w0].
  cbn [fst snd app] in Q0. subst st0. cbn [fst snd].
  set (known0 := fold_left _ (eligibleSeeds isExcluded seeds) JsSet.empty).
  assert (K0 : ∀ a, a ∈ known0 ↔ a ∈ addressesOf R0).
  { intros a. unfold known0. rewrite JsSet_adds_elem, A0.
    unfold JsSet.empty. rewrite elem_of_nil. tauto. }
  assert (D0 : Forall (fun n => WalletData.traceDepth n = 0) R0)
    by (eapply Forall_impl; [exact F0 | intros n [Hd _]; exact Hd]).
  (* level 1 *)
  set (arr1 := levelArrayOf sliceEnd _ R0).
  destruct (hopLoop_nodes 1 arr1 (known0, R0) w0) as (R1 & k1 & Q1 & A1 & F1).
  destruct (hopLoop fetchHop 1 arr1 (known0, R0) w0) as [st1 w1].
  cbn [fst snd] in Q1. subst st1. cbn [fst snd].
  set (known1 := fold_left _ (take k1 arr1) known0).
  assert (K1 : ∀ a, a ∈ known1 ↔ a ∈ addressesOf (R0 ++ R1)).
  { intros a. unfold known1, addressesOf. rewrite JsSet_adds_elem, map_app, elem_of_app.
    fold (addressesOf R0) (addressesOf R1). rewrite A1, K0. tauto. }
  assert (L1 : levelOf isExcluded 1 R0 (addressesOf R0) R1)
    by (eapply level_nodes; [exact K0 | exact A1 | exact F1]).
  assert (D1 : Forall (fun n => WalletData.traceDepth n = 1) R1)
    by (eapply Forall_impl; [exact F1 | intros n [Hd _]; exact Hd]).
  (* level 2 *)
  rewrite atDepth_app, (atDepth_none 1 0 R0) by (congruence || exact D0).
  rewrite (atDepth_all 1 R1) by exact D1. cbn [app].
  set (arr2 := levelArrayOf sliceEnd _ (R0 ++ R1)).
  destruct (hopLoop_nodes 2 arr2 (known1, R0 ++ R1) w1) as (R2 & k2 & Q2 & A2 & F2).
  destruct (hopLoop fetchHop 2 arr2 (known1, R0 ++ R1) w1) as [st2 w2].
  cbn [fst snd] in Q2. subst st2. cbn [fst snd].
  set (known2 := fold_left _ (take k2 arr2) known1).
  assert (K2 : ∀ a, a ∈ known2 ↔ a ∈ addressesOf ((R0 ++ R1) ++ R2)).
  { intros a. unfold known2. rewrite JsSet_adds_elem.
    unfold addressesOf at 1. rewrite map_app, elem_of_app.
    fold (addressesOf (R0 ++ R1)) (addressesOf R2). rewrite A2, K1. tauto. }
  assert (L2 : levelOf isExcluded 2 R1 (addressesOf (R0 ++ R1)) R2)
    by (eapply level_nodes; [exact K1 | exact A2 | exact F2]).
  assert (D2 : Forall (fun n => WalletData.traceDepth n = 2) R2)
    by (eapply Forall_impl; [exact F2 | intros n [Hd _]; exact Hd]).
  (* level 3 *)
  rewrite !atDepth_app, (atDepth_none 2 0 R0), (atDepth_none 2 1 R1)
    by (congruence || assumption).
  rewrite (atDepth_all 2 R2) by exact D2. cbn [app].
  set (arr3 := levelArrayOf sliceEnd _ ((R0 ++ R1) ++ R2)).
  destruct (0 <? length arr3)%nat eqn:E3.
  - pose proof (batchBalances_keys arr3 w2 (levelArray_NoDup _ _ _)) as Hkeys.
    destruct (batchBalances arr3 w2) as [bal w3]. cbn [fst] in Hkeys.
    destruct (balanceLoop_nodes bal (known2, (R0 ++ R1) ++ R2)) as (R3 & k3 & Q3 & A3 & F3).
    cbn [ioRet fst]. rewrite Q3. cbn [snd]. rewrite Hkeys in A3.
    exists R0, R1, R2, R3. rewrite <- !app_assoc.
    split; [reflexivity|]. split; [exact A0|]. split; [exact F0|].
    split; [exact L1|]. split; [exact L2|]. split.
    + rewrite app_assoc.
      eapply level_nodes; [exact K2 | exact A3 |].
      eapply Forall_impl; [exact F3 | intros n (Hd & Hs & _); auto].
    + eapply Forall_impl; [exact F3 | intros n (_ & _ & Ho & Hf); auto].
  - exists R0, R1, R2, []. cbn [ioRet fst snd]. rewrite app_nil_r, <- app_assoc.
    split; [reflexivity|]. split; [exact A0|]. split; [exact F0|].
    split; [exact L1|]. split; [exact L2|]. split; [|constructor].
    split; [constructor | apply NoDup_nil_2].
Qed.

End TraceStructure.

(** ** Both tracers *)

Ltac split_pairs :=
  repeat match goal with
         | |- context [let '(_, _) := ?m in _] => destruct m
         end.

Section HeliusFacts.
Context {W : Type} `{Js.Builtins} `{Runtime W} `{HeliusApi W}.

Lemma fetchFullWalletData_node wallet mint key isSeed depth (w : W) :
  let n := fst (Helius.fetchFullWalletData wallet mint key isSeed depth w) in
  WalletData.address n = wallet ∧ WalletData.traceDepth n = depth
  ∧ WalletData.isSeedWallet n = isSeed.
Proof.
  unfold Helius.fetchFullWalletData, ioBind. split_pairs. cbn. auto.
Qed.

Lemma fetchTransferWalletData_node wallet mint key depth (w : W) :
  let n := fst (Helius.fetchTransferWalletData wallet mint key depth w) in
  WalletData.address n = wallet ∧ WalletData.traceDepth n = depth
  ∧ WalletData.isSeedWallet n = false.
Proof.
  unfold Helius.fetchTransferWalletData, ioBind. split_pairs. cbn. auto.
Qed.

Lemma batchGetBalancesFrom_keys addrs mint key (m : JsMap.t float) (w : W) :
  keysOf (fst (Helius.batchGetBalancesFrom addrs mint key m w))
  = fold_left (fun s a => JsSet.add a s) addrs (keysOf m).
Proof.
  revert m w. induction addrs as [|a addrs IH]; intros m w; [reflexivity|].
  cbn [Helius.batchGetBalancesFrom fold_left]. unfold ioBind.
  destruct (Helius.getWalletTokenBalance a mint key w) as [b w1].
  rewrite IH, JsMap_set_keys. reflexivity.
Qed.

Lemma batchGetBalances_fresh addrs mint key (w : W) :
  NoDup addrs → keysOf (fst (Helius.batchGetBalances addrs mint key w)) = addrs.
Proof.
  intros Hnd. unfold Helius.batchGetBalances. rewrite batchGetBalancesFrom_keys.
  apply (JsSet_adds_fresh addrs []). exact Hnd.
Qed.

(** The shape of a Helius trace made with a key. *)
Lemma helius_structure key seeds mint (w : W) :
  ∃ R0 R1 R2 R3,
    fst (traceLevels Helius.isExcludedAddress
           (fun wallet => Helius.fetchFullWalletData wallet mint key true 0)
           (fun wallet depth => Helius.fetchTransferWalletData wallet mint key depth)
           (fun level3Array => Helius.batchGetBalances level3Array mint key)
           (fun size room => Z.min size room) seeds w)
    = R0 ++ R1 ++ R2 ++ R3
    ∧ addressesOf R0 = eligibleSeeds Helius.isExcludedAddress seeds
    ∧ Forall (fun n => WalletData.traceDepth n = 0 ∧ WalletData.isSeedWallet n = true) R0
    ∧ levelOf Helius.isExcludedAddress 1 R0 (addressesOf R0) R1
    ∧ levelOf Helius.isExcludedAddress 2 R1 (addressesOf (R0 ++ R1)) R2
    ∧ levelOf Helius.isExcludedAddress 3 R2 (addressesOf (R0 ++ R1 ++ R2)) R3
    ∧ Forall (fun n => WalletData.outgoingTransfers n = []
                       ∧ WalletData.fundingSource n = None) R3.
Proof.
  apply traceLevels_structure.
  - intros a w'. apply fetchFullWalletData_node.
  - intros a d w'. apply fetchTransferWalletData_node.
  - intros arr w'. apply batchGetBalances_fresh.
Qed.

End HeliusFacts.

Section AlchemyFacts.
Context {W : Type} `{Js.Builtins} `{Runtime W} `{AlchemyApi W}.

Lemma fetchEvmWalletData_node wallet token chainId key isSeed depth (w : W) :
  let n := fst (Alchemy.fetchEvmWalletData wallet token chainId key isSeed depth w) in
  WalletData.address n = wallet ∧ WalletData.traceDepth n = depth
  ∧ WalletData.isSeedWallet n = isSeed
  ∧ WalletData.buys n = [] ∧ WalletData.sells n = []
  ∧ WalletData.fundingSource n = None.
Proof.
  unfold Alchemy.fetchEvmWalletData, Alchemy.classifyTransfers, ioBind.
  destruct (Alchemy.getAssetTransfers wallet token _ w) as [transfers w1].
  destruct (Alchemy.getTokenBalance wallet token _ w1) as [bal w2].
  destruct (fold_left (Alchemy.classifyStep wallet) transfers ([], [])) as [o i].
  cbn. repeat split.
Qed.

Lemma batchGetEvmBalancesFrom_keys wallets token url (m : JsMap.t float) (w : W) :
  keysOf (fst (Alchemy.batchGetEvmBalancesFrom wallets token url m w))
  = fold_left (fun s a => JsSet.add a s) wallets (keysOf m).
Proof.
  revert m w. induction wallets as [|a wallets IH]; intros m w; [reflexivity|].
  cbn [Alchemy.batchGetEvmBalancesFrom fold_left]. unfold ioBind.
  destruct (Alchemy.getTokenBalance a token url w) as [b w1].
  rewrite IH, JsMap_set_keys. reflexivity.
Qed.

Lemma batchGetEvmBalances_fresh wallets token chainId key (w : W) :
  NoDup wallets →
  keysOf (fst (Alchemy.batchGetEvmBalances wallets token chainId key w)) = wallets.
Proof.
  intros Hnd. unfold Alchemy.batchGetEvmBalances. rewrite batchGetEvmBalancesFrom_keys.
  apply (JsSet_adds_fresh wallets []). exact Hnd.
Qed.

Lemma alchemy_structure key seeds token chainId (w : W) :
  ∃ R0 R1 R2 R3,
    fst (traceLevels Alchemy.isExcluded
           (fun wallet => Alchemy.fetchEvmWalletData wallet token chainId key true 0)
           (fun wallet depth => Alchemy.fetchEvmWalletData wallet token chainId key false depth)
           (fun level3Array => Alchemy.batchGetEvmBalances level3Array token chainId key)
           (fun _ room => room) seeds w)
    = R0 ++ R1 ++ R2 ++ R3
    ∧ addressesOf R0 = eligibleSeeds Alchemy.isExcluded seeds
    ∧ Forall (fun n => WalletData.traceDepth n = 0 ∧ WalletData.isSeedWallet n = true) R0
    ∧ levelOf Alchemy.isExcluded 1 R0 (addressesOf R0) R1
    ∧ levelOf Alchemy.isExcluded 2 R1 (addressesOf (R0 ++ R1)) R2
    ∧ levelOf Alchemy.isExcluded 3 R2 (addressesOf (R0 ++ R1 ++ R2)) R3
    ∧ Forall (fun n => WalletData.outgoingTransfers n = []
                       ∧ WalletData.fundingSource n = None) R3.
Proof.
  apply traceLevels_structure.
  - intros a w'.
    destruct (fetchEvmWalletData_node a token chainId key true 0 w') as (? & ? & ? & _).
    auto.
  - intros a d w'.
    destruct (fetchEvmWalletData_node a token chainId key false d w') as (? & ? & ? & _).
    auto.
  - intros arr w'. apply batchGetEvmBalances_fresh.
Qed.

End AlchemyFacts.

(** *** What the shape gives *)

Section ShapeFacts.
Variable isExcluded : string → bool.
Variables (seeds : list string) (R0 R1 R2 R3 : list WalletData.t).
Hypothesis seeds_R0 : addressesOf R0 = eligibleSeeds isExcluded seeds.
Hypothesis level_R0 :
  Forall (fun n => WalletData.traceDepth n = 0 ∧ WalletData.isSeedWallet n = true) R0.
Hypothesis level_R1 : levelOf isExcluded 1 R0 (addressesOf R0) R1.
Hypothesis level_R2 : levelOf isExcluded 2 R1 (addressesOf (R0 ++ R1)) R2.
Hypothesis level_R3 : levelOf isExcluded 3 R2 (addressesOf (R0 ++ R1 ++ R2)) R3.

Lemma eligibleSeeds_elem a :
  a ∈ eligibleSeeds isExcluded seeds → isExcluded a = false.
Proof.
  unfold eligibleSeeds. rewrite list_elem_of_In, filter_In.
  intros [_ Hn]. apply negb_true_iff, Hn.
Qed.

Lemma shape_no_infrastructure :
  Forall (fun n => isExcluded (WalletData.address n) = false) (R0 ++ R1 ++ R2 ++ R3).
Proof.
  rewrite !Forall_app. repeat split.
  - apply Forall_forall. intros n Hn. apply eligibleSeeds_elem. rewrite <- seeds_R0.
    apply list_elem_of_fmap. exists n. auto.
  - eapply Forall_impl; [exact (proj1 level_R1) | intros n (_ & _ & He & _); exact He].
  - eapply Forall_impl; [exact (proj1 level_R2) | intros n (_ & _ & He & _); exact He].
  - eapply Forall_impl; [exact (proj1 level_R3) | intros n (_ & _ & He & _); exact He].
Qed.

Lemma filter_seed_all (l : list WalletData.t) :
  Forall (fun n => WalletData.isSeedWallet n = true) l →
  List.filter WalletData.isSeedWallet l = l.
Proof.
  induction 1 as [|n l Hn _ IH]; [reflexivity|].
  cbn [List.filter]. rewrite Hn, IH. reflexivity.
Qed.

Lemma filter_seed_none (l : list WalletData.t) :
  Forall (fun n => WalletData.isSeedWallet n = false) l →
  List.filter WalletData.isSeedWallet l = [].
Proof.
  induction 1 as [|n l Hn _ IH]; [reflexivity|].
  cbn [List.filter]. rewrite Hn, IH. reflexivity.
Qed.

Lemma shape_seed_nodes :
  addressesOf (List.filter WalletData.isSeedWallet (R0 ++ R1 ++ R2 ++ R3))
  = eligibleSeeds isExcluded seeds
  ∧ addressesOf (take (length (eligibleSeeds isExcluded seeds)) (R0 ++ R1 ++ R2 ++ R3))
    = eligibleSeeds isExcluded seeds.
Proof.
  split.
  - rewrite !List.filter_app.
    rewrite (filter_seed_all R0)
      by (eapply Forall_impl; [exact level_R0 | intros n [_ Hs]; exact Hs]).
    rewrite (filter_seed_none R1)
      by (eapply Forall_impl; [exact (proj1 level_R1) | intros n (_ & Hs & _); exact Hs]).
    rewrite (filter_seed_none R2)
      by (eapply Forall_impl; [exact (proj1 level_R2) | intros n (_ & Hs & _); exact Hs]).
    rewrite (filter_seed_none R3)
      by (eapply Forall_impl; [exact (proj1 level_R3) | intros n (_ & Hs & _); exact Hs]).
    rewrite !app_nil_r. exact seeds_R0.
  - rewrite <- seeds_R0. unfold addressesOf at 2. rewrite length_map.
    rewrite take_app_length. reflexivity.
Qed.

Lemma NoDup_level d parents (visited : list WalletData.t) nodes :
  NoDup (addressesOf visited) →
  levelOf isExcluded d parents (addressesOf visited) nodes →
  NoDup (addressesOf (visited ++ nodes)).
Proof.
  intros Hv [Hall Hnd]. unfold addressesOf. rewrite map_app.
  apply NoDup_app. split; [exact Hv|]. split; [|exact Hnd].
  intros a Ha Ha'. apply list_elem_of_fmap in Ha' as (n & -> & Hn).
  destruct (proj1 (Forall_forall _ _) Hall n Hn) as (_ & _ & _ & Hfresh & _).
  exact (Hfresh Ha).
Qed.

Lemma shape_visit_once :
  NoDup (eligibleSeeds isExcluded seeds) → NoDup (addressesOf (R0 ++ R1 ++ R2 ++ R3)).
Proof.
  intros Hseeds. rewrite <- seeds_R0 in Hseeds.
  rewrite !app_assoc.
  eapply NoDup_level; [|rewrite <- app_assoc; exact level_R3].
  eapply NoDup_level; [|exact level_R2].
  eapply NoDup_level; [exact Hseeds | exact level_R1].
Qed.

Lemma shape_well_placed :
  Forall (wellPlaced (R0 ++ R1 ++ R2 ++ R3)) (R0 ++ R1 ++ R2 ++ R3).
Proof.
  set (result := R0 ++ R1 ++ R2 ++ R3).
  assert (D1 : Forall (fun n => WalletData.traceDepth n = 1) R1)
    by (eapply Forall_impl; [exact (proj1 level_R1) | intros n (Hd & _); exact Hd]).
  assert (D2 : Forall (fun n => WalletData.traceDepth n = 2) R2)
    by (eapply Forall_impl; [exact (proj1 level_R2) | intros n (Hd & _); exact Hd]).
  unfold result at 2. rewrite !Forall_app. repeat split.
  - eapply Forall_impl; [exact level_R0 | intros n Hn; left; exact Hn].
  - apply Forall_forall. intros n Hn.
    destruct (proj1 (Forall_forall _ _) (proj1 level_R1) n Hn)
      as (Hd & Hs & _ & _ & p & Hp & Hsent).
    right. split; [exact Hs|]. split; [lia|]. exists p. rewrite Hd.
    split; [unfold result; rewrite !elem_of_app; auto|]. split; [|exact Hsent].
    destruct (proj1 (Forall_forall _ _) level_R0 p Hp) as [Hp0 _]. rewrite Hp0. reflexivity.
  - apply Forall_forall. intros n Hn.
    destruct (proj1 (Forall_forall _ _) (proj1 level_R2) n Hn)
      as (Hd & Hs & _ & _ & p & Hp & Hsent).
    right. split; [exact Hs|]. split; [lia|]. exists p. rewrite Hd.
    split; [unfold result; rewrite !elem_of_app; auto|]. split; [|exact Hsent].
    rewrite (proj1 (Forall_forall _ _) D1 p Hp). reflexivity.
  - apply Forall_forall. intros n Hn.
    destruct (proj1 (Forall_forall _ _) (proj1 level_R3) n Hn)
      as (Hd & Hs & _ & _ & p & Hp & Hsent).
    right. split; [exact Hs|]. split; [lia|]. exists p. rewrite Hd.
    split; [unfold result; rewrite !elem_of_app; auto|]. split; [|exact Hsent].
    rewrite (proj1 (Forall_forall _ _) D2 p Hp). reflexivity.
Qed.

End ShapeFacts.

(** *** Properties of the two tracers *)

Section TracerProperties.
Context {W : Type} `{Js.Builtins} `{Runtime W} `{HeliusApi W} `{AlchemyApi W}.

(** Either a tracer stops for want of a key, with an empty result, or its
    result has the shape of the loop nest. *)
Lemma helius_cases seeds mint (w : W) :
  fst (Helius.traceDistributionTree seeds mint w) = []
  ∨ ∃ R0 R1 R2 R3,
      fst (Helius.traceDistributionTree seeds mint w) = R0 ++ R1 ++ R2 ++ R3
      ∧ addressesOf R0 = eligibleSeeds Helius.isExcludedAddress seeds
      ∧ Forall (fun n => WalletData.traceDepth n = 0 ∧ WalletData.isSeedWallet n = true) R0
      ∧ levelOf Helius.isExcludedAddress 1 R0 (addressesOf R0) R1
      ∧ levelOf Helius.isExcludedAddress 2 R1 (addressesOf (R0 ++ R1)) R2
      ∧ levelOf Helius.isExcludedAddress 3 R2 (addressesOf (R0 ++ R1 ++ R2)) R3.
Proof.
  unfold Helius.traceDistributionTree, ioBind.
  destruct (Helius.getApiKey w) as [key w1].
  destruct (Js.truthyStr key); cbn [negb]; [right | left; reflexivity].
  destruct (helius_structure key seeds mint w1)
    as (R0 & R1 & R2 & R3 & Q & A0 & F0 & L1 & L2 & L3 & _).
  exists R0, R1, R2, R3. auto 10.
Qed.

Lemma alchemy_cases seeds token chainId (w : W) :
  fst (Alchemy.traceEvmDistributionTree seeds token chainId w) = []
  ∨ ∃ R0 R1 R2 R3,
      fst (Alchemy.traceEvmDistributionTree seeds token chainId w) = R0 ++ R1 ++ R2 ++ R3
      ∧ addressesOf R0 = eligibleSeeds Alchemy.isExcluded seeds
      ∧ Forall (fun n => WalletData.traceDepth n = 0 ∧ WalletData.isSeedWallet n = true) R0
      ∧ levelOf Alchemy.isExcluded 1 R0 (addressesOf R0) R1
      ∧ levelOf Alchemy.isExcluded 2 R1 (addressesOf (R0 ++ R1)) R2
      ∧ levelOf Alchemy.isExcluded 3 R2 (addressesOf (R0 ++ R1 ++ R2)) R3.
Proof.
  unfold Alchemy.traceEvmDistributionTree, ioBind.
  destruct (Alchemy.getApiKey w) as [key w1].
  destruct (Js.truthyStr key); cbn [negb]; [right | left; reflexivity].
  destruct (alchemy_structure key seeds token chainId w1)
    as (R0 & R1 & R2 & R3 & Q & A0 & F0 & L1 & L2 & L3 & _).
  exists R0, R1, R2, R3. auto 10.
Qed.

End TracerProperties.

(** X1. Neither tracer returns more nodes than the larger of 400 and the
    number of non-excluded seeds: past the seed level the cap of 400
    holds. *)
Theorem tracers_bounded {W} `{Js.Builtins} `{Runtime W} `{HeliusApi W} `{AlchemyApi W}
    (seeds : list string) (token chainId : string) (w : W) :
  (length (fst (Helius.traceDistributionTree seeds token w))
   ≤ Nat.max (length (eligibleSeeds Helius.isExcludedAddress seeds)) 400)%nat
  ∧ (length (fst (Alchemy.traceEvmDistributionTree seeds token chainId w))
     ≤ Nat.max (length (eligibleSeeds Alchemy.isExcluded seeds)) 400)%nat.
Proof.
  split; [apply traceDistributionTree_bound | apply traceEvmDistributionTree_bound].
Qed.

(** X2. No excluded (infrastructure) address ever appears as a node of a
    trace, at any level, with either tracer. *)
Theorem tracers_skip_infrastructure {W} `{Js.Builtins} `{Runtime W} `{HeliusApi W}
    `{AlchemyApi W} (seeds : list string) (token chainId : string) (w : W) :
  Forall (fun n => Helius.isExcludedAddress (WalletData.address n) = false)
         (fst (Helius.traceDistributionTree seeds token w))
  ∧ Forall (fun n => Alchemy.isExcluded (WalletData.address n) = false)
           (fst (Alchemy.traceEvmDistributionTree seeds token chainId w)).
Proof.
  split.
  - destruct (helius_cases seeds token w)
      as [-> | (R0 & R1 & R2 & R3 & -> & A0 & F0 & L1 & L2 & L3)]; [constructor|].
    eapply shape_no_infrastructure; eassumption.
  - destruct (alchemy_cases seeds token chainId w)
      as [-> | (R0 & R1 & R2 & R3 & -> & A0 & F0 & L1 & L2 & L3)]; [constructor|].
    eapply shape_no_infrastructure; eassumption.
Qed.

(** X3. Every node of a trace is either a seed node at depth 0, or a
    non-seed node at depth 1, 2 or 3 whose address received an outgoing
    token transfer from a node of the same trace exactly one level up. *)
Theorem tracers_well_placed {W} `{Js.Builtins} `{Runtime W} `{HeliusApi W}
    `{AlchemyApi W} (seeds : list string) (token chainId : string) (w : W) :
  (let result := fst (Helius.traceDistributionTree seeds token w) in
   Forall (wellPlaced result) result)
  ∧ (let result := fst (Alchemy.traceEvmDistributionTree seeds token chainId w) in
     Forall (wellPlaced result) result).
Proof.
  cbv zeta. split.
  - destruct (helius_cases seeds token w)
      as [-> | (R0 & R1 & R2 & R3 & -> & A0 & F0 & L1 & L2 & L3)]; [constructor|].
    eapply shape_well_placed; eassumption.
  - destruct (alchemy_cases seeds token chainId w)
      as [-> | (R0 & R1 & R2 & R3 & -> & A0 & F0 & L1 & L2 & L3)]; [constructor|].
    eapply shape_well_placed; eassumption.
Qed.

(** X4. Given seed addresses without repetition, no address string
    appears twice among the nodes of a trace, addresses being compared
    exactly, as the tracers' visited set compares them.  On Solana, where
    an address has a single spelling, a wallet is therefore visited once.
    On account-model chains this is uniqueness of spellings only:
    exclusion and transfer direction ignore letter case while the visited
    set does not, and one wallet can be returned twice, as a seed under
    its checksum spelling and at depth 1 under the lower-case spelling
    that the provider reports. *)
Theorem tracers_visit_once :
  (∀ (W : Type) (B : Js.Builtins) (R : Runtime W) (Hh : HeliusApi W)
     (seeds : list string) (token : string) (w : W),
     NoDup seeds →
     NoDup (addressesOf (fst (Helius.traceDistributionTree seeds token w))))
  ∧ (∀ (W : Type) (B : Js.Builtins) (R : Runtime W) (Ha : AlchemyApi W)
       (seeds : list string) (token chainId : string) (w : W),
       NoDup seeds →
       NoDup (addressesOf (fst (Alchemy.traceEvmDistributionTree seeds token chainId w))))
  ∧ (let seeds := [checksumSender; checksumHolder] in
     let result :=
       fst (@Alchemy.traceEvmDistributionTree unit Offline.builtins
              (Offline.runtime "provider-key") (ledgerAlchemy lowerCaseLedger)
              seeds "0xdAC17F958D2ee523a2206206994597C13D831ec7" "ethereum" tt) in
     NoDup seeds
     ∧ ∃ n m, n ∈ result ∧ m ∈ result
              ∧ WalletData.traceDepth n = 0 ∧ WalletData.traceDepth m = 1
              ∧ WalletData.address n ≠ WalletData.address m
              ∧ Js.toLowerCase (WalletData.address n)
                = Js.toLowerCase (WalletData.address m)).
Proof.
  assert (Hfilter : ∀ p (seeds : list string), NoDup seeds → NoDup (eligibleSeeds p seeds)).
  { intros p seeds Hseeds. unfold eligibleSeeds. eapply sublist_NoDup; [exact Hseeds|].
    clear. induction seeds as [|a l IH]; cbn [List.filter]; [constructor|].
    destruct (negb (p a)); [apply sublist_skip | apply sublist_cons]; exact IH. }
  split; [|split].
  - intros W B R Hh seeds token w Hseeds.
    destruct (helius_cases seeds token w)
      as [-> | (R0 & R1 & R2 & R3 & -> & A0 & F0 & L1 & L2 & L3)]; [constructor|].
    eapply shape_visit_once; try eassumption. apply Hfilter, Hseeds.
  - intros W B R Ha seeds token chainId w Hseeds.
    destruct (alchemy_cases seeds token chainId w)
      as [-> | (R0 & R1 & R2 & R3 & -> & A0 & F0 & L1 & L2 & L3)]; [constructor|].
    eapply shape_visit_once; try eassumption. apply Hfilter, Hseeds.
  - cbv zeta. split.
    { apply (bool_decide_unpack (NoDup _)). vm_compute. exact I. }
    eexists. eexists.
    split; [apply (list_elem_of_lookup_2 _ 1%nat); vm_compute; reflexivity|].
    split; [apply (list_elem_of_lookup_2 _ 2%nat); vm_compute; reflexivity|].
    split; [reflexivity|]. split; [reflexivity|].
    split; [intros Heq; vm_compute in Heq; discriminate Heq | vm_compute; reflexivity].
Qed.

Lemma tracers_visit_once_witness :
  NoDup (addressesOf (fst (@Helius.traceDistributionTree unit Offline.builtins
           (Offline.runtime "provider-key") Offline.helius
           [fundedWallet; "So11111111111111111111111111111111111111112";
            "5tzFkiKscXHK5ZXCGbXZxdw7gTjjD1mBwuoFbhUvuAi9"] "So1MintAddress" tt)))
  ∧ NoDup (addressesOf (fst (@Alchemy.traceEvmDistributionTree unit Offline.builtins
             (Offline.runtime "provider-key") (ledgerAlchemy lowerCaseLedger)
             [checksumSender; checksumHolder]
             "0xdAC17F958D2ee523a2206206994597C13D831ec7" "ethereum" tt))).
Proof.
  split.
  - refine (proj1 tracers_visit_once unit Offline.builtins
              (Offline.runtime "provider-key") Offline.helius
              [fundedWallet; "So11111111111111111111111111111111111111112";
               "5tzFkiKscXHK5ZXCGbXZxdw7gTjjD1mBwuoFbhUvuAi9"] "So1MintAddress" tt _).
    apply (bool_decide_unpack (NoDup _)). vm_compute. exact I.
  - refine (proj1 (proj2 tracers_visit_once) unit Offline.builtins
              (Offline.runtime "provider-key") (ledgerAlchemy lowerCaseLedger)
              [checksumSender; checksumHolder]
              "0xdAC17F958D2ee523a2206206994597C13D831ec7" "ethereum" tt _).
    apply (bool_decide_unpack (NoDup _)). vm_compute. exact I.
Defined.

(** X5. With its provider key set, a tracer puts the nodes of the
    non-excluded seeds first, in the order given, and flags exactly those
    nodes as seed wallets. *)
Theorem tracers_seed_nodes {W} `{Js.Builtins} `{Runtime W} `{HeliusApi W}
    `{AlchemyApi W} (seeds : list string) (token chainId : string) (w : W) :
  (Js.truthyStr (fst (env "VITE_HELIUS_API_KEY" w)) = true →
   let result := fst (Helius.traceDistributionTree seeds token w) in
   let eligible := eligibleSeeds Helius.isExcludedAddress seeds in
   addressesOf (List.filter WalletData.isSeedWallet result) = eligible
   ∧ addressesOf (take (length eligible) result) = eligible)
  ∧ (Js.truthyStr (fst (env "VITE_ALCHEMY_API_KEY" w)) = true →
     let result := fst (Alchemy.traceEvmDistributionTree seeds token chainId w) in
     let eligible := eligibleSeeds Alchemy.isExcluded seeds in
     addressesOf (List.filter WalletData.isSeedWallet result) = eligible
     ∧ addressesOf (take (length eligible) result) = eligible).
Proof.
  split; intros Hkey; cbv zeta.
  - unfold Helius.traceDistributionTree, Helius.getApiKey, ioBind.
    destruct (env "VITE_HELIUS_API_KEY" w) as [key w1]. cbn [fst] in Hkey.
    rewrite Hkey. cbn [negb].
    destruct (helius_structure key seeds token w1)
      as (R0 & R1 & R2 & R3 & -> & A0 & F0 & L1 & L2 & L3 & _).
    eapply shape_seed_nodes; eassumption.
  - unfold Alchemy.traceEvmDistributionTree, Alchemy.getApiKey, ioBind.
    destruct (env "VITE_ALCHEMY_API_KEY" w) as [key w1]. cbn [fst] in Hkey.
    rewrite Hkey. cbn [negb].
    destruct (alchemy_structure key seeds token chainId w1)
      as (R0 & R1 & R2 & R3 & -> & A0 & F0 & L1 & L2 & L3 & _).
    eapply shape_seed_nodes; eassumption.
Qed.

Lemma tracers_seed_nodes_witness :
  (let result := fst (@Helius.traceDistributionTree unit Offline.builtins
                        (Offline.runtime "provider-key") Offline.helius
                        [fundedWallet; "So11111111111111111111111111111111111111112";
                         "5tzFkiKscXHK5ZXCGbXZxdw7gTjjD1mBwuoFbhUvuAi9"]
                        "So1MintAddress" tt) in
   let eligible := eligibleSeeds Helius.isExcludedAddress
                     [fundedWallet; "So11111111111111111111111111111111111111112";
                      "5tzFkiKscXHK5ZXCGbXZxdw7gTjjD1mBwuoFbhUvuAi9"] in
   addressesOf (List.filter WalletData.isSeedWallet result) = eligible
   ∧ addressesOf (take (length eligible) result) = eligible)
  ∧ (let result := fst (@Alchemy.traceEvmDistributionTree unit Offline.builtins
                          (Offline.runtime "provider-key") Offline.alchemy
                          [fundedWallet; "So11111111111111111111111111111111111111112";
                           "5tzFkiKscXHK5ZXCGbXZxdw7gTjjD1mBwuoFbhUvuAi9"]
                          "So1MintAddress" "ethereum" tt) in
     let eligible := eligibleSeeds Alchemy.isExcluded
                       [fundedWallet; "So11111111111111111111111111111111111111112";
                        "5tzFkiKscXHK5ZXCGbXZxdw7gTjjD1mBwuoFbhUvuAi9"] in
     addressesOf (List.filter WalletData.isSeedWallet result) = eligible
     ∧ addressesOf (take (length eligible) result) = eligible).
Proof.
  split.
  - refine (proj1 (@tracers_seed_nodes unit Offline.builtins
                     (Offline.runtime "provider-key") Offline.helius Offline.alchemy
                     [fundedWallet; "So11111111111111111111111111111111111111112";
                      "5tzFkiKscXHK5ZXCGbXZxdw7gTjjD1mBwuoFbhUvuAi9"]
                     "So1MintAddress" "ethereum" tt) _).
    vm_compute. reflexivity.
  - refine (proj2 (@tracers_seed_nodes unit Offline.builtins
                     (Offline.runtime "provider-key") Offline.helius Offline.alchemy
                     [fundedWallet; "So11111111111111111111111111111111111111112";
                      "5tzFkiKscXHK5ZXCGbXZxdw7gTjjD1mBwuoFbhUvuAi9"]
                     "So1MintAddress" "ethereum" tt) _).
    vm_compute. reflexivity.
Defined.

Lemma levelOf_orphans isExcluded d visited nodes :
  levelOf isExcluded d [] visited nodes → nodes = [].
Proof.
  intros [Hall _]. destruct nodes as [|n nodes]; [reflexivity|].
  apply Forall_cons in Hall as [(_ & _ & _ & _ & p & Hp & _) _].
  apply elem_of_nil in Hp. contradiction.
Qed.

(** X6. When every seed is excluded (or there is none), the trace is
    empty: no level can start without a node above it. *)
Theorem tracers_nothing_without_seeds {W} `{Js.Builtins} `{Runtime W} `{HeliusApi W}
    `{AlchemyApi W} (seeds : list string) (token chainId : string) (w : W) :
  (eligibleSeeds Helius.isExcludedAddress seeds = [] →
   fst (Helius.traceDistributionTree seeds token w) = [])
  ∧ (eligibleSeeds Alchemy.isExcluded seeds = [] →
     fst (Alchemy.traceEvmDistributionTree seeds token chainId w) = []).
Proof.
  split; intros Hnone.
  - destruct (helius_cases seeds token w)
      as [-> | (R0 & R1 & R2 & R3 & -> & A0 & F0 & L1 & L2 & L3)]; [reflexivity|].
    rewrite Hnone in A0. apply map_eq_nil in A0. subst R0.
    apply levelOf_orphans in L1. subst R1.
    apply levelOf_orphans in L2. subst R2.
    apply levelOf_orphans in L3. subst R3. reflexivity.
  - destruct (alchemy_cases seeds token chainId w)
      as [-> | (R0 & R1 & R2 & R3 & -> & A0 & F0 & L1 & L2 & L3)]; [reflexivity|].
    rewrite Hnone in A0. apply map_eq_nil in A0. subst R0.
    apply levelOf_orphans in L1. subst R1.
    apply levelOf_orphans in L2. subst R2.
    apply levelOf_orphans in L3. subst R3. reflexivity.
Qed.

Lemma tracers_nothing_without_seeds_witness :
  fst (@Helius.traceDistributionTree unit Offline.builtins (Offline.runtime "provider-key")
         Offline.helius
         ["11111111111111111111111111111111"; "short";
          "JUP6LkbZbjS1jKKwapdHNy74zcZ3tLUZoi5QNyVTaV4"] "So1MintAddress" tt) = []
  ∧ fst (@Alchemy.traceEvmDistributionTree unit Offline.builtins
           (Offline.runtime "provider-key") Offline.alchemy
           ["0x000000000000000000000000000000000000dEaD";
            "0x7A250D5630B4CF539739DF2C5DACB4C659F2488D"] "0xtoken" "ethereum" tt) = [].
Proof.
  split.
  - refine (proj1 (@tracers_nothing_without_seeds unit Offline.builtins
                     (Offline.runtime "provider-key") Offline.helius Offline.alchemy
                     ["11111111111111111111111111111111"; "short";
                      "JUP6LkbZbjS1jKKwapdHNy74zcZ3tLUZoi5QNyVTaV4"]
                     "So1MintAddress" "ethereum" tt) _).
    vm_compute. reflexivity.
  - refine (proj2 (@tracers_nothing_without_seeds unit Offline.builtins
                     (Offline.runtime "provider-key") Offline.helius Offline.alchemy
                     ["0x000000000000000000000000000000000000dEaD";
                      "0x7A250D5630B4CF539739DF2C5DACB4C659F2488D"]
                     "0xtoken" "ethereum" tt) _).
    vm_compute. reflexivity.
Defined.

(** X7. A batch balance lookup answers for every address asked, and for
    no other: the keys of the returned map are the requested addresses,
    each once, whatever the provider replied (a failed lookup still
    yields an entry). *)
Theorem batch_balances_cover {W} `{Js.Builtins} `{Runtime W} `{HeliusApi W}
    `{AlchemyApi W} (addresses : list string) (token chainId key : string) (w : W) :
  let solana := fst (Helius.batchGetBalances addresses token key w) in
  let evm := fst (Alchemy.batchGetEvmBalances addresses token chainId key w) in
  (NoDup (keysOf solana) ∧ ∀ a, a ∈ keysOf solana ↔ a ∈ addresses)
  ∧ (NoDup (keysOf evm) ∧ ∀ a, a ∈ keysOf evm ↔ a ∈ addresses).
Proof.
  cbv zeta. unfold Helius.batchGetBalances, Alchemy.batchGetEvmBalances.
  rewrite batchGetBalancesFrom_keys, batchGetEvmBalancesFrom_keys.
  assert (Hkeys : NoDup (fold_left (fun s a => JsSet.add a s) addresses [])
                  ∧ ∀ a, a ∈ fold_left (fun s a => JsSet.add a s) addresses []
                         ↔ a ∈ addresses).
  { split; [apply JsSet_adds_NoDup, NoDup_nil_2|].
    intros a. rewrite JsSet_adds_elem, elem_of_nil. tauto. }
  split; exact Hkeys.
Qed.

(** ** Parsing of wallet activity *)

Lemma fold_left_invariant {A B} (P : A → Prop) (f : A → B → A) (l : list B) (a : A) :
  P a → (∀ a x, x ∈ l → P a → P (f a x)) → P (fold_left f l a).
Proof.
  revert a. induction l as [|x l IH]; intros a Ha Hstep; [exact Ha|].
  cbn [fold_left]. apply IH.
  - apply Hstep; [left | exact Ha].
  - intros a' y Hy. apply Hstep. right. exact Hy.
Qed.

(** X8. Every buy that [parseSwaps] reports is an incoming token transfer
    of the requested mint, with a positive amount, inside a swap-like
    transaction, from another account to the wallet, stamped with that
    transaction's time; every sell is the mirror image. *)
Theorem parseSwaps_sound (allTxs : list HeliusTransaction.t) (wallet mintAddress : string) :
  let origin (incoming : bool) (s : Swap.t) :=
    ∃ tx tt, tx ∈ allTxs ∧ isSwapLike tx = true ∧ movesMint mintAddress tx tt
             ∧ (if incoming
                then TokenTransfer.toUserAccount tt = wallet
                     ∧ TokenTransfer.fromUserAccount tt ≠ wallet
                else TokenTransfer.fromUserAccount tt = wallet
                     ∧ TokenTransfer.toUserAccount tt ≠ wallet)
             ∧ Swap.tokenAmount s = TokenTransfer.tokenAmount tt
             ∧ Swap.timestamp s = HeliusTransaction.timestamp tx in
  Forall (origin true) (fst (Helius.parseSwaps allTxs wallet mintAddress))
  ∧ Forall (origin false) (snd (Helius.parseSwaps allTxs wallet mintAddress)).
Proof.
  cbv zeta. unfold Helius.parseSwaps.
  apply (fold_left_invariant (fun acc => Forall _ (fst acc) ∧ Forall _ (snd acc)));
    [split; constructor|].
  intros acc tx Htx Hacc.
  destruct (HeliusTransaction.tokenTransfers tx) as [[|tt0 tts0]|] eqn:Etts;
    try exact Hacc.
  fold (isSwapLike tx). destruct (isSwapLike tx) eqn:Eswap; cbn [negb]; [|exact Hacc].
  apply (fold_left_invariant (fun acc => Forall _ (fst acc) ∧ Forall _ (snd acc)));
    [exact Hacc|].
  clear acc Hacc. intros [buys sells] tt Htt [Hb Hs]. unfold Helius.swapStep.
  destruct (String.eqb_spec (TokenTransfer.mint tt) mintAddress) as [Hm|];
    cbn [negb]; [|split; assumption].
  destruct (PrimFloat.leb (TokenTransfer.tokenAmount tt) 0) eqn:Eamt; [split; assumption|].
  assert (movesMint mintAddress tx tt) as Hmoves by (repeat split; eauto).
  destruct (String.eqb_spec (TokenTransfer.toUserAccount tt) wallet) as [Hto|Hto];
    destruct (String.eqb_spec (TokenTransfer.fromUserAccount tt) wallet) as [Hfrom|Hfrom];
    cbn [negb andb fst snd]; try (split; assumption).
  - split; [|assumption]. apply Forall_app. split; [assumption|].
    constructor; [|constructor]. exists tx, tt. cbn. auto 10.
  - split; [assumption|]. apply Forall_app. split; [assumption|].
    constructor; [|constructor]. exists tx, tt. cbn. auto 10.
Qed.

(** X9. Every plain transfer that [parseTransfers] reports has a positive
    amount of the requested mint and joins the wallet to a different
    account that is not excluded; and the wallet itself is not an
    excluded address, so that for an excluded wallet nothing is
    reported. *)
Theorem parseTransfers_sound (allTxs : list HeliusTransaction.t)
    (wallet mintAddress : string) :
  let counterparty (peer : string) (amount stamp : float) :=
    peer ≠ wallet
    ∧ Helius.isExcludedAddress peer = false
    ∧ Helius.isExcludedAddress wallet = false
    ∧ ∃ tx tt, tx ∈ allTxs ∧ movesMint mintAddress tx tt
               ∧ amount = TokenTransfer.tokenAmount tt
               ∧ stamp = HeliusTransaction.timestamp tx in
  Forall (fun t => counterparty (Outgoing.to t) (Outgoing.tokenAmount t) (Outgoing.timestamp t))
         (fst (Helius.parseTransfers allTxs wallet mintAddress))
  ∧ Forall (fun t => counterparty (Incoming.from t) (Incoming.tokenAmount t)
                       (Incoming.timestamp t))
           (snd (Helius.parseTransfers allTxs wallet mintAddress)).
Proof.
  cbv zeta. unfold Helius.parseTransfers.
  apply (fold_left_invariant (fun acc => Forall _ (fst acc) ∧ Forall _ (snd acc)));
    [split; constructor|].
  intros acc tx Htx Hacc.
  destruct (HeliusTransaction.tokenTransfers tx) as [[|tt0 tts0]|] eqn:Etts;
    try exact Hacc.
  apply (fold_left_invariant (fun acc => Forall _ (fst acc) ∧ Forall _ (snd acc)));
    [exact Hacc|].
  clear acc Hacc. intros [outs ins] tt Htt [Ho Hi]. unfold Helius.transferStep.
  destruct (String.eqb_spec (TokenTransfer.mint tt) mintAddress) as [Hm|];
    cbn [negb]; [|split; assumption].
  destruct (PrimFloat.leb (TokenTransfer.tokenAmount tt) 0) eqn:Eamt; [split; assumption|].
  assert (movesMint mintAddress tx tt) as Hmoves by (repeat split; eauto).
  destruct (String.eqb_spec (TokenTransfer.fromUserAccount tt)
              (TokenTransfer.toUserAccount tt)) as [|Hself]; [split; assumption|].
  destruct (Helius.isExcludedAddress (TokenTransfer.fromUserAccount tt)) eqn:Ef;
    [split; assumption|].
  destruct (Helius.isExcludedAddress (TokenTransfer.toUserAccount tt)) eqn:Et;
    [split; assumption|].
  cbn [orb].
  destruct (String.eqb_spec (TokenTransfer.fromUserAccount tt) wallet) as [Hfrom|Hfrom].
  - cbn [fst snd]. split; [|assumption]. apply Forall_app. split; [assumption|].
    constructor; [|constructor]. cbn. subst wallet.
    repeat split; try assumption; [congruence | eauto 10].
  - destruct (String.eqb_spec (TokenTransfer.toUserAccount tt) wallet) as [Hto|Hto];
      [|split; assumption].
    cbn [fst snd]. split; [assumption|]. apply Forall_app. split; [assumption|].
    constructor; [|constructor]. cbn. subst wallet.
    repeat split; try assumption; eauto 10.
Qed.

(** X10. [classifyTransfers] never reports a buy or a sell, and splits
    the transfers in two without loss: the outgoing ones are those whose
    sender is the wallet up to letter case, in order, and the incoming
    ones are all the others. *)
Theorem classifyTransfers_partition (transfers : list AlchemyTransfer.t) (wallet : string) :
  Alchemy.classifyTransfers transfers wallet
  = ([], [],
     map (fun t => {| Outgoing.to := AlchemyTransfer.to t;
                      Outgoing.tokenAmount := AlchemyTransfer.value t;
                      Outgoing.timestamp := 0 |})
         (List.filter (sentBy wallet) transfers),
     map (fun t => {| Incoming.from := AlchemyTransfer.from t;
                      Incoming.tokenAmount := AlchemyTransfer.value t;
                      Incoming.timestamp := 0 |})
         (List.filter (fun t => negb (sentBy wallet t)) transfers)).
Proof.
  unfold Alchemy.classifyTransfers.
  assert (Hfold : ∀ outs ins,
    fold_left (Alchemy.classifyStep wallet) transfers (outs, ins)
    = (outs ++ map (fun t => {| Outgoing.to := AlchemyTransfer.to t;
                                Outgoing.tokenAmount := AlchemyTransfer.value t;
                                Outgoing.timestamp := 0 |})
                   (List.filter (sentBy wallet) transfers),
       ins ++ map (fun t => {| Incoming.from := AlchemyTransfer.from t;
                               Incoming.tokenAmount := AlchemyTransfer.value t;
                               Incoming.timestamp := 0 |})
                  (List.filter (fun t => negb (sentBy wallet t)) transfers))).
  { induction transfers as [|t ts IH]; intros outs ins.
    - cbn. rewrite !app_nil_r. reflexivity.
    - cbn [fold_left List.filter]. unfold Alchemy.classifyStep at 2.
      fold (sentBy wallet t). destruct (sentBy wallet t); cbn [negb map];
        rewrite IH, <- app_assoc; reflexivity. }
  rewrite Hfold. reflexivity.
Qed.

(** ** More on funding-source inference *)

Lemma sortInsert_length {A} (cmp : A → A → float) (x : A) (l : list A) :
  length (Js.sortInsert cmp x l) = S (length l).
Proof.
  induction l as [|y l IH]; cbn [Js.sortInsert]; [reflexivity|].
  destruct (Js.gt (cmp x y) 0); cbn [length]; [rewrite IH|]; reflexivity.
Qed.

Lemma sort_length {A} (cmp : A → A → float) (l : list A) :
  length (Js.sort cmp l) = length l.
Proof.
  unfold Js.sort. induction l as [|x l IH]; cbn [foldr length]; [reflexivity|].
  rewrite sortInsert_length, IH. reflexivity.
Qed.

Lemma sortInsert_keeps {A} (cmp : A → A → float) (x y : A) (l : list A) :
  y = x ∨ y ∈ l → y ∈ Js.sortInsert cmp x l.
Proof.
  induction l as [|z l IH]; cbn [Js.sortInsert].
  - intros [->|Hy]; [left | inversion Hy].
  - destruct (Js.gt (cmp x z) 0); rewrite !elem_of_cons; [|tauto].
    intros [->|[->|Hy]]; [right; apply IH; auto | auto | right; apply IH; auto].
Qed.

Lemma sort_keeps {A} (cmp : A → A → float) (y : A) (l : list A) :
  y ∈ l → y ∈ Js.sort cmp l.
Proof.
  unfold Js.sort. induction l as [|x l IH]; cbn [foldr]; [auto|].
  rewrite elem_of_cons. intros [->|Hy]; apply sortInsert_keeps; auto.
Qed.

(** The candidate transactions of [traceFundingSource], newest first. *)
Lemma fundingTxs_elem txs wallet tx :
  tx ∈ Js.sort
         (fun a b => (HeliusTransaction.timestamp b - HeliusTransaction.timestamp a)%float)
         (List.filter (Helius.isFundingTx wallet) txs)
  ↔ tx ∈ txs ∧ Helius.isFundingTx wallet tx = true.
Proof.
  split.
  - intros Htx. apply sort_elem, list_elem_of_In, filter_In in Htx as [Hin Hf].
    split; [apply list_elem_of_In, Hin | exact Hf].
  - intros [Hin Hf]. apply sort_keeps, list_elem_of_In, filter_In.
    split; [apply list_elem_of_In, Hin | exact Hf].
Qed.

Lemma funding_transfer_found wallet tx :
  Helius.isFundingTx wallet tx = true →
  ∃ nts nt,
    HeliusTransaction.nativeTransfers tx = Some nts
    ∧ List.find (fun nt => String.eqb (NativeTransfer.toUserAccount nt) wallet) nts = Some nt.
Proof.
  unfold Helius.isFundingTx.
  destruct (HeliusTransaction.nativeTransfers tx) as [nts|]; [|discriminate].
  intros Hex. apply existsb_exists in Hex as (nt & Hin & Hc).
  apply andb_prop in Hc as [Hto _].
  destruct (List.find (fun nt => String.eqb (NativeTransfer.toUserAccount nt) wallet) nts)
    as [nt'|] eqn:E; [eauto|].
  exfalso. pose proof (List.find_none _ _ E nt Hin) as Hno. cbn in Hno. congruence.
Qed.

(** X11. A funding source is reported exactly when some transaction of
    the history carries a native transfer to the wallet above 10000000
    lamports; without one the result is undefined. *)
Theorem funding_source_defined (txs : list HeliusTransaction.t) (wallet : string)
    (firstBuy : float) :
  Helius.traceFundingSource txs wallet firstBuy = None
  ↔ Forall (fun tx => Helius.isFundingTx wallet tx = false) txs.
Proof.
  unfold Helius.traceFundingSource. cbv zeta.
  set (sorted := Js.sort _ (List.filter (Helius.isFundingTx wallet) txs)).
  assert (Hsorted : ∀ tx, tx ∈ sorted ↔ tx ∈ txs ∧ Helius.isFundingTx wallet tx = true)
    by (intros tx; apply fundingTxs_elem).
  split.
  - intros Hnone. apply Forall_forall. intros tx Htx.
    destruct (Helius.isFundingTx wallet tx) eqn:Ef; [exfalso|reflexivity].
    assert (tx ∈ sorted) as Hin by (apply Hsorted; auto).
    unfold Js.find in Hnone.
    destruct (List.find _ sorted) as [best|] eqn:Ebest.
    + apply List.find_some in Ebest as [Hb _]. apply list_elem_of_In, Hsorted in Hb as [_ Hb].
      destruct (funding_transfer_found wallet best Hb) as (nts & nt & En & Ent).
      rewrite En in Hnone. cbn [default from_option] in Hnone. unfold id in Hnone.
      rewrite Ent in Hnone. discriminate.
    + destruct sorted as [|s0 sorted'] eqn:Es; [inversion Hin|].
      cbn [length Nat.ltb Nat.leb] in Hnone.
      destruct (last (s0 :: sorted')) as [best|] eqn:El.
      * assert (best ∈ s0 :: sorted') as Hb
          by (apply last_Some in El as [l' ->]; apply elem_of_app; right; left).
        apply Hsorted in Hb as [_ Hb].
        destruct (funding_transfer_found wallet best Hb) as (nts & nt & En & Ent).
        rewrite En in Hnone. cbn [default from_option] in Hnone. unfold id in Hnone.
        rewrite Ent in Hnone. discriminate.
      * apply last_None in El. discriminate.
  - intros Hall.
    assert (sorted = []) as ->.
    { destruct sorted as [|s0 sorted'] eqn:Es; [reflexivity|].
      assert (s0 ∈ s0 :: sorted') as Hin by left.
      apply Hsorted in Hin as [Hin Hf].
      rewrite (proj1 (Forall_forall _ _) Hall s0 Hin) in Hf. discriminate. }
    reflexivity.
Qed.

(** X12. The 24-hour window has priority: when any funding transaction
    of the history is stamped strictly inside the 24 hours before the
    first buy, the reported source is stamped inside them too. *)
Theorem funding_source_prefers_window (txs : list HeliusTransaction.t) (wallet : string)
    (firstBuy : float) (fs : FundingSource.t) (tx : HeliusTransaction.t) :
  Helius.traceFundingSource txs wallet firstBuy = Some fs →
  tx ∈ txs →
  Helius.isFundingTx wallet tx = true →
  inFundingWindow firstBuy tx = true →
  Js.lt (FundingSource.timestamp fs) firstBuy
  && Js.gt (FundingSource.timestamp fs) (firstBuy - 86400)%float = true.
Proof.
  unfold Helius.traceFundingSource. cbv zeta.
  set (sorted := Js.sort _ (List.filter (Helius.isFundingTx wallet) txs)).
  intros Hres Hin Hf Hwin.
  assert (tx ∈ sorted) as Hs by (apply fundingTxs_elem; auto).
  unfold Js.find in Hres. fold (inFundingWindow firstBuy) in Hres.
  destruct (List.find (inFundingWindow firstBuy) sorted) as [best|] eqn:Ebest.
  - apply List.find_some in Ebest as [_ Hb].
    destruct (HeliusTransaction.nativeTransfers best) as [nts|];
      cbn [default from_option] in Hres; unfold id in Hres.
    + destruct (List.find _ nts) as [nt|]; [|discriminate].
      injection Hres as <-. exact Hb.
    + cbn in Hres. discriminate.
  - exfalso. apply list_elem_of_In in Hs.
    pose proof (List.find_none _ _ Ebest tx Hs) as Hno. congruence.
Qed.

Lemma funding_source_prefers_window_witness :
  Js.lt 1699996400 1700000000 && Js.gt 1699996400 (1700000000 - 86400)%float = true.
Proof.
  apply (funding_source_prefers_window [dustThenFunding] fundedWallet 1700000000
           {| FundingSource.address := "DustSenderWa11et1111111111111111111111111";
              FundingSource.amount := 5000;
              FundingSource.timestamp := 1699996400;
              FundingSource.isCex := false |} dustThenFunding).
  - vm_compute. reflexivity.
  - left.
  - reflexivity.
  - reflexivity.
Defined.

(** X13. What is reported: the chosen transaction is one of the wallet's
    funding transactions; the sender and the amount are those of its first
    native transfer to the wallet (whatever that transfer's amount), the
    time is the transaction's, and the exchange flag tells whether the
    sender is in the static exchange set. *)
Theorem funding_source_report (txs : list HeliusTransaction.t) (wallet : string)
    (firstBuy : float) (fs : FundingSource.t) :
  Helius.traceFundingSource txs wallet firstBuy = Some fs →
  ∃ tx nts nt,
    tx ∈ txs
    ∧ Helius.isFundingTx wallet tx = true
    ∧ HeliusTransaction.nativeTransfers tx = Some nts
    ∧ List.find (fun nt => String.eqb (NativeTransfer.toUserAccount nt) wallet) nts = Some nt
    ∧ fs = {| FundingSource.address := NativeTransfer.fromUserAccount nt;
              FundingSource.amount := NativeTransfer.amount nt;
              FundingSource.timestamp := HeliusTransaction.timestamp tx;
              FundingSource.isCex :=
                bool_decide (NativeTransfer.fromUserAccount nt
                             ∈ Helius.KNOWN_CEX_ADDRESSES) |}.
Proof.
  intros Hres.
  destruct (traceFundingSource_chosen txs wallet firstBuy fs Hres)
    as (tx & nts & nt & Hin & Hf & En & Ent & Ha & Hm & Ht).
  pose proof (traceFundingSource_isCex txs wallet firstBuy fs Hres) as Hc.
  exists tx, nts, nt. repeat split; try assumption.
  destruct fs as [a m t c]. cbn in *. subst. reflexivity.
Qed.

Lemma funding_source_report_witness :
  ∃ tx nts nt,
    tx ∈ [dustThenFunding]
    ∧ Helius.isFundingTx fundedWallet tx = true
    ∧ HeliusTransaction.nativeTransfers tx = Some nts
    ∧ List.find (fun nt => String.eqb (NativeTransfer.toUserAccount nt) fundedWallet) nts
      = Some nt
    ∧ {| FundingSource.address := "DustSenderWa11et1111111111111111111111111";
         FundingSource.amount := 5000;
         FundingSource.timestamp := 1699996400;
         FundingSource.isCex := false |}
      = {| FundingSource.address := NativeTransfer.fromUserAccount nt;
           FundingSource.amount := NativeTransfer.amount nt;
           FundingSource.timestamp := HeliusTransaction.timestamp tx;
           FundingSource.isCex :=
             bool_decide (NativeTransfer.fromUserAccount nt
                          ∈ Helius.KNOWN_CEX_ADDRESSES) |}.
Proof.
  apply (funding_source_report [dustThenFunding] fundedWallet 1700000000).
  vm_compute. reflexivity.
Defined.

(** ** Shape of the breakdown *)

Lemma emits_skip l : emits l false (fun st => st).
Proof.
  intros [s bd]. exists []. cbn. rewrite app_nil_r, Z.add_0_r.
  split; [reflexivity | left; auto].
Qed.

Lemma emits_deduct l must k f :
  impact f = - k → factorOf l f → emits l must (deduct k f).
Proof.
  intros Hk Hf [s bd]. exists [f]. unfold deduct. cbn. split.
  - f_equal. lia.
  - right. eauto.
Qed.

Lemma emits_push l must f : impact f = 0 → factorOf l f → emits l must (push f).
Proof.
  intros Hk Hf [s bd]. exists [f]. unfold push. cbn. split.
  - f_equal. lia.
  - right. eauto.
Qed.

Ltac factor_ok :=
  unfold factorOf; cbn;
  repeat split; first [ reflexivity | lia | discriminate | intros; discriminate
                      | intros; lia | intros; reflexivity ].

Ltac emit_cases :=
  let st := fresh "st" in
  intros st; cbv zeta;
  repeat match goal with
         | |- context [match ?o with Some _ => _ | None => _ end] => destruct o
         | |- context [if ?c then _ else _] => destruct c
         end;
  first [ refine (emits_deduct _ _ _ _ _ _ st); [reflexivity | factor_ok]
        | refine (emits_push _ _ _ _ _ st); [reflexivity | factor_ok]
        | exact (emits_skip _ st) ].

Section BreakdownShape.
Context `{Js.Builtins}.

Lemma ruleMintable_emits sec : emits "Mintable Supply" false (ruleMintable sec).
Proof. unfold ruleMintable. emit_cases. Qed.

Lemma ruleBuyTax_emits sec : emits "Buy Tax" false (ruleBuyTax sec).
Proof. unfold ruleBuyTax. emit_cases. Qed.

Lemma ruleSellTax_emits sec : emits "Sell Tax" false (ruleSellTax sec).
Proof. unfold ruleSellTax. emit_cases. Qed.

Lemma ruleSellRestriction_emits sec :
  emits "Sell Restriction" false (ruleSellRestriction sec).
Proof. unfold ruleSellRestriction. emit_cases. Qed.

Lemma ruleLiquidity_emits liq : emits "Liquidity" true (ruleLiquidity liq).
Proof. unfold ruleLiquidity. emit_cases. Qed.

Lemma ruleBundleActivity_emits an : emits "Bundle Activity" true (ruleBundleActivity an).
Proof. unfold ruleBundleActivity. emit_cases. Qed.

Lemma ruleLaunchVolume_emits an : emits "Launch Volume" true (ruleLaunchVolume an).
Proof. unfold ruleLaunchVolume. emit_cases. Qed.

Lemma ruleHolderConcentration_emits an :
  emits "Holder Concentration" true (ruleHolderConcentration an).
Proof. unfold ruleHolderConcentration. emit_cases. Qed.

Lemma ruleLpImpact_emits bc : emits "LP Impact Ratio" true (ruleLpImpact bc).
Proof. unfold ruleLpImpact. emit_cases. Qed.

Lemma ruleBundledSupply_emits bc : emits "Bundled Supply" false (ruleBundledSupply bc).
Proof. unfold ruleBundledSupply. emit_cases. Qed.

Lemma slot_optional l must ext : slot l must ext → slot l false ext.
Proof. intros [[_ ->]|Hf]; [left; auto | right; exact Hf]. Qed.

Lemma ruleDeepBundle_emits bc st :
  ∃ e9 e10,
    ruleDeepBundle bc st = (fst st + sumImpacts (e9 ++ e10), snd st ++ e9 ++ e10)
    ∧ slot "LP Impact Ratio" false e9 ∧ slot "Bundled Supply" false e10.
Proof.
  assert (Hnone : ∃ e9 e10 : list ScoreFactor,
    st = (fst st + sumImpacts (e9 ++ e10), snd st ++ e9 ++ e10)
    ∧ slot "LP Impact Ratio" false e9 ∧ slot "Bundled Supply" false e10).
  { exists [], []. destruct st as [s bd]. cbn. rewrite app_nil_r, Z.add_0_r.
    repeat split; left; auto. }
  unfold ruleDeepBundle. destruct bc as [bc|]; [|exact Hnone].
  destruct (BundleControl.clusterCount bc >? 0); [|exact Hnone].
  destruct (ruleLpImpact_emits bc st) as (e9 & Q9 & S9).
  destruct (ruleBundledSupply_emits bc (ruleLpImpact bc st)) as (e10 & Q10 & S10).
  exists e9, e10. rewrite Q10, Q9. cbn [fst snd].
  rewrite sumImpacts_app, <- app_assoc. split; [f_equal; lia|].
  split; [eapply slot_optional; exact S9 | exact S10].
Qed.

(** Without the honeypot exit, the breakdown is the concatenation of what
    the ten rules append, in order. *)
Lemma breakdown_shape liq sec an bc :
  isHoneypot sec = false →
  ∃ e1 e2 e3 e4 e5 e6 e7 e8 e9 e10,
    breakdown (calculateScore liq sec an bc)
    = e1 ++ e2 ++ e3 ++ e4 ++ e5 ++ e6 ++ e7 ++ e8 ++ e9 ++ e10
    ∧ slot "Mintable Supply" false e1 ∧ slot "Buy Tax" false e2
    ∧ slot "Sell Tax" false e3 ∧ slot "Sell Restriction" false e4
    ∧ slot "Liquidity" true e5 ∧ slot "Bundle Activity" true e6
    ∧ slot "Launch Volume" true e7 ∧ slot "Holder Concentration" true e8
    ∧ slot "LP Impact Ratio" false e9 ∧ slot "Bundled Supply" false e10.
Proof.
  intros Hhp. rewrite calculateScore_unfold, Hhp. cbv zeta. cbn [breakdown].
  unfold launchRules, contractRules.
  destruct (ruleMintable_emits sec (100, [])) as (e1 & Q1 & S1). rewrite Q1.
  match goal with |- context [ruleBuyTax sec ?s] =>
    destruct (ruleBuyTax_emits sec s) as (e2 & Q2 & S2); rewrite Q2 end.
  match goal with |- context [ruleSellTax sec ?s] =>
    destruct (ruleSellTax_emits sec s) as (e3 & Q3 & S3); rewrite Q3 end.
  match goal with |- context [ruleSellRestriction sec ?s] =>
    destruct (ruleSellRestriction_emits sec s) as (e4 & Q4 & S4); rewrite Q4 end.
  match goal with |- context [ruleLiquidity liq ?s] =>
    destruct (ruleLiquidity_emits liq s) as (e5 & Q5 & S5); rewrite Q5 end.
  match goal with |- context [ruleBundleActivity an ?s] =>
    destruct (ruleBundleActivity_emits an s) as (e6 & Q6 & S6); rewrite Q6 end.
  match goal with |- context [ruleLaunchVolume an ?s] =>
    destruct (ruleLaunchVolume_emits an s) as (e7 & Q7 & S7); rewrite Q7 end.
  match goal with |- context [ruleHolderConcentration an ?s] =>
    destruct (ruleHolderConcentration_emits an s) as (e8 & Q8 & S8); rewrite Q8 end.
  match goal with |- context [ruleDeepBundle bc ?s] =>
    destruct (ruleDeepBundle_emits bc s) as (e9 & e10 & Q9 & S9 & S10); rewrite Q9 end.
  exists e1, e2, e3, e4, e5, e6, e7, e8, e9, e10.
  cbn [fst snd app]. rewrite <- !app_assoc. auto 20.
Qed.

End BreakdownShape.

Lemma slot_labels l must ext (rest order : list string) :
  slot l must ext → rest `sublist_of` order →
  (map label ext ++ rest) `sublist_of` (l :: order).
Proof.
  intros [[_ ->]|(f & -> & Hl & _)] Hrest; cbn.
  - apply sublist_cons, Hrest.
  - rewrite Hl. apply sublist_skip, Hrest.
Qed.

Lemma slot_factors l must ext :
  slot l must ext →
  Forall (fun f => -100 ≤ impact f ≤ 0 ∧ (impact f = 0 ↔ status f = pass)
                   ∧ status f ≠ info) ext.
Proof.
  intros [[_ ->]|(f & -> & _ & Hi & Hp & Hs)]; constructor; [|constructor].
  repeat split; try tauto; lia.
Qed.

Lemma slot_foreign l l' must ext :
  String.eqb l' l = false → slot l' must ext → labelled l ext = [].
Proof.
  intros Hne [[_ ->]|(f & -> & Hl & _)]; [reflexivity|].
  unfold labelled. cbn. rewrite Hl, Hne. reflexivity.
Qed.

Lemma slot_own l ext : slot l true ext → length (labelled l ext) = 1%nat.
Proof.
  intros [[Hm _]|(f & -> & Hl & _)]; [discriminate|].
  unfold labelled. cbn. rewrite Hl, String.eqb_refl. reflexivity.
Qed.

(** X14. The breakdown lists the rules in their fixed order, each at most
    once: its labels form a subsequence of the rule order; after the
    honeypot exit it holds the honeypot entry alone. *)
Theorem breakdown_in_rule_order `{Js.Builtins} (liquidityUsd : float)
    (security : option SecurityData) (analysis : Analysis.t)
    (bundleControl : option BundleControl.t) :
  map label (breakdown (calculateScore liquidityUsd security analysis bundleControl))
  `sublist_of` (if isHoneypot security then ["Honeypot"] else ruleOrder).
Proof.
  destruct (isHoneypot security) eqn:Hhp.
  - rewrite calculateScore_unfold, Hhp. cbn. reflexivity.
  - destruct (breakdown_shape liquidityUsd security analysis bundleControl Hhp)
      as (e1 & e2 & e3 & e4 & e5 & e6 & e7 & e8 & e9 & e10 & -> &
          S1 & S2 & S3 & S4 & S5 & S6 & S7 & S8 & S9 & S10).
    rewrite !map_app. unfold ruleOrder.
    repeat (eapply slot_labels; [eassumption|]).
    rewrite <- (app_nil_r (map label e10)).
    eapply slot_labels; [eassumption | constructor].
Qed.

(** X15. No entry of a breakdown raises the score: every impact lies
    between -100 and 0; an entry has status pass exactly when its impact
    is 0, and the status info is never used. *)
Theorem breakdown_entries `{Js.Builtins} (liquidityUsd : float)
    (security : option SecurityData) (analysis : Analysis.t)
    (bundleControl : option BundleControl.t) :
  Forall (fun f => -100 ≤ impact f ≤ 0 ∧ (impact f = 0 ↔ status f = pass)
                   ∧ status f ≠ info)
         (breakdown (calculateScore liquidityUsd security analysis bundleControl)).
Proof.
  destruct (isHoneypot security) eqn:Hhp.
  - rewrite calculateScore_unfold, Hhp. cbn. constructor; [|constructor].
    cbn. repeat split; intros; first [lia | discriminate].
  - destruct (breakdown_shape liquidityUsd security analysis bundleControl Hhp)
      as (e1 & e2 & e3 & e4 & e5 & e6 & e7 & e8 & e9 & e10 & -> &
          S1 & S2 & S3 & S4 & S5 & S6 & S7 & S8 & S9 & S10).
    rewrite !Forall_app. repeat split; eapply slot_factors; eassumption.
Qed.

(** X16. Unless the honeypot exit is taken, each of the four tiered rules
    (liquidity, bundle activity, launch volume, holder concentration)
    contributes exactly one entry, whatever the inputs. *)
Theorem tiered_rules_always_report `{Js.Builtins} (liquidityUsd : float)
    (security : option SecurityData) (analysis : Analysis.t)
    (bundleControl : option BundleControl.t) :
  Forall (fun l =>
            length (labelled l (breakdown (calculateScore liquidityUsd security
                                             analysis bundleControl)))
            = if isHoneypot security then 0%nat else 1%nat)
         ["Liquidity"; "Bundle Activity"; "Launch Volume"; "Holder Concentration"].
Proof.
  destruct (isHoneypot security) eqn:Hhp.
  - rewrite calculateScore_unfold, Hhp. cbn. repeat constructor.
  - destruct (breakdown_shape liquidityUsd security analysis bundleControl Hhp)
      as (e1 & e2 & e3 & e4 & e5 & e6 & e7 & e8 & e9 & e10 & -> &
          S1 & S2 & S3 & S4 & S5 & S6 & S7 & S8 & S9 & S10).
    repeat constructor; rewrite !labelled_app, !length_app;
      repeat match goal with
             | S : slot ?l' _ ?e |- context [labelled ?l ?e] =>
                 first [ rewrite (slot_foreign l l' _ e eq_refl S)
                       | rewrite (slot_own l e S) ]
             end; reflexivity.
Qed.

(** X17. The cluster-control enrichment can only lower the score: with it
    the breakdown is the one computed without it, possibly extended, and
    the score is at most the score computed without it. *)
Theorem cluster_enrichment_only_lowers `{Js.Builtins} (liquidityUsd : float)
    (security : option SecurityData) (analysis : Analysis.t)
    (bundleControl : option BundleControl.t) :
  let plain := calculateScore liquidityUsd security analysis None in
  let enriched := calculateScore liquidityUsd security analysis bundleControl in
  score enriched ≤ score plain
  ∧ breakdown plain `prefix_of` breakdown enriched.
Proof.
  cbv zeta. rewrite !calculateScore_unfold.
  destruct (isHoneypot security); [split; [lia | reflexivity]|].
  cbv zeta. cbn [score breakdown].
  set (st := launchRules analysis (contractRules liquidityUsd security (100, []))).
  destruct (ruleDeepBundle_emits bundleControl st) as (e9 & e10 & Q & S9 & S10).
  rewrite Q. cbn [ruleDeepBundle fst snd]. split.
  - pose proof (slot_factors _ _ _ S9) as F9. pose proof (slot_factors _ _ _ S10) as F10.
    assert (sumImpacts (e9 ++ e10) ≤ 0) as Hle.
    { rewrite sumImpacts_app.
      destruct S9 as [[_ ->]|(f9 & -> & _ & H9 & _)];
        destruct S10 as [[_ ->]|(f10 & -> & _ & H10 & _)]; cbn; lia. }
    lia.
  - exists (e9 ++ e10). reflexivity.
Qed.

(** ** More on the forensic analyzer *)

Lemma JsMap_get_set_eq {V} (k : string) (v : V) (m : JsMap.t V) :
  JsMap.get k (JsMap.set k v m) = Some v.
Proof.
  induction m as [|[k' v'] m IH]; cbn [JsMap.set JsMap.get].
  - rewrite String.eqb_refl. reflexivity.
  - destruct (String.eqb k k') eqn:E; cbn [JsMap.get]; rewrite ?String.eqb_refl, ?E; auto.
Qed.

Lemma JsMap_get_set_ne {V} (k k' : string) (v : V) (m : JsMap.t V) :
  k' ≠ k → JsMap.get k' (JsMap.set k v m) = JsMap.get k' m.
Proof.
  intros Hne. induction m as [|[k0 v0] m IH]; cbn [JsMap.set JsMap.get].
  - apply String.eqb_neq in Hne. rewrite Hne. reflexivity.
  - destruct (String.eqb_spec k k0) as [->|Hk]; cbn [JsMap.get].
    + apply String.eqb_neq in Hne. rewrite Hne. reflexivity.
    + destruct (String.eqb k' k0); [reflexivity | exact IH].
Qed.

Lemma JsMap_get_entry {V} (k : string) (v : V) (m : JsMap.t V) :
  JsMap.get k m = Some v → (k, v) ∈ m.
Proof.
  induction m as [|[k' v'] m IH]; cbn [JsMap.get]; [discriminate|].
  destruct (String.eqb_spec k k') as [->|Hk].
  - intros [= ->]. left.
  - intros Hg. right. apply IH, Hg.
Qed.

Lemma JsMap_entry_get {V} (k : string) (v : V) (m : JsMap.t V) :
  NoDup (keysOf m) → (k, v) ∈ m → JsMap.get k m = Some v.
Proof.
  unfold keysOf. induction m as [|[k' v'] m IH]; cbn [map fst JsMap.get].
  - intros _ Hin. inversion Hin.
  - intros Hnd Hin. apply NoDup_cons in Hnd as [Hk' Hnd].
    apply elem_of_cons in Hin as [[= -> ->]|Hin].
    + rewrite String.eqb_refl. reflexivity.
    + destruct (String.eqb_spec k k') as [->|Hk]; [|apply IH; assumption].
      exfalso. apply Hk'. apply list_elem_of_fmap. exists (k', v). auto.
Qed.

Lemma JsMap_get_none {V} (k : string) (m : JsMap.t V) :
  JsMap.get k m = None ↔ k ∉ keysOf m.
Proof.
  unfold keysOf. induction m as [|[k' v'] m IH]; cbn [map fst JsMap.get].
  - split; [intros _; apply not_elem_of_nil | reflexivity].
  - rewrite not_elem_of_cons. destruct (String.eqb_spec k k') as [->|Hk].
    + split; [discriminate | intros [Hne _]; congruence].
    + rewrite IH. tauto.
Qed.

Lemma membersAt_set s k v tbl :
  membersAt s (JsMap.set k v tbl) = if String.eqb s k then v else membersAt s tbl.
Proof.
  unfold membersAt. destruct (String.eqb_spec s k) as [->|Hne].
  - rewrite JsMap_get_set_eq. reflexivity.
  - rewrite JsMap_get_set_ne by exact Hne. reflexivity.
Qed.

Lemma fanOutOf_cons s tx txs :
  fanOutOf s (tx :: txs)
  = (if fanEligible tx && String.eqb (sellerAddress tx) s
     then {[buyerAddress tx]} else ∅) ∪ fanOutOf s txs.
Proof.
  unfold fanOutOf. cbn [List.filter].
  destruct (fanEligible tx && String.eqb (sellerAddress tx) s); cbn [map list_to_set].
  - reflexivity.
  - symmetry. apply union_empty_l_L.
Qed.

Lemma tableOk_set k v tbl :
  tableOk tbl → k ∉ OBJECT_PROTOTYPE_KEYS ∨ k ∈ keysOf tbl → NoDup v →
  tableOk (JsMap.set k v tbl).
Proof.
  intros (Hk & Hp & Hm) Hkey Hv. split; [|split].
  - rewrite JsMap_set_keys. apply JsSet_add_NoDup, Hk.
  - rewrite JsMap_set_keys. apply Forall_forall. intros x Hx.
    apply JsSet_add_elem in Hx as [->|Hx].
    + destruct Hkey as [Hkey|Hkey]; [exact Hkey|].
      exact (proj1 (Forall_forall _ _) Hp k Hkey).
    + exact (proj1 (Forall_forall _ _) Hp x Hx).
  - intros s. rewrite membersAt_set. destruct (String.eqb s k); [exact Hv | apply Hm].
Qed.

(** The table after a window, against the table before it. *)
Lemma sourceToRecipients_table txs tbl tbl' :
  tableOk tbl →
  sourceToRecipients txs tbl = Some tbl' →
  tableOk tbl'
  ∧ ∀ s b, b ∈ membersAt s tbl' ↔ b ∈ membersAt s tbl ∨ b ∈ fanOutOf s txs.
Proof.
  revert tbl. induction txs as [|tx txs IH]; intros tbl Hok.
  - cbn [sourceToRecipients]. intros [= <-]. split; [exact Hok|].
    intros s b. unfold fanOutOf. cbn. rewrite elem_of_empty. tauto.
  - cbn [sourceToRecipients]. fold (fanEligible tx).
    destruct (fanEligible tx) eqn:El.
    + assert (Hstep : ∀ v, NoDup v →
        (sellerAddress tx ∉ OBJECT_PROTOTYPE_KEYS ∨ sellerAddress tx ∈ keysOf tbl) →
        (∀ b, b ∈ JsSet.add (buyerAddress tx) v
              ↔ b = buyerAddress tx ∨ b ∈ membersAt (sellerAddress tx) tbl) →
        sourceToRecipients txs
          (JsMap.set (sellerAddress tx) (JsSet.add (buyerAddress tx) v) tbl) = Some tbl' →
        tableOk tbl'
        ∧ ∀ s b, b ∈ membersAt s tbl' ↔ b ∈ membersAt s tbl ∨ b ∈ fanOutOf s (tx :: txs)).
      { intros v Hv Hkey Hmem Hrun.
        destruct (IH _ (tableOk_set _ _ _ Hok Hkey (JsSet_add_NoDup _ _ Hv)) Hrun)
          as [Hok' Hchar].
        split; [exact Hok'|]. intros s b.
        rewrite Hchar, membersAt_set, fanOutOf_cons, El. cbn [andb].
        rewrite (String.eqb_sym (sellerAddress tx) s).
        destruct (String.eqb_spec s (sellerAddress tx)) as [->|Hne].
        - rewrite Hmem, elem_of_union, elem_of_singleton. tauto.
        - rewrite elem_of_union, elem_of_empty. tauto. }
      destruct (JsMap.get (sellerAddress tx) tbl) as [recipients|] eqn:Eg.
      * apply Hstep.
        -- pose proof (proj2 (proj2 Hok) (sellerAddress tx)) as Hnd.
           unfold membersAt in Hnd. rewrite Eg in Hnd. exact Hnd.
        -- right. destruct (decide (sellerAddress tx ∈ keysOf tbl)) as [|Hno]; [assumption|].
           apply JsMap_get_none in Hno. congruence.
        -- intros b. rewrite JsSet_add_elem. unfold membersAt. rewrite Eg. reflexivity.
      * case_bool_decide as Hproto; [discriminate|].
        apply Hstep.
        -- apply NoDup_nil_2.
        -- left. exact Hproto.
        -- intros b. rewrite JsSet_add_elem. unfold membersAt. rewrite Eg. reflexivity.
    + intros Hrun. destruct (IH tbl Hok Hrun) as [Hok' Hchar].
      split; [exact Hok'|]. intros s b.
      rewrite Hchar, fanOutOf_cons, El. cbn [andb].
      rewrite elem_of_union, elem_of_empty. tauto.
Qed.

(** The table raises exactly on an eligible transfer whose seller names
    an inherited property. *)
Lemma sourceToRecipients_raises txs tbl :
  tableOk tbl →
  sourceToRecipients txs tbl = None
  ↔ ∃ tx, tx ∈ txs ∧ fanEligible tx = true
          ∧ sellerAddress tx ∈ OBJECT_PROTOTYPE_KEYS.
Proof.
  revert tbl. induction txs as [|tx txs IH]; intros tbl Hok.
  - cbn. split; [discriminate | intros (tx & Hin & _); inversion Hin].
  - cbn [sourceToRecipients]. fold (fanEligible tx).
    assert (Hcons : ∀ P : NormalizedTransfer → Prop,
      (∃ t, t ∈ tx :: txs ∧ P t) ↔ P tx ∨ ∃ t, t ∈ txs ∧ P t).
    { intros P. split.
      - intros (t & Hin & Ht). apply elem_of_cons in Hin as [->|Hin]; eauto.
      - intros [Ht|(t & Hin & Ht)]; [exists tx | exists t]; split; auto; [left | right; auto]. }
    rewrite (Hcons (fun t => fanEligible t = true ∧ sellerAddress t ∈ OBJECT_PROTOTYPE_KEYS)).
    destruct (fanEligible tx) eqn:El.
    + destruct (JsMap.get (sellerAddress tx) tbl) as [recipients|] eqn:Eg.
      * assert (sellerAddress tx ∈ keysOf tbl) as Hkey.
        { destruct (decide (sellerAddress tx ∈ keysOf tbl)) as [|Hno]; [assumption|].
          apply JsMap_get_none in Hno. congruence. }
        assert (sellerAddress tx ∉ OBJECT_PROTOTYPE_KEYS) as Hnp
          by exact (proj1 (Forall_forall _ _) (proj1 (proj2 Hok)) _ Hkey).
        rewrite IH.
        -- split; [auto | intros [[_ Hp]|Hex]; [contradiction | exact Hex]].
        -- apply tableOk_set; [exact Hok | right; exact Hkey |].
           apply JsSet_add_NoDup.
           pose proof (proj2 (proj2 Hok) (sellerAddress tx)) as Hnd.
           unfold membersAt in Hnd. rewrite Eg in Hnd. exact Hnd.
      * case_bool_decide as Hproto.
        -- split; [auto | reflexivity].
        -- rewrite IH.
           ++ split; [auto | intros [[_ Hp]|Hex]; [contradiction | exact Hex]].
           ++ apply tableOk_set; [exact Hok | left; exact Hproto |].
              apply JsSet_add_NoDup, NoDup_nil_2.
    + rewrite IH by exact Hok.
      split; [auto | intros [[Hf _]|Hex]; [discriminate | exact Hex]].
Qed.

Lemma tableOk_empty : tableOk [].
Proof.
  split; [constructor | split; [constructor | intros s; constructor]].
Qed.

Lemma hasFanOut_spec tbl :
  tableOk tbl →
  hasFanOut tbl = true ↔ ∃ s, (3 ≤ length (membersAt s tbl))%nat.
Proof.
  intros (Hk & _ & _). unfold hasFanOut, JsSet.size. rewrite existsb_exists. split.
  - intros ([k v] & Hin & Hsz). cbn [snd] in Hsz. exists k.
    unfold membersAt. rewrite (JsMap_entry_get k v tbl Hk) by (apply list_elem_of_In, Hin).
    cbn. lia.
  - intros (s & Hlen). unfold membersAt in Hlen.
    destruct (JsMap.get s tbl) as [v|] eqn:Eg; cbn in Hlen; [|lia].
    exists (s, v). split; [apply list_elem_of_In, JsMap_get_entry, Eg|].
    cbn [snd]. lia.
Qed.

(** The fields of an analysis, on any chain. *)
Lemma analyze_fields (f : ForensicData) priceUsd fdv chainId r :
  analyzeForensics (Some f) priceUsd fdv chainId = Some r →
  let sol := isSolanaChain chainId in
  block0Buyers r
  = fold_left (fun s a => JsSet.add a s)
      (map buyerAddress (surviving sol (block0Transfers f))) JsSet.empty
  ∧ sniperCount r = JsSet.size (block0Buyers r)
  ∧ block0Volume r = windowVolume sol priceUsd (block0Transfers f)
  ∧ earlyVolume r = windowVolume sol priceUsd (earlyTransfers f)
  ∧ (sol = false →
     bundleVolumeUSD r = block0Volume r
     ∧ ∃ tbl, sourceToRecipients (earlyTransfers f) [] = Some tbl
              ∧ hasBundleCluster r = hasFanOut tbl).
Proof.
  unfold analyzeForensics. cbv zeta.
  rewrite block0_fold.
  pose proof (early_fold (isSolanaChain chainId) priceUsd (earlyTransfers f)
                0%float JsSet.empty JsSet.empty) as [Hv Hb].
  destruct (fold_left (earlyStep (isSolanaChain chainId) priceUsd) (earlyTransfers f)
              (0%float, JsSet.empty, JsSet.empty)) as [[ev eb] fs].
  cbn [fst snd] in Hv, Hb. subst ev eb.
  fold (windowVolume (isSolanaChain chainId) priceUsd (block0Transfers f)).
  fold (windowVolume (isSolanaChain chainId) priceUsd (earlyTransfers f)).
  destruct (isSolanaChain chainId).
  - destruct (negb _ && _); intros [= <-]; cbn;
      repeat split; try reflexivity; discriminate.
  - destruct (sourceToRecipients (earlyTransfers f) []) as [tbl|]; [|discriminate].
    intros [= <-]. cbn. repeat split; try reflexivity.
    + destruct (hasFanOut tbl); reflexivity.
    + exists tbl. auto.
Qed.

(** X18. The seed-buyer set of an analysis has no duplicate, its size is
    the reported sniper count, and its members are exactly the buyers of
    the launch-window transfers that are not mint-like noise: the set is
    contained in the addresses seen in the launch window. *)
Theorem seed_buyers_of_launch_window (f : ForensicData) (priceUsd fdv : float)
    (chainId : string) (r : AnalysisResult) :
  analyzeForensics (Some f) priceUsd fdv chainId = Some r →
  NoDup (block0Buyers r)
  ∧ sniperCount r = Z.of_nat (length (block0Buyers r))
  ∧ ∀ a, a ∈ block0Buyers r
         ↔ ∃ tx, tx ∈ block0Transfers f
                 ∧ mintLikeNoise (isSolanaChain chainId) tx = false
                 ∧ buyerAddress tx = a.
Proof.
  intros Hr. destruct (analyze_fields f priceUsd fdv chainId r Hr) as (Hb & Hn & _).
  cbv zeta in Hb. split; [|split].
  - rewrite Hb. apply JsSet_adds_NoDup, NoDup_nil_2.
  - exact Hn.
  - intros a. rewrite Hb, JsSet_adds_elem. unfold JsSet.empty, surviving.
    rewrite elem_of_nil, list_elem_of_In, in_map_iff. split.
    + intros [(tx & <- & Hin)|[]]. apply filter_In in Hin as [Hin Hs].
      exists tx. repeat split; [apply list_elem_of_In, Hin | apply negb_true_iff, Hs].
    + intros (tx & Hin & Hs & <-). left. exists tx. split; [reflexivity|].
      apply filter_In. split; [apply list_elem_of_In, Hin | rewrite Hs; reflexivity].
Qed.

Lemma seed_buyers_of_launch_window_witness :
  ∃ r, analyzeForensics (Some threeBuys) 0.01 1000000 "solana" = Some r
       ∧ NoDup (block0Buyers r)
       ∧ sniperCount r = Z.of_nat (length (block0Buyers r)).
Proof.
  eexists. split; [vm_compute; reflexivity|].
  match goal with |- NoDup (block0Buyers ?r) ∧ _ =>
    destruct (seed_buyers_of_launch_window threeBuys 0.01 1000000 "solana" r)
      as (Hnd & Hn & _); [vm_compute; reflexivity | split; assumption]
  end.
Defined.

(** X19. On an account-model chain the bundle volume is always the
    launch-window volume, whatever the cluster verdict. *)
Theorem evm_bundle_volume (f : ForensicData) (priceUsd fdv : float)
    (chainId : string) (r : AnalysisResult) :
  chainId ≠ "solana" →
  analyzeForensics (Some f) priceUsd fdv chainId = Some r →
  bundleVolumeUSD r = block0Volume r
  ∧ block0Volume r = windowVolume false priceUsd (block0Transfers f).
Proof.
  intros Hchain Hr. apply String.eqb_neq in Hchain.
  destruct (analyze_fields f priceUsd fdv chainId r Hr) as (_ & _ & Hv & _ & Hevm).
  cbv zeta in Hv, Hevm. unfold isSolanaChain in *. rewrite Hchain in *.
  destruct (Hevm eq_refl) as [Hbv _]. auto.
Qed.

Lemma evm_bundle_volume_witness :
  ∃ r, analyzeForensics (Some evmLaunch) 0.01 1000000 "ethereum" = Some r
       ∧ bundleVolumeUSD r = block0Volume r
       ∧ block0Volume r = windowVolume false 0.01 (block0Transfers evmLaunch).
Proof.
  eexists. split; [vm_compute; reflexivity|].
  match goal with |- bundleVolumeUSD ?r = _ ∧ _ =>
    apply (evm_bundle_volume evmLaunch 0.01 1000000 "ethereum" r);
      [discriminate | vm_compute; reflexivity]
  end.
Defined.

(** X20. On an account-model chain the cluster verdict is the fan-out
    rule: it is true exactly when some seller sent, within the early
    window, to at least three distinct recipients (zero-address sellers
    and empty or zero-address recipients not counted). *)
Theorem evm_fan_out_verdict (f : ForensicData) (priceUsd fdv : float)
    (chainId : string) (r : AnalysisResult) :
  chainId ≠ "solana" →
  analyzeForensics (Some f) priceUsd fdv chainId = Some r →
  hasBundleCluster r = true
  ↔ ∃ seller, (3 ≤ size (fanOutOf seller (earlyTransfers f)))%nat.
Proof.
  intros Hchain Hr. apply String.eqb_neq in Hchain.
  destruct (analyze_fields f priceUsd fdv chainId r Hr) as (_ & _ & _ & _ & Hevm).
  cbv zeta in Hevm. unfold isSolanaChain in Hevm. rewrite Hchain in Hevm.
  destruct (Hevm eq_refl) as (_ & tbl & Htbl & ->).
  destruct (sourceToRecipients_table _ _ _ tableOk_empty Htbl) as [Hok Hchar].
  rewrite (hasFanOut_spec tbl Hok).
  assert (Hsize : ∀ s, length (membersAt s tbl) = size (fanOutOf s (earlyTransfers f))).
  { intros s.
    rewrite <- (size_list_to_set (C := gset string) (membersAt s tbl))
      by apply (proj2 (proj2 Hok)).
    f_equal. apply set_eq. intros b. rewrite elem_of_list_to_set, Hchar.
    unfold membersAt at 1. cbn. rewrite elem_of_nil. tauto. }
  split; intros (s & Hs); exists s; [rewrite <- Hsize | rewrite Hsize]; exact Hs.
Qed.

Lemma evm_fan_out_verdict_witness :
  ∃ r, analyzeForensics (Some evmLaunch) 0.01 1000000 "ethereum" = Some r
       ∧ (hasBundleCluster r = true
          ↔ ∃ seller, (3 ≤ size (fanOutOf seller (earlyTransfers evmLaunch)))%nat).
Proof.
  eexists. split; [vm_compute; reflexivity|].
  match goal with |- hasBundleCluster ?r = true ↔ _ =>
    apply (evm_fan_out_verdict evmLaunch 0.01 1000000 "ethereum" r);
      [discriminate | vm_compute; reflexivity]
  end.
Defined.

(** X21. [analyzeForensics] raises in one case only: on an account-model
    chain, when an early-window transfer that passes the fan-out test has
    a seller field naming an inherited property of a plain object (such as
    "constructor").  Without a snapshot, or on the slot-model chain, it
    always returns. *)
Theorem analyzeForensics_raises (forensics : option ForensicData) (priceUsd fdv : float)
    (chainId : string) :
  analyzeForensics forensics priceUsd fdv chainId = None
  ↔ ∃ f tx, forensics = Some f ∧ chainId ≠ "solana"
            ∧ tx ∈ earlyTransfers f ∧ fanEligible tx = true
            ∧ sellerAddress tx ∈ OBJECT_PROTOTYPE_KEYS.
Proof.
  destruct forensics as [f|].
  2:{ cbn. split; [discriminate | intros (f & tx & Hf & _); discriminate]. }
  pose proof (sourceToRecipients_raises (earlyTransfers f) [] tableOk_empty) as Hraise.
  unfold analyzeForensics. cbv zeta.
  destruct (fold_left (block0Step _ _) _ _) as [B V].
  destruct (fold_left (earlyStep _ _) _ _) as [[ev eb] fs].
  unfold isSolanaChain. destruct (String.eqb_spec chainId "solana") as [->|Hchain].
  - split.
    + destruct (negb _ && _); discriminate.
    + intros (f' & tx & _ & Hne & _). congruence.
  - destruct (sourceToRecipients (earlyTransfers f) []) as [tbl|].
    + split; [discriminate|].
      intros (f' & tx & [= <-] & _ & Hin & He & Hp).
      assert (Some tbl = None) as Hn by (apply Hraise; eauto).
      discriminate.
    + split; [|reflexivity]. intros _.
      destruct (proj1 Hraise eq_refl) as (tx & Hin & He & Hp).
      exists f, tx. auto.
Qed.

Lemma fold_left_ext_in {A B} (f g : A → B → A) (l : list B) (a : A) :
  (∀ a x, x ∈ l → f a x = g a x) → fold_left f l a = fold_left g l a.
Proof.
  revert a. induction l as [|x l IH]; intros a Hfg; [reflexivity|].
  cbn [fold_left]. rewrite (Hfg a x) by left. apply IH.
  intros a' y Hy. apply Hfg. right. exact Hy.
Qed.

(** X22. The price only stands in for missing valuations: when every
    transfer of both windows carries a positive USD value, the analysis
    does not depend on the price. *)
Theorem price_unused_when_valued (f : ForensicData) (priceUsd priceUsd' fdv : float)
    (chainId : string) :
  Forall (fun tx => Js.gt (usdValue tx) 0 = true)
         (block0Transfers f ++ earlyTransfers f) →
  analyzeForensics (Some f) priceUsd fdv chainId
  = analyzeForensics (Some f) priceUsd' fdv chainId.
Proof.
  intros Hall. apply Forall_app in Hall as [H0 H1].
  unfold analyzeForensics. cbv zeta.
  rewrite (fold_left_ext_in (block0Step (isSolanaChain chainId) priceUsd)
             (block0Step (isSolanaChain chainId) priceUsd')).
  2:{ intros [B V] tx Htx. unfold block0Step.
      rewrite (proj1 (Forall_forall _ _) H0 tx Htx). reflexivity. }
  rewrite (fold_left_ext_in (earlyStep (isSolanaChain chainId) priceUsd)
             (earlyStep (isSolanaChain chainId) priceUsd')).
  2:{ intros [[V B] F] tx Htx. unfold earlyStep.
      rewrite (proj1 (Forall_forall _ _) H1 tx Htx). reflexivity. }
  reflexivity.
Qed.

Lemma price_unused_when_valued_witness :
  analyzeForensics (Some valuedBuys) 0.01 1000000 "solana"
  = analyzeForensics (Some valuedBuys) 2 1000000 "solana".
Proof.
  apply (price_unused_when_valued valuedBuys 0.01 2 1000000 "solana").
  repeat constructor.
Defined.

(** ** Wallet list, threat type and the assembled result *)

Lemma buildWalletList_length forensics block0Buyers priceUsd chainId :
  (length (buildWalletList forensics block0Buyers priceUsd chainId) ≤ 20)%nat.
Proof.
  destruct forensics as [f|]; cbn [buildWalletList]; [|cbn; lia].
  change (Js.slice0 (holders f) 20) with (take 20 (holders f)).
  rewrite length_imap, length_take. lia.
Qed.

(** Only the honeypot flag yields the distribution phase. *)
Lemma threatTypeOf_distribution securityData analysisResult :
  threatTypeOf securityData analysisResult = DISTRIBUTION_PHASE →
  isHoneypot securityData = true.
Proof.
  unfold threatTypeOf, isHoneypot.
  destruct (match securityData with Some s => is_honeypot s | None => false end);
    [reflexivity|].
  repeat match goal with |- context [if ?c then _ else _] => destruct c end;
    discriminate.
Qed.

(** X23. The wallet list holds one row per holder for the first 20
    holders, in order; a row is flagged as bundler exactly when its
    address is a seed buyer; the first row is always labelled deployer,
    any later row is labelled bundle buyer when flagged and unknown
    otherwise.  Without a snapshot the list is empty. *)
Theorem buildWalletList_rows (forensics : option ForensicData) (block0Buyers : JsSet.t)
    (priceUsd : float) (chainId : string) :
  let rows := buildWalletList forensics block0Buyers priceUsd chainId in
  let shown := match forensics with Some f => take 20 (holders f) | None => [] end in
  map WalletNode.address rows = map holderAddress shown
  ∧ map WalletNode.percentage rows = map percentage shown
  ∧ (length rows ≤ 20)%nat
  ∧ Forall (fun row => WalletNode.isBundler row
                       = JsSet.has (WalletNode.address row) block0Buyers) rows
  ∧ map WalletNode.fundingSource rows
    = imap (fun i row =>
              if (i =? 0)%nat then "Deployer"
              else if WalletNode.isBundler row then "Bundle Buyer" else "Unknown") rows.
Proof.
  cbv zeta. destruct forensics as [f|]; cbn [buildWalletList].
  2:{ repeat split; try reflexivity; [cbn; lia | constructor]. }
  change (Js.slice0 (holders f) 20) with (take 20 (holders f)).
  assert (Hlen : (length (take 20 (holders f)) ≤ 20)%nat) by (rewrite length_take; lia).
  revert Hlen. generalize (take 20 (holders f)). intros l Hlen.
  split; [|split; [|split; [|split]]].
  - apply list_eq. intros i. rewrite !list_lookup_fmap, list_lookup_imap.
    destruct (l !! i); reflexivity.
  - apply list_eq. intros i. rewrite !list_lookup_fmap, list_lookup_imap.
    destruct (l !! i); reflexivity.
  - rewrite length_imap. exact Hlen.
  - apply Forall_forall. intros row Hrow.
    apply list_elem_of_lookup in Hrow as [i Hi].
    rewrite list_lookup_imap in Hi. destruct (l !! i); [|discriminate].
    injection Hi as <-. reflexivity.
  - apply list_eq. intros i.
    rewrite list_lookup_fmap, !list_lookup_imap.
    destruct (l !! i); reflexivity.
Qed.

(** X24. The threat type only depends on the honeypot flag, the cluster
    verdict and whether more than 3 seed buyers were found: the branch
    that also tests the launch volume never changes the outcome. *)
Theorem threatTypeOf_decided (securityData : option SecurityData)
    (analysisResult : AnalysisResult) :
  threatTypeOf securityData analysisResult
  = if isHoneypot securityData then DISTRIBUTION_PHASE
    else if hasBundleCluster analysisResult || (sniperCount analysisResult >? 3)
         then ACCUMULATION_PHASE
         else ORGANIC_GROWTH.
Proof.
  unfold threatTypeOf, isHoneypot.
  destruct (match securityData with Some s => is_honeypot s | None => false end);
    [reflexivity|].
  destruct (hasBundleCluster analysisResult); [reflexivity|]. cbn [orb].
  destruct (Z.gtb_spec (sniperCount analysisResult) 5);
    destruct (Z.gtb_spec (sniperCount analysisResult) 3);
    destruct (Js.gt (block0Volume analysisResult) 5000); cbn; try reflexivity; lia.
Qed.

Section LiveScanFields.
Context {W : Type} `{Js.Builtins} `{Runtime W} `{HeliusApi W} `{AlchemyApi W}
        `{ScanProviders W}.

(** How the result of a live scan is put together. *)
Lemma live_scan_fields query w r :
  fst (runFullScan query w) = Some r →
  isDemoQuery query = false →
  fst (searchAllPairs query w) ≠ [] →
  ∃ liq sec fo price fdv ar stamp,
    analyzeForensics fo price fdv (ScanResult.chainId r) = Some ar
    ∧ ScanResult.wallets r
      = (let rows := buildWalletList fo (block0Buyers ar) price (ScanResult.chainId r) in
         if (0 <? length rows)%nat then rows
         else [ {| WalletNode.address := "No holder data available";
                   WalletNode.isBundler := false;
                   WalletNode.fundingSource := "N/A";
                   WalletNode.holdingAmount := 0;
                   WalletNode.percentage := 0 |} ])
    ∧ ScanResult.analysis r
      = assembleAnalysis ar (ScanResult.bundleControl r)
          (buildWalletList fo (block0Buyers ar) price (ScanResult.chainId r))
          liq fdv stamp
    ∧ ScanResult.score r
      = score (calculateScore liq sec (ScanResult.analysis r) (ScanResult.bundleControl r))
    ∧ ScanResult.scoreBreakdown r
      = breakdown (calculateScore liq sec (ScanResult.analysis r)
                     (ScanResult.bundleControl r))
    ∧ ScanResult.threatType r = threatTypeOf sec ar
    ∧ ((ScanResult.forensicsStatus r = SUCCESS ∧ fo ≠ None)
       ∨ (ScanResult.forensicsStatus r ≠ SUCCESS ∧ fo = None))
    ∧ (block0Buyers ar = [] → ScanResult.bundleControl r = None).
Proof.
  unfold runFullScan, isDemoQuery. cbv zeta. intros Hrun Hdemo Hpairs.
  apply orb_false_elim in Hdemo as [Hdemo Hsafe].
  apply orb_false_elim in Hdemo as [Hdemo Hnest].
  rewrite Hdemo, Hnest, Hsafe in Hrun.
  unfold ioBind in Hrun.
  destruct (searchAllPairs query w) as [[|bestPair others] w1];
    [contradiction|]. clear Hpairs.
  destruct (checkTokenSecurity _ _ w1) as [securityRes w2].
  destruct (env "VITE_MORALIS_API_KEY" w2) as [moralisKey w3].
  set (price := Js.parseFloat _) in *.
  set (fdv := Js.orNum _ 0) in *.
  set (liq := liquidityUsdOf bestPair) in *.
  set (sec := default None securityRes) in *.
  assert (Hfo : ∃ fo status,
    (let '(forensics, forensicsStatus) :=
       fst ((if negb (Js.truthyStr moralisKey) then ioRet (None, MISSING_KEY)
             else fun w => let '(res, w') := getTokenForensics
                                               (DexPairData.chainId bestPair)
                                               (Token.address (DexPairData.baseToken bestPair)) w in
                           match res with
                           | Some (Some f) => ioRet (Some f, SUCCESS)
                           | Some None => ioRet (None, NOT_SUPPORTED)
                           | None => ioRet (None, ERROR)
                           end w') w3) in
     forensics = fo ∧ forensicsStatus = status)
    ∧ ((status = SUCCESS ∧ fo ≠ None) ∨ (status ≠ SUCCESS ∧ fo = None))).
  { destruct (negb (Js.truthyStr moralisKey)).
    - exists None, MISSING_KEY. cbn. repeat split. right. split; [discriminate|reflexivity].
    - destruct (getTokenForensics _ _ w3) as [[[f|]|] w4]; cbn.
      + exists (Some f), SUCCESS. repeat split. left. split; [reflexivity|discriminate].
      + exists None, NOT_SUPPORTED. repeat split. right. split; [discriminate|reflexivity].
      + exists None, ERROR. repeat split. right. split; [discriminate|reflexivity]. }
  destruct Hfo as (fo & status & Hpair & Hstatus).
  match type of Hrun with
  | context [let '(_, _) := ?m w3 in _] => destruct (m w3) as [[fo' status'] w4]
  end.
  cbn [fst] in Hpair. destruct Hpair as [-> ->].
  destruct (analyzeForensics fo price fdv (DexPairData.chainId bestPair)) as [ar|] eqn:Ear;
    [|cbn in Hrun; discriminate].
  destruct (env "VITE_HELIUS_API_KEY" w4) as [heliusKey w5].
  destruct (env "VITE_ALCHEMY_API_KEY" w5) as [alchemyKey w6].
  match type of Hrun with
  | context [let '(_, _) := ?m w6 in _] =>
      assert (Hempty : block0Buyers ar = [] → fst (m w6) = None);
      [ intros Hb; rewrite Hb; cbn [length Nat.ltb Nat.leb];
        repeat match goal with |- context [if ?c then _ else _] => destruct c end;
        reflexivity
      | destruct (m w6) as [bundleControl w7] ]
  end.
  cbn [fst] in Hempty.
  destruct (isoNow w7) as [stamp w8].
  cbn [ioRet fst] in Hrun. injection Hrun as <-. cbn.
  exists liq, sec, fo, price, fdv, ar, stamp.
  split; [exact Ear|]. repeat split; try reflexivity; assumption.
Qed.

End LiveScanFields.

(** X25. In the result of a live scan the score is accounted for by the
    breakdown shipped with it: it is 100 plus the impacts of the listed
    factors, clamped to [0, 100]. *)
Theorem scan_score_accounted {W} `{Js.Builtins} `{Runtime W} `{HeliusApi W}
    `{AlchemyApi W} `{ScanProviders W} (query : string) (w : W) (r : ScanResult.t) :
  fst (runFullScan query w) = Some r →
  isDemoQuery query = false →
  fst (searchAllPairs query w) ≠ [] →
  ScanResult.score r
  = Z.max 0 (Z.min 100 (100 + sumImpacts (ScanResult.scoreBreakdown r)))
  ∧ 0 ≤ ScanResult.score r ≤ 100.
Proof.
  intros Hrun Hdemo Hpairs.
  destruct (live_scan_fields query w r Hrun Hdemo Hpairs)
    as (liq & sec & fo & price & fdv & ar & stamp & _ & _ & _ & Hs & Hb & _).
  rewrite Hs, Hb, calculateScore_unfold.
  destruct (isHoneypot sec); [cbn; lia|].
  cbv zeta. cbn [score breakdown].
  rewrite (running_score liq sec (ScanResult.analysis r) (ScanResult.bundleControl r)).
  lia.
Qed.

Lemma scan_score_accounted_witness :
  ∃ r, fst (@runFullScan unit Offline.builtins (Offline.runtime EmptyString)
              Offline.helius Offline.alchemy (Offline.providers [samplePair])
              "SMPL" tt) = Some r
       ∧ ScanResult.score r
         = Z.max 0 (Z.min 100 (100 + sumImpacts (ScanResult.scoreBreakdown r)))
       ∧ 0 ≤ ScanResult.score r ≤ 100.
Proof.
  eexists. split; [vm_compute; reflexivity|].
  apply (@scan_score_accounted unit Offline.builtins (Offline.runtime EmptyString)
           Offline.helius Offline.alchemy (Offline.providers [samplePair]) "SMPL" tt).
  - vm_compute. reflexivity.
  - reflexivity.
  - discriminate.
Defined.

(** X26. The result of a live scan always lists between 1 and 20
    wallets: the holder rows, or a single placeholder row when there is
    none. *)
Theorem scan_wallets_shown {W} `{Js.Builtins} `{Runtime W} `{HeliusApi W}
    `{AlchemyApi W} `{ScanProviders W} (query : string) (w : W) (r : ScanResult.t) :
  fst (runFullScan query w) = Some r →
  isDemoQuery query = false →
  fst (searchAllPairs query w) ≠ [] →
  (1 ≤ length (ScanResult.wallets r) ≤ 20)%nat.
Proof.
  intros Hrun Hdemo Hpairs.
  destruct (live_scan_fields query w r Hrun Hdemo Hpairs)
    as (liq & sec & fo & price & fdv & ar & stamp & _ & Hw & _).
  rewrite Hw. cbv zeta.
  pose proof (buildWalletList_length fo (block0Buyers ar) price (ScanResult.chainId r))
    as Hlen.
  destruct (Nat.ltb_spec 0 (length (buildWalletList fo (block0Buyers ar) price
                                      (ScanResult.chainId r)))); cbn; lia.
Qed.

Lemma scan_wallets_shown_witness :
  ∃ r, fst (@runFullScan unit Offline.builtins (Offline.runtime EmptyString)
              Offline.helius Offline.alchemy (Offline.providers [samplePair])
              "SMPL" tt) = Some r
       ∧ (1 ≤ length (ScanResult.wallets r) ≤ 20)%nat.
Proof.
  eexists. split; [vm_compute; reflexivity|].
  apply (@scan_wallets_shown unit Offline.builtins (Offline.runtime EmptyString)
           Offline.helius Offline.alchemy (Offline.providers [samplePair]) "SMPL" tt).
  - vm_compute. reflexivity.
  - reflexivity.
  - discriminate.
Defined.

(** X27. In the result of a live scan, a distribution-phase threat type
    always comes with score 0, risk level critical and the honeypot entry
    as the whole breakdown. *)
Theorem scan_distribution_phase {W} `{Js.Builtins} `{Runtime W} `{HeliusApi W}
    `{AlchemyApi W} `{ScanProviders W} (query : string) (w : W) (r : ScanResult.t) :
  fst (runFullScan query w) = Some r →
  isDemoQuery query = false →
  fst (searchAllPairs query w) ≠ [] →
  ScanResult.threatType r = DISTRIBUTION_PHASE →
  ScanResult.score r = 0
  ∧ ScanResult.riskLevel r = CRITICAL
  ∧ ScanResult.scoreBreakdown r = [honeypotFactor].
Proof.
  intros Hrun Hdemo Hpairs Hthreat.
  pose proof (live_scan_risk query w r Hrun Hdemo Hpairs) as Hrisk.
  destruct (live_scan_fields query w r Hrun Hdemo Hpairs)
    as (liq & sec & fo & price & fdv & ar & stamp & _ & _ & _ & Hs & Hb & Ht & _).
  rewrite Ht in Hthreat. apply threatTypeOf_distribution in Hthreat as Hhp.
  rewrite calculateScore_unfold, Hhp in Hs, Hb. cbn in Hs, Hb.
  rewrite Hrisk, Hs, Hb. repeat split.
Qed.

Lemma scan_distribution_phase_witness :
  ∃ r, fst (@runFullScan unit Offline.builtins (Offline.runtime EmptyString)
              Offline.helius Offline.alchemy (flaggedProviders [samplePair])
              "SMPL" tt) = Some r
       ∧ ScanResult.score r = 0
       ∧ ScanResult.riskLevel r = CRITICAL
       ∧ ScanResult.scoreBreakdown r = [honeypotFactor].
Proof.
  eexists. split; [vm_compute; reflexivity|].
  apply (@scan_distribution_phase unit Offline.builtins (Offline.runtime EmptyString)
           Offline.helius Offline.alchemy (flaggedProviders [samplePair]) "SMPL" tt).
  - vm_compute. reflexivity.
  - reflexivity.
  - discriminate.
  - reflexivity.
Defined.

(** X28. When a live scan got no forensic snapshot (status other than
    SUCCESS), no trace is run and nothing is inferred: there is no cluster
    result, the analysis reports zero bundlers, zero launch volume and
    zero holder concentration, and the wallet list is the placeholder. *)
Theorem scan_without_forensics {W} `{Js.Builtins} `{Runtime W} `{HeliusApi W}
    `{AlchemyApi W} `{ScanProviders W} (query : string) (w : W) (r : ScanResult.t) :
  fst (runFullScan query w) = Some r →
  isDemoQuery query = false →
  fst (searchAllPairs query w) ≠ [] →
  ScanResult.forensicsStatus r ≠ SUCCESS →
  ScanResult.bundleControl r = None
  ∧ Analysis.bundleWalletCount (ScanResult.analysis r) = 0
  ∧ Analysis.block0Volume (ScanResult.analysis r) = 0%float
  ∧ Analysis.holdingConcentration (ScanResult.analysis r) = 0%float
  ∧ map WalletNode.address (ScanResult.wallets r) = ["No holder data available"].
Proof.
  intros Hrun Hdemo Hpairs Hstatus.
  destruct (live_scan_fields query w r Hrun Hdemo Hpairs)
    as (liq & sec & fo & price & fdv & ar & stamp & Har & Hw & Ha & _ & _ & _ & Hfo & Hbc).
  destruct Hfo as [[Hs _]|[_ ->]]; [contradiction|].
  cbn in Har. injection Har as <-.
  rewrite Hw, Ha, (Hbc eq_refl). cbn. repeat split.
Qed.

Lemma scan_without_forensics_witness :
  ∃ r, fst (@runFullScan unit Offline.builtins (Offline.runtime EmptyString)
              Offline.helius Offline.alchemy (Offline.providers [samplePair])
              "SMPL" tt) = Some r
       ∧ ScanResult.bundleControl r = None
       ∧ Analysis.bundleWalletCount (ScanResult.analysis r) = 0
       ∧ Analysis.block0Volume (ScanResult.analysis r) = 0%float
       ∧ Analysis.holdingConcentration (ScanResult.analysis r) = 0%float
       ∧ map WalletNode.address (ScanResult.wallets r) = ["No holder data available"].
Proof.
  eexists. split; [vm_compute; reflexivity|].
  apply (@scan_without_forensics unit Offline.builtins (Offline.runtime EmptyString)
           Offline.helius Offline.alchemy (Offline.providers [samplePair]) "SMPL" tt).
  - vm_compute. reflexivity.
  - reflexivity.
  - discriminate.
  - discriminate.
Defined.
